(** * Tarot Vision: the vector-index build and query scripts

    A shallow embedding of [scripts/training/buildVectorIndex.py] and
    [scripts/training/testIndex.py].  The two scripts are straight-line
    Python over a file system, a printed transcript, JSON documents, an
    embedding model and a flat inner-product index.  They are embedded
    here as functions in a small state-and-exception monad over a model
    of those objects. *)

From Stdlib Require Import ZArith String Ascii List Lia DecimalString.
From stdpp Require Import gmap strings list fin_maps.

Local Open Scope string_scope.
Local Open Scope Z_scope.
Local Set Warnings "-register-all".

(** ** Python strings *)

Module Py.

(** [s.endswith(suffix)] *)
Definition endswith (s suffix : string) : bool :=
  let n := String.length s in
  let m := String.length suffix in
  (m <=? n)%nat && String.eqb (substring (n - m) m s) suffix.

(** [s.endswith((t1, t2, ...))]: true when one of the suffixes matches *)
Definition endswith_any (s : string) (suffixes : list string) : bool :=
  existsb (endswith s) suffixes.

(** [s.split(c)[0]]: the text before the first occurrence of [c] *)
Fixpoint split_first (c : ascii) (s : string) : string :=
  match s with
  | EmptyString => EmptyString
  | String a rest => if Ascii.eqb a c then EmptyString else String a (split_first c rest)
  end.

(** [s.replace(c, d)] for one-character [c] and [d] *)
Fixpoint replace (c d : ascii) (s : string) : string :=
  match s with
  | EmptyString => EmptyString
  | String a rest => String (if Ascii.eqb a c then d else a) (replace c d rest)
  end.

(** [str(n)] for a non-negative and for a signed integer *)
Definition str_nat (n : nat) : string := NilEmpty.string_of_uint (Nat.to_uint n).
Definition str_int (z : Z) : string := NilEmpty.string_of_int (Z.to_int z).

(** [sub in s] on strings *)
Fixpoint contains (sub s : string) : bool :=
  String.prefix sub s ||
  match s with
  | EmptyString => false
  | String _ rest => contains sub rest
  end.

End Py.

(** ** POSIX paths ([os.path]) *)

Module Path.

Definition sep : ascii := "/"%char.

Definition starts_with_sep (p : string) : bool :=
  match p with
  | String a _ => Ascii.eqb a sep
  | EmptyString => false
  end.

Fixpoint ends_with_sep (p : string) : bool :=
  match p with
  | EmptyString => false
  | String a EmptyString => Ascii.eqb a sep
  | String _ rest => ends_with_sep rest
  end.

(** [os.path.join(a, b)]: an absolute [b] discards [a]; a separator is
    inserted unless [a] is empty or already ends with one. *)
Definition join (a b : string) : string :=
  if starts_with_sep b then b
  else if String.eqb a "" || ends_with_sep a then a ++ b
  else a ++ "/" ++ b.

Definition join3 (a b c : string) : string := join (join a b) c.
Definition join4 (a b c d : string) : string := join (join3 a b c) d.

(** Scan of a path: [(head, tail)] with [head] the text up to and
    including the last separator and [tail] the text after it. *)
Fixpoint split_last (p : string) : string * string :=
  match p with
  | EmptyString => (EmptyString, EmptyString)
  | String a rest =>
      let '(h, t) := split_last rest in
      if Ascii.eqb a sep then
        (* a separator: it belongs to the head; if no later separator
           exists the head is just this character *)
        (String a h, t)
      else
        match h with
        | EmptyString => (EmptyString, String a t)
        | _ => (String a h, t)
        end
  end.

Fixpoint all_sep (p : string) : bool :=
  match p with
  | EmptyString => true
  | String a rest => Ascii.eqb a sep && all_sep rest
  end.

(** [head.rstrip('/')] *)
Fixpoint rstrip_sep (p : string) : string :=
  match p with
  | EmptyString => EmptyString
  | String a rest =>
      match rstrip_sep rest with
      | EmptyString => if Ascii.eqb a sep then EmptyString else String a EmptyString
      | r => String a r
      end
  end.

(** [os.path.dirname(p)] (posixpath): the head of the split, with its
    trailing separators removed unless it consists of separators only. *)
Definition dirname (p : string) : string :=
  let h := fst (split_last p) in
  if all_sep h then h else rstrip_sep h.

(** [os.path.basename(p)] *)
Definition basename (p : string) : string := snd (split_last p).

End Path.

(** ** Python values *)

(** Exceptions the two scripts can meet.  The file-system ones are all
    subclasses of [OSError]. *)
Inductive exn : Type :=
  | FileNotFoundError | NotADirectoryError | IsADirectoryError | FileExistsError
  | TypeError | KeyError | IndexError | ValueError
  | JSONDecodeError | FaissError.

Inductive res (A : Type) : Type :=
  | Ok (a : A)
  | Raise (e : exn).
Arguments Ok {A} a.
Arguments Raise {A} e.

(** The interpreter exits with status 0 when the entry function of a
    script returns, and with status 1 when an exception escapes it. *)
Definition exit_status {A} (r : res A) : Z :=
  match r with
  | Ok _ => 0
  | Raise _ => 1
  end.

(** A Python [dict] with string keys: insertion ordered, one entry per
    key.  Assigning to a present key replaces the value in place,
    assigning to an absent key appends. *)
Module Dict.
Section Dict.
Context {V : Type}.

Fixpoint get (k : string) (d : list (string * V)) : option V :=
  match d with
  | [] => None
  | (k', v) :: rest => if String.eqb k k' then Some v else get k rest
  end.

Fixpoint set (k : string) (v : V) (d : list (string * V)) : list (string * V) :=
  match d with
  | [] => [(k, v)]
  | (k', v') :: rest =>
      if String.eqb k k' then (k', v) :: rest else (k', v') :: set k v rest
  end.

Definition has (k : string) (d : list (string * V)) : bool :=
  match get k d with Some _ => true | None => false end.

Definition keys (d : list (string * V)) : list string := map fst d.

End Dict.
End Dict.

(** The scalar type of the embedding vectors (float32 in the scripts) is
    kept abstract: the scripts never compute on it themselves, the
    model and the index do. *)
Class Scalar (F : Type) : Type := {
  dot : list F -> list F -> F;     (* inner product, as the index computes it *)
  ltb : F -> F -> bool;            (* strict order on scores *)
  lowest : F;                      (* score reported for a slot without result *)
  prefer : Z * F -> Z * F -> bool  (* whether the index ranks one hit before another;
                                      among equal scores the choice is the library's *)
}.

Section Pipeline.
Context {F : Type} {SF : Scalar F}.

(** What [json.load] returns and [json.dump] accepts. *)
Inductive json : Type :=
  | JNull
  | JBool (b : bool)
  | JInt (z : Z)
  | JFloat (x : F)
  | JStr (s : string)
  | JArr (items : list json)
  | JObj (fields : list (string * json)).

(** A two-dimensional numpy array, as the list of its rows. *)
Definition ndarray : Type := list (list F).

(** [a.shape[1]]: the number of columns *)
Definition shape1 (a : ndarray) : nat :=
  match a with
  | row :: _ => length row
  | [] => 0%nat
  end.

(** [a.tolist()]: a 2-D array becomes a list of lists of floats *)
Definition tolist (a : ndarray) : json :=
  JArr (map (fun row => JArr (map JFloat row)) a).

(** [len(x)] *)
Definition py_len (x : json) : res nat :=
  match x with
  | JArr l => Ok (length l)
  | JObj d => Ok (length d)
  | JStr s => Ok (String.length s)
  | _ => Raise TypeError
  end.

(** Position of a possibly negative subscript in a sequence of [n] items *)
Definition subscript (n : nat) (i : Z) : option nat :=
  if (0 <=? i) && (i <? Z.of_nat n) then Some (Z.to_nat i)
  else if (i <? 0) && (- Z.of_nat n <=? i) then Some (Z.to_nat (Z.of_nat n + i))
  else None.

(** [x[i]] for an integer [i] (a numpy int64 in the query script) *)
Definition getitem_int (x : json) (i : Z) : res json :=
  match x with
  | JArr l =>
      match subscript (length l) i with
      | Some n => match l !! n with Some v => Ok v | None => Raise IndexError end
      | None => Raise IndexError
      end
  | JStr s =>
      match subscript (String.length s) i with
      | Some n => match String.get n s with
                  | Some c => Ok (JStr (String c EmptyString))
                  | None => Raise IndexError
                  end
      | None => Raise IndexError
      end
  | JObj _ => Raise KeyError
  | _ => Raise TypeError
  end.

(** [x[k]] for a string [k] *)
Definition getitem_str (x : json) (k : string) : res json :=
  match x with
  | JObj d => match Dict.get k d with Some v => Ok v | None => Raise KeyError end
  | _ => Raise TypeError
  end.

(** ** The file system and the transcript *)

(** What a file holds.  [JsonText j] is the text [json.dump] writes for
    [j], which [json.load] reads back as [j]; any other text fails to
    parse.  [FaissFile d rows] is what [faiss.write_index] writes for a
    flat index of dimension [d]. *)
Inductive content : Type :=
  | Blob (bytes : string)
  | JsonText (j : json)
  | FaissFile (d : nat) (rows : list (list F)).

(** A directory carries its entries in the order [os.listdir] reports
    them, which the operating system chooses. *)
Inductive node : Type :=
  | Dir (names : list string)
  | File (c : content).

(** One [print] call. *)
Inductive out : Type :=
  | Text (s : string)
  | RankLine (rank : nat) (card_name : json) (score : F)
      (* f"Rank {i+1}: {card_info['card_name']} (Score: {score:.4f})" *)
  | FileLine (filename : json)
      (* f"        File: {card_info['filename']}" *)
  | UnknownLine (rank : nat) (idx : Z).
      (* f"Rank {i+1}: Unknown Index {idx}" *)

Record world : Type := World {
  files : gmap string node;
  stdout : list out
}.

(** ** The monad: state, and exceptions that keep the state *)

Definition M (A : Type) : Type := world -> res A * world.

Definition ret {A} (a : A) : M A := fun w => (Ok a, w).

Definition bind {A B} (m : M A) (k : A -> M B) : M B :=
  fun w => match m w with
           | (Ok a, w') => k a w'
           | (Raise e, w') => (Raise e, w')
           end.

Definition raise {A} (e : exn) : M A := fun w => (Raise e, w).

Definition lift {A} (r : res A) : M A := fun w => (r, w).

(** [try: m except: handler] with a handler that catches everything *)
Definition try_except {A} (m : M A) (handler : exn -> M A) : M A :=
  fun w => match m w with
           | (Ok a, w') => (Ok a, w')
           | (Raise e, w') => handler e w'
           end.

End Pipeline.

Arguments json : clear implicits.
Arguments content : clear implicits.
Arguments node : clear implicits.
Arguments out : clear implicits.
Arguments world : clear implicits.
Arguments ndarray : clear implicits.
Arguments M : clear implicits.

Declare Scope py_scope.
Delimit Scope py_scope with py.
Notation "'let!' x ':=' m 'in' k" := (bind m (fun x => k))
  (at level 10, x name, m at level 100, k at level 200) : py_scope.
Notation "'do!' m 'in' k" := (bind m (fun _ => k))
  (at level 10, m at level 100, k at level 200) : py_scope.
Notation "'let?' x ':=' r 'in' k" :=
  (match r with Ok x => k | Raise e => Raise e end)
  (at level 10, x name, r at level 100, k at level 200) : py_scope.
Local Open Scope py_scope.

(** ** File-system and transcript primitives *)

Section Primitives.
Context {F : Type}.

Definition print (o : out F) : M F unit :=
  fun w => (Ok tt, {| files := files w; stdout := stdout w ++ [o] |}).

(** [os.path.exists(p)] *)
Definition path_exists (p : string) : M F bool :=
  fun w => (Ok (match files w !! p with Some _ => true | None => false end), w).

(** [os.listdir(p)] *)
Definition listdir (p : string) : M F (list string) :=
  fun w => match files w !! p with
           | Some (Dir names) => (Ok names, w)
           | Some (File _) => (Raise NotADirectoryError, w)
           | None => (Raise FileNotFoundError, w)
           end.

(** The directory that holds [p] must exist; the working directory and
    the root always do. *)
Definition parent_ok (p : string) (fs : gmap string (node F)) : res unit :=
  let parent := Path.dirname p in
  if Path.all_sep parent then Ok tt
  else match fs !! parent with
       | Some (Dir _) => Ok tt
       | Some (File _) => Raise NotADirectoryError
       | None => Raise FileNotFoundError
       end.

(** A new entry shows up in the listing of its directory. *)
Definition register_child (p : string) (fs : gmap string (node F)) : gmap string (node F) :=
  let parent := Path.dirname p in
  match fs !! parent with
  | Some (Dir names) =>
      if existsb (String.eqb (Path.basename p)) names then fs
      else <[parent := Dir (names ++ [Path.basename p])]> fs
  | _ => fs
  end.

(** [with open(p, 'w') as f: write c] *)
Definition write_file (p : string) (c : content F) : M F unit :=
  fun w =>
    if String.eqb (Path.basename p) "" then
      (Raise (if String.eqb p "" then FileNotFoundError else IsADirectoryError), w)
    else
      match files w !! p with
      | Some (Dir _) => (Raise IsADirectoryError, w)
      | _ =>
          match parent_ok p (files w) with
          | Ok _ => (Ok tt, {| files := <[p := File c]> (register_child p (files w)); stdout := stdout w |})
          | Raise e => (Raise e, w)
          end
      end.

(** [with open(p, 'r') as f: read] *)
Definition read_file (p : string) : M F (content F) :=
  fun w => match files w !! p with
           | Some (File c) => (Ok c, w)
           | Some (Dir _) => (Raise IsADirectoryError, w)
           | None => (Raise FileNotFoundError, w)
           end.

(** [json.load(f)] *)
Definition json_load (c : content F) : res (json F) :=
  match c with
  | JsonText j => Ok j
  | _ => Raise JSONDecodeError
  end.

(** The directories [os.makedirs] has to see or create for a path, outermost
    first: every prefix that ends a non-empty component. *)
Fixpoint ancestors_from (pre p : string) : list string :=
  let here := if String.eqb pre "" || Path.ends_with_sep pre then [] else [pre] in
  match p with
  | EmptyString => here
  | String a rest =>
      if Ascii.eqb a Path.sep
      then here ++ ancestors_from (pre ++ String a EmptyString) rest
      else ancestors_from (pre ++ String a EmptyString) rest
  end.

Definition ancestors (p : string) : list string := ancestors_from "" p.

Fixpoint mkdir_chain (dirs : list string) (fs : gmap string (node F)) : res (gmap string (node F)) :=
  match dirs with
  | [] => Ok fs
  | q :: rest =>
      match fs !! q with
      | Some (Dir _) => mkdir_chain rest fs
      | Some (File _) =>
          Raise (match rest with [] => FileExistsError | _ => NotADirectoryError end)
      | None => mkdir_chain rest (<[q := Dir []]> (register_child q fs))
      end
  end.

(** [os.makedirs(p, exist_ok=True)]: the empty path is an error, an
    existing directory is accepted, a file in the way is not. *)
Definition makedirs (p : string) : M F unit :=
  fun w =>
    if String.eqb p "" then (Raise FileNotFoundError, w)
    else match mkdir_chain (ancestors p) (files w) with
         | Ok fs => (Ok tt, {| files := fs; stdout := stdout w |})
         | Raise e => (Raise e, w)
         end.

(** One world keeps the files of another: every file is still there
    with the same content. *)
Definition keeps_files (w w' : world F) : Prop :=
  forall p c, files w !! p = Some (File c) -> files w' !! p = Some (File c).

End Primitives.

(** ** The libraries the scripts call *)

Section Libraries.
Context {F : Type} {SF : Scalar F}.

(** The outcome of the [try] block of the build loop for one image:
    the normalised feature vector of the image, or the text of the
    exception that was caught. *)
Inductive attempt : Type :=
  | Embedded (v : list F)
  | Failed (e : string).

(** The CLIP model with its processor, after the optional adapter has
    been merged ([Some path] when one was loaded).  Loading the base
    model is taken to succeed.  [load_adapter fs path] is
    [PeftModel.from_pretrained] followed by [merge_and_unload] on an
    existing path: it reads the files under the path and raises when
    they are not a loadable adapter.  Decoding, the forward pass and
    the L2 normalisation are the model's business. *)
Record clip : Type := Clip {
  cuda_available : bool;
  load_adapter : gmap string (node F) -> string -> res unit;
  image_features : option string -> content F -> attempt;
  text_features : option string -> string -> list F
}.

(** [faiss.IndexFlatIP(d)] after [index.add]: the stored rows. *)
Record faiss_index : Type := IndexFlatIP {
  dim : nat;
  rows : list (list F)
}.

Definition ntotal (ix : faiss_index) : nat := length (rows ix).

(** [np.vstack(arrays)]: the rows of all arrays in order; the arrays
    must agree on the number of columns. *)
Definition vstack (arrays : list (ndarray F)) : res (ndarray F) :=
  let stacked := concat arrays in
  match stacked with
  | [] => Raise ValueError
  | r :: _ =>
      if forallb (fun r' => Nat.eqb (length r') (length r)) stacked
      then Ok stacked else Raise ValueError
  end.

(** [index.add(x)] on a fresh [IndexFlatIP(d)] *)
Definition index_add (d : nat) (x : ndarray F) : res faiss_index :=
  if forallb (fun r => Nat.eqb (length r) d) x
  then Ok (IndexFlatIP d x) else Raise FaissError.

(** [faiss.read_index] *)
Definition read_index (c : content F) : res faiss_index :=
  match c with
  | FaissFile d rs => Ok (IndexFlatIP d rs)
  | _ => Raise FaissError
  end.

(** Exact search of a flat inner-product index: every row is scored
    against the query, the best [k] are returned by decreasing score,
    and when the index holds fewer than [k] rows the remaining slots
    carry label [-1] and the lowest score.  Which of two hits comes
    first is the library's [prefer]; the order among hits of equal
    score is not fixed here. *)
Fixpoint insert_desc (x : Z * F) (l : list (Z * F)) : list (Z * F) :=
  match l with
  | [] => [x]
  | y :: rest => if prefer x y then x :: y :: rest else y :: insert_desc x rest
  end.

Definition ranked (q : list F) (rs : list (list F)) : list (Z * F) :=
  fold_left (fun acc x => insert_desc x acc)
            (imap (fun i r => (Z.of_nat i, dot q r)) rs) [].

Definition pad_to (k : nat) (l : list (Z * F)) : list (Z * F) :=
  take k l ++ replicate (k - length l) (-1, lowest).

(** [D, I = index.search(x, k)] for a query batch of one vector; the
    result is [(D[0], I[0])]. *)
Definition index_search (ix : faiss_index) (q : list F) (k : nat) : res (list F * list Z) :=
  if Nat.eqb (length q) (dim ix)
  then let hits := pad_to k (ranked q (rows ix)) in
       Ok (map snd hits, map fst hits)
  else Raise FaissError.

(** What makes the search exact: a hit is ranked before another only
    when its score is not the lower one, and [ltb] is a total order on
    scores ([ltb a b = false] reads: [a] is not below [b]). *)
Definition ranks_by_score : Prop :=
  (forall x y : Z * F, prefer x y = true -> ltb (snd x) (snd y) = false) /\
  (forall x y : Z * F, prefer x y = false -> ltb (snd y) (snd x) = false) /\
  (forall a b c : F, ltb a b = false -> ltb b c = false -> ltb a c = false) /\
  (forall a b : F, ltb a b = false -> ltb b a = false -> a = b).

End Libraries.

Arguments attempt : clear implicits.
Arguments clip : clear implicits.
Arguments faiss_index : clear implicits.

(** ** [buildVectorIndex.py] *)

Module BuildVectorIndex.
Section Build.
Context {F : Type} {SF : Scalar F}.
Variable model : clip F.

(** The parsed command line: [--deck] is required, the other two
    default to [None]. *)
Record args : Type := Args {
  deck : string;
  adapter_path : option string;
  export_json : option string
}.

(** Truth value of an optional string: [None] and [""] are false. *)
Definition truthy (o : option string) : option string :=
  match o with
  | Some s => if String.eqb s "" then None else Some s
  | None => None
  end.

(** One element of the [metadata] list. *)
Record card_meta : Type := CardMeta {
  id : nat;
  filename : string;
  card_name : string
}.

Definition json_of_meta (m : card_meta) : json F :=
  JObj [("id", JInt (Z.of_nat (id m)));
        ("filename", JStr (filename m));
        ("card_name", JStr (card_name m))].

(** [img_file.split('.')[0].replace('_', ' ').replace('-', ' ')] *)
Definition derive_card_name (img_file : string) : string :=
  Py.replace "-" " " (Py.replace "_" " " (Py.split_first "." img_file)).

(** Step 1: the adapter is merged when a path was given and exists;
    a path that exists but does not hold an adapter makes the loader
    raise. *)
Definition load_model (a : args) : M F (option string) :=
  match truthy (adapter_path a) with
  | Some p =>
      let! e := path_exists p in
      if e then
        do! print (Text ("Loading LoRA adapter from " ++ p)) in
        do! (fun w => (load_adapter model (files w) p, w)) in
        ret (Some p)
      else
        do! print (Text "Using base CLIP model (no adapter loaded)") in
        ret None
  | None =>
      do! print (Text "Using base CLIP model (no adapter loaded)") in
      ret None
  end.

(** The body of the [try] block for one image: open the file and embed
    it.  A path that cannot be opened raises inside the block as well. *)
Definition try_embed (adapter : option string) (img_path : string)
    (fs : gmap string (node F)) : attempt F :=
  match fs !! img_path with
  | Some (File c) => image_features model adapter c
  | Some (Dir _) => Failed ("[Errno 21] Is a directory: '" ++ img_path ++ "'")
  | None => Failed ("[Errno 2] No such file or directory: '" ++ img_path ++ "'")
  end.

(** Step 3: [for idx, img_file in enumerate(image_files)].  The model
    returns a batch of one row, so what is appended to [embeddings] is a
    [1 x d] array (the script reads its width as [shape[1]]). *)
Fixpoint embed_loop (adapter : option string) (image_dir : string)
    (idx : nat) (image_files : list string)
    (embeddings : list (ndarray F)) (metadata : list card_meta)
    : M F (list (ndarray F) * list card_meta) :=
  match image_files with
  | [] => ret (embeddings, metadata)
  | img_file :: rest =>
      let img_path := Path.join image_dir img_file in
      fun w =>
        match try_embed adapter img_path (files w) with
        | Embedded v =>
            embed_loop adapter image_dir (S idx) rest
              (embeddings ++ [[v]])
              (metadata ++ [CardMeta idx img_file (derive_card_name img_file)]) w
        | Failed e =>
            (do! print (Text ("Error processing " ++ img_file ++ ": " ++ e)) in
             embed_loop adapter image_dir (S idx) rest embeddings metadata) w
        end
  end.

Definition deck_id_map : list (string * string) :=
  [("rws", "rws-1909"); ("thoth", "thoth"); ("marseille", "marseille")].

(** [deck_id_map.get(args.deck, args.deck)] *)
Definition app_deck_id (d : string) : string :=
  match Dict.get d deck_id_map with
  | Some canonical => canonical
  | None => d
  end.

(** [for i, meta in enumerate(metadata)]: fill [cards_data] *)
Fixpoint cards_loop (embeddings : list (ndarray F)) (i : nat)
    (metadata : list card_meta) (cards_data : list (string * json F))
    : res (list (string * json F)) :=
  match metadata with
  | [] => Ok cards_data
  | meta :: rest =>
      match embeddings !! i with
      | Some e =>
          let vec := tolist e in
          cards_loop embeddings (S i) rest
            (Dict.set (card_name meta)
               (JObj [("embedding", vec); ("count", JInt 1)]) cards_data)
      | None => Raise IndexError
      end
  end.

(** ["deckStyles" not in full_export] *)
Definition not_in (k : string) (x : json F) : res bool :=
  match x with
  | JObj d => Ok (negb (Dict.has k d))
  | JArr l => Ok (negb (existsb (fun v => match v with
                                          | JStr s => String.eqb s k
                                          | _ => false
                                          end) l))
  | JStr s => Ok (negb (Py.contains k s))
  | _ => Raise TypeError
  end.

(** [x[k] = v]: only a dict takes a string key *)
Definition setitem_str (x : json F) (k : string) (v : json F) : res (json F) :=
  match x with
  | JObj d => Ok (JObj (Dict.set k v d))
  | _ => Raise TypeError
  end.

(** The existing export document, or [{}] when there is none or it
    cannot be read or parsed. *)
Definition load_existing (export_path : string) : M F (json F) :=
  let! e := path_exists export_path in
  if e then
    try_except
      (let! c := read_file export_path in lift (json_load c))
      (fun _ => ret (JObj []))
  else ret (JObj []).

(** Step 6, the in-memory part: from the loaded document to the merged
    one, in the order the script evaluates it.  Returns [cards_data]
    with the merged [full_export]. *)
Definition merge_export (full_export : json F) (deck_id : string)
    (embeddings : list (ndarray F)) (metadata : list card_meta)
    : res (list (string * json F) * json F) :=
  let? missing := not_in "deckStyles" full_export in
  let? full_export :=
    (if missing then setitem_str full_export "deckStyles" (JObj [])
     else Ok full_export) in
  let? cards_data := cards_loop embeddings 0 metadata [] in
  let? styles := getitem_str full_export "deckStyles" in
  let? styles := setitem_str styles deck_id (JObj [("cards", JObj cards_data)]) in
  let? full_export := setitem_str full_export "deckStyles" styles in
  Ok (cards_data, full_export).

(** Step 6: merge this deck into the export document. *)
Definition export_step (a : args) (export_path : string)
    (embeddings : list (ndarray F)) (metadata : list card_meta) : M F unit :=
  do! print (Text ("Exporting embeddings to JSON for web app: " ++ export_path)) in
  let! full_export := load_existing export_path in
  let deck_id := app_deck_id (deck a) in
  let! merged := lift (merge_export full_export deck_id embeddings metadata) in
  let '(cards_data, full_export) := merged in
  do! makedirs (Path.dirname export_path) in
  do! write_file export_path (JsonText full_export) in
  print (Text ("Updated " ++ export_path ++ " with " ++ Py.str_nat (length cards_data)
               ++ " cards for " ++ deck_id)).

Definition image_suffixes : list string := [".jpg"; ".jpeg"; ".png"].

(** Steps 4 to 6, entered after the loop with what it accumulated. *)
Definition build_and_save (a : args)
    (embeddings : list (ndarray F)) (metadata : list card_meta) : M F unit :=
  match embeddings with
  | [] => print (Text "No embeddings generated.")
  | first :: _ =>
      (* 4. Build FAISS Index *)
      let d := shape1 first in
      let! embeddings_np := lift (vstack embeddings) in
      let! index := lift (index_add d embeddings_np) in
      do! print (Text ("Index built with " ++ Py.str_nat (ntotal index) ++ " vectors.")) in
      (* 5. Save Artifacts *)
      let output_dir := Path.join3 "data" "indices" (deck a) in
      do! makedirs output_dir in
      let index_path := Path.join output_dir "index.faiss" in
      let metadata_path := Path.join output_dir "metadata.json" in
      do! write_file index_path (FaissFile (dim index) (rows index)) in
      do! write_file metadata_path (JsonText (JArr (map json_of_meta metadata))) in
      do! print (Text ("Saved index to " ++ index_path)) in
      do! print (Text ("Saved metadata to " ++ metadata_path)) in
      (* 6. Export to JSON *)
      match truthy (export_json a) with
      | Some export_path => export_step a export_path embeddings metadata
      | None => ret tt
      end
  end.

Definition build_index (a : args) : M F unit :=
  let device := if cuda_available model then "cuda" else "cpu" in
  do! print (Text ("Building vector index for deck: " ++ deck a ++ " on " ++ device)) in
  (* 1. Load Model *)
  let! adapter := load_model a in
  (* 2. Prepare Data *)
  let image_dir := Path.join3 "data" "raw_images" (deck a) in
  let! found := path_exists image_dir in
  if negb found then
    print (Text ("Error: Image directory " ++ image_dir ++ " not found."))
  else
    let! names := listdir image_dir in
    let image_files := List.filter (fun f => Py.endswith_any f image_suffixes) names in
    match image_files with
    | [] => print (Text "No images found.")
    | _ :: _ =>
        do! print (Text ("Found " ++ Py.str_nat (length image_files)
                         ++ " images. Generating embeddings...")) in
        (* 3. Generate Embeddings *)
        let! em := embed_loop adapter image_dir 0 image_files [] [] in
        build_and_save a (fst em) (snd em)
    end.

(** The script's [__main__] *)
Definition main (a : args) (w : world F) : Z * world F :=
  let '(r, w') := build_index a w in (exit_status r, w').

(** *** Notions used to state the properties of the build *)

(** The paths of one deck. *)
Definition image_dir (a : args) : string := Path.join3 "data" "raw_images" (deck a).
Definition output_dir (a : args) : string := Path.join3 "data" "indices" (deck a).
Definition index_path (a : args) : string := Path.join (output_dir a) "index.faiss".
Definition metadata_path (a : args) : string := Path.join (output_dir a) "metadata.json".

(** The image files of a listing, as step 2 selects them. *)
Definition image_files_of (names : list string) : list string :=
  List.filter (fun f => Py.endswith_any f image_suffixes) names.

(** Loading the adapter does not fail: no path was given, or the path
    does not exist, or it holds a loadable adapter. *)
Definition adapter_ready (a : args) (w : world F) : Prop :=
  match truthy (adapter_path a) with
  | Some p =>
      match files w !! p with
      | Some _ => load_adapter model (files w) p = Ok tt
      | None => True
      end
  | None => True
  end.

(** The adapter the build merges, if any. *)
Definition adapter_of (a : args) (w : world F) : option string :=
  match truthy (adapter_path a) with
  | Some p => match files w !! p with Some _ => Some p | None => None end
  | None => None
  end.

(** The images that embed, in listing order: the metadata record the
    loop builds for each and its feature vector. *)
Fixpoint embedded (adapter : option string) (dir : string)
    (fs : gmap string (node F)) (idx : nat) (image_files : list string)
    : list (card_meta * list F) :=
  match image_files with
  | [] => []
  | img_file :: rest =>
      match try_embed adapter (Path.join dir img_file) fs with
      | Embedded v =>
          (CardMeta idx img_file (derive_card_name img_file), v)
            :: embedded adapter dir fs (S idx) rest
      | Failed _ => embedded adapter dir fs (S idx) rest
      end
  end.

(** Whether an image of the listing embeds. *)
Definition embeds (adapter : option string) (dir : string)
    (fs : gmap string (node F)) (f : string) : bool :=
  match try_embed adapter (Path.join dir f) fs with
  | Embedded _ => true
  | Failed _ => false
  end.

(** The image files of a listing that a build indexes: those that
    embed, in listing order. *)
Definition indexed (a : args) (w : world F) (names : list string) : list string :=
  List.filter (embeds (adapter_of a w) (image_dir a) (files w)) (image_files_of names).

(** The export document the merge starts from. *)
Definition existing_doc (export_path : string) (w : world F) : json F :=
  match files w !! export_path with
  | Some (File (JsonText j)) => j
  | _ => JObj []
  end.

(** What the loop stores under a card name. *)
Definition card_entry (e : ndarray F) : json F :=
  JObj [("embedding", tolist e); ("count", JInt 1)].

(** The deck entry of an export document, when it has the documented
    shape down to that entry. *)
Definition deck_entry (doc : json F) (deck_id : string) : option (json F) :=
  match doc with
  | JObj d =>
      match Dict.get "deckStyles" d with
      | Some (JObj styles) => Dict.get deck_id styles
      | _ => None
      end
  | _ => None
  end.

(** The documented shape of an exported embedding: a flat list of
    floats. *)
Definition flat_floats (j : json F) : bool :=
  match j with
  | JArr items => forallb (fun v => match v with JFloat _ => true | _ => false end) items
  | _ => false
  end.

(** A top-level field of an export document. *)
Definition top_field (doc : json F) (k : string) : option (json F) :=
  match doc with
  | JObj d => Dict.get k d
  | _ => None
  end.

(** A document the merge can work on: an object whose ["deckStyles"],
    if present, is an object. *)
Definition mergeable (doc : json F) : Prop :=
  match doc with
  | JObj d =>
      match Dict.get "deckStyles" d with
      | Some (JObj _) | None => True
      | Some _ => False
      end
  | _ => False
  end.

End Build.
End BuildVectorIndex.

(** ** [testIndex.py] *)

Module TestIndex.
Section Query.
Context {F : Type} {SF : Scalar F}.
Variable model : clip F.

(** The parsed command line, with the defaults of the parser. *)
Record args : Type := Args {
  deck : string;
  query : string
}.

Definition default_args : args := Args "rws" "a tarot card of the fool".

(** [k = 5  # Top 5 results] *)
Definition k : nat := 5.

(** The body of [for i in range(k)]; [D0] and [I0] are [D[0]] and [I[0]] *)
Definition report (metadata : json F) (D0 : list F) (I0 : list Z) (i : nat) : M F unit :=
  match I0 !! i, D0 !! i with
  | Some idx, Some score =>
      let! n := lift (py_len metadata) in
      if idx <? Z.of_nat n then
        let! card_info := lift (getitem_int metadata idx) in
        let! name := lift (getitem_str card_info "card_name") in
        do! print (RankLine (i + 1) name score) in
        let! file := lift (getitem_str card_info "filename") in
        print (FileLine file)
      else
        print (UnknownLine (i + 1) idx)
  | _, _ => raise IndexError
  end.

Fixpoint for_range (body : nat -> M F unit) (range : list nat) : M F unit :=
  match range with
  | [] => ret tt
  | i :: rest => do! body i in for_range body rest
  end.

Definition test_index (a : args) : M F unit :=
  do! print (Text ("Testing index for deck: " ++ deck a)) in
  (* 1. Load Index and Metadata *)
  let index_path := Path.join4 "data" "indices" (deck a) "index.faiss" in
  let metadata_path := Path.join4 "data" "indices" (deck a) "metadata.json" in
  let! have_index := path_exists index_path in
  let! have_metadata := path_exists metadata_path in
  if negb have_index || negb have_metadata then
    print (Text ("Error: Index or metadata not found in data/indices/" ++ deck a))
  else
    let! ic := read_file index_path in
    let! index := lift (read_index ic) in
    let! mc := read_file metadata_path in
    let! metadata := lift (json_load mc) in
    do! print (Text ("Loaded index with " ++ Py.str_nat (ntotal index) ++ " vectors.")) in
    (* 2. Load Model (Base + Adapter) *)
    let adapter_path := Path.join3 "models" "adapters" (deck a) in
    let! have_adapter := path_exists adapter_path in
    let! adapter :=
      (if have_adapter then
         do! print (Text ("Loading LoRA adapter from " ++ adapter_path)) in
         do! (fun w => (load_adapter model (files w) adapter_path, w)) in
         ret (Some adapter_path)
       else
         do! print (Text "Warning: Adapter not found, using base model.") in
         ret None) in
    (* 3. Encode Query *)
    do! print (Text ("Query: '" ++ query a ++ "'")) in
    let query_vector := text_features model adapter (query a) in
    (* 4. Search *)
    let! DI := lift (index_search index query_vector k) in
    let '(D0, I0) := DI in
    do! print (Text "
--- Search Results ---") in
    for_range (report metadata D0 I0) (seq 0 k).

(** The ranked lines of a transcript: one per reported result slot. *)
Definition is_rank_line (o : out F) : bool :=
  match o with
  | RankLine _ _ _ | UnknownLine _ _ => true
  | _ => false
  end.

Definition rank_lines (transcript : list (out F)) : list (out F) :=
  List.filter is_rank_line transcript.

(** The script's [__main__] *)
Definition main (a : args) (w : world F) : Z * world F :=
  let '(r, w') := test_index a w in (exit_status r, w').

(** *** Notions used to state the properties of the query *)

Definition index_path (a : args) : string := Path.join4 "data" "indices" (deck a) "index.faiss".
Definition metadata_path (a : args) : string := Path.join4 "data" "indices" (deck a) "metadata.json".
Definition adapter_dir (a : args) : string := Path.join3 "models" "adapters" (deck a).

(** The adapter the query merges, if any. *)
Definition adapter_of (a : args) (w : world F) : option string :=
  match files w !! adapter_dir a with
  | Some _ => Some (adapter_dir a)
  | None => None
  end.

(** Loading the adapter does not fail: there is no adapter directory
    for the deck, or it holds a loadable adapter. *)
Definition adapter_ready (a : args) (w : world F) : Prop :=
  match files w !! adapter_dir a with
  | Some _ => load_adapter model (files w) (adapter_dir a) = Ok tt
  | None => True
  end.


(** Labels of a search result are row numbers or the filler [-1]. *)
Definition label_ok (n : nat) (idx : Z) : Prop := -1 <= idx < Z.of_nat n.

(** A metadata document as the build writes it: a non-empty array of
    objects that carry a card name and a file name. *)
Definition is_card (v : json F) : Prop :=
  exists d name file,
    v = JObj d /\ Dict.get "card_name" d = Some name /\ Dict.get "filename" d = Some file.

Definition well_formed (metadata : json F) : Prop :=
  exists l, metadata = JArr l /\ l <> [] /\ Forall is_card l.

End Query.
End TestIndex.

(** ** A small concrete instance

    Integer scalars with the exact inner product, a model whose feature
    vector of a non-empty image file is read off its bytes, and a few
    file systems. *)

Module Worked.

#[export] Instance Z_scalar : Scalar Z := {
  dot := fun u v => fold_right Z.add 0 (zip_with Z.mul u v);
  ltb := Z.ltb;
  lowest := -340282346638528859811704183484516925440;
  prefer := fun x y => Z.ltb (snd y) (snd x)
}.

(** The same scalars with the other order among hits of equal score:
    of two equal hits the one of the later row comes first. *)
Definition Z_scalar_later_first : Scalar Z := {|
  dot := fun u v => fold_right Z.add 0 (zip_with Z.mul u v);
  ltb := Z.ltb;
  lowest := -340282346638528859811704183484516925440;
  prefer := fun x y => negb (Z.ltb (snd x) (snd y))
|}.

(** An empty file does not decode; any other image embeds.  An
    adapter is a directory. *)
Definition toy : clip Z := {|
  cuda_available := false;
  load_adapter := fun fs path =>
    match fs !! path with
    | Some (Dir _) => Ok tt
    | _ => Raise ValueError
    end;
  image_features := fun _ c =>
    match c with
    | Blob "" => Failed "cannot identify image file"
    | Blob bytes => Embedded [Z.of_nat (String.length bytes); 1]
    | _ => Failed "cannot identify image file"
    end;
  text_features := fun _ text => [Z.of_nat (String.length text); 1]
|}.

Definition raw_images (names : list string) (images : list (string * string))
    : list (string * node Z) :=
  [("data", Dir ["raw_images"]);
   ("data/raw_images", Dir ["rws"]);
   ("data/raw_images/rws", Dir names)]
  ++ map (fun nb => ("data/raw_images/rws/" ++ fst nb, File (Blob (snd nb)))) images.

Definition world_of (entries : list (string * node Z)) : world Z :=
  {| files := list_to_map entries; stdout := [] |}.

Definition three_images : list (string * string) :=
  [("01_fool.jpg", "a"); ("02_magician.jpg", "bb"); ("03_priestess.jpg", "ccc")].

(** The three-image deck, listed in name order. *)
Definition w_three : world Z :=
  world_of (raw_images ["01_fool.jpg"; "02_magician.jpg"; "03_priestess.jpg"] three_images).

(** The same three files, listed by the operating system in another order. *)
Definition w_permuted : world Z :=
  world_of (raw_images ["03_priestess.jpg"; "01_fool.jpg"; "02_magician.jpg"] three_images).

(** Two images, the first an empty file. *)
Definition w_corrupt : world Z :=
  world_of (raw_images ["01_fool.jpg"; "02_magician.jpg"]
              [("01_fool.jpg", ""); ("02_magician.jpg", "bb")]).

(** No [data] directory at all. *)
Definition w_empty : world Z := world_of [].

(** A deck directory without image files. *)
Definition w_no_images : world Z :=
  world_of (raw_images ["notes.txt"] [("notes.txt", "to do")]).

(** A deck directory whose only image is an empty file. *)
Definition w_all_corrupt : world Z :=
  world_of (raw_images ["01_fool.jpg"] [("01_fool.jpg", "")]).

(** Two image files that derive the same card name. *)
Definition w_same_name : world Z :=
  world_of (raw_images ["fool.jpg"; "fool.png"] [("fool.jpg", "a"); ("fool.png", "bb")]).

Definition marseille_card (n : Z) : json Z :=
  JObj [("embedding", JArr [JFloat n; JFloat 1]); ("count", JInt 1)].

Definition marseille_entry : json Z :=
  JObj [("cards", JObj [("le bateleur", marseille_card 1); ("la papesse", marseille_card 2);
                        ("l imperatrice", marseille_card 3); ("l empereur", marseille_card 4);
                        ("le pape", marseille_card 5)])].

(** The three-image deck next to an export document that already holds
    a five-card ["marseille"] entry. *)
Definition w_marseille : world Z :=
  world_of (raw_images ["01_fool.jpg"; "02_magician.jpg"; "03_priestess.jpg"] three_images
            ++ [("out", Dir ["prototypes.json"]);
                ("out/prototypes.json",
                 File (JsonText (JObj [("deckStyles", JObj [("marseille", marseille_entry)])])))]).

Definition build_rws : BuildVectorIndex.args := BuildVectorIndex.Args "rws" None None.

Definition build_rws_export (export_path : string) : BuildVectorIndex.args :=
  BuildVectorIndex.Args "rws" None (Some export_path).

Definition query_rws : TestIndex.args := TestIndex.default_args.

(** The three-image deck after a build: an index of three rows. *)
Definition w_built : world Z := snd (BuildVectorIndex.build_index toy build_rws w_three).

Definition claimed_metadata : json Z :=
  JArr [JObj [("id", JInt 0); ("filename", JStr "01_fool.jpg"); ("card_name", JStr "01 fool")];
        JObj [("id", JInt 1); ("filename", JStr "02_magician.jpg"); ("card_name", JStr "02 magician")];
        JObj [("id", JInt 2); ("filename", JStr "03_priestess.jpg"); ("card_name", JStr "03 priestess")]].

End Worked.

(** ** Effects of a computation on the file system *)

Section Frames.
Context {F : Type}.

(** No run, completed or not, changes the file system. *)
Definition read_only {A} (m : M F A) : Prop :=
  forall w : world F, files (snd (m w)) = files w.

(** No run, completed or not, creates, changes or removes a file at
    a path outside [paths]. *)
Definition writes_only {A} (paths : list string) (m : M F A) : Prop :=
  forall (w : world F) (p : string) (c : content F),
    p ∉ paths ->
    (files (snd (m w)) !! p = Some (File c) <-> files w !! p = Some (File c)).

End Frames.

(** The rank a transcript line is printed with, if it is a ranked line. *)
Definition rank_of {F : Type} (o : out F) : option nat :=
  match o with
  | RankLine rank _ _ | UnknownLine rank _ => Some rank
  | _ => None
  end.

(** ** [trainLoRA.py] *)

Module TrainLoRA.
Section Train.
Context {F : Type}.
Variable model : clip F.

(** The parsed command line, with the defaults of the parser. *)
Record args : Type := Args {
  deck : string;
  epochs : Z;
  batch_size : Z
}.

Definition default_args : args := Args "rws" 5 4.

(** [TarotCardDataset.__init__]: the image files of the directory, in
    listing order, with a warning when there are none. *)
Definition dataset_init (image_dir : string) : M F (list string) :=
  let! names := listdir image_dir in
  let images := List.filter (fun f => Py.endswith_any f [".jpg"; ".jpeg"; ".png"]) names in
  match images with
  | [] =>
      do! print (Text ("Warning: No images found in " ++ image_dir)) in
      ret images
  | _ :: _ => ret images
  end.

(** [clean_name] and [text] of [TarotCardDataset.__getitem__] *)
Definition clean_name (img_name : string) : string :=
  Py.replace "-" " " (Py.replace "_" " " (Py.split_first "." img_name)).

Definition caption (img_name : string) : string :=
  "a tarot card of " ++ clean_name img_name.

(** Loading the base model and wrapping it with the adapter
    configuration (steps 1 and 2) are taken to succeed.  What
    [print_trainable_parameters] prints is the adapter library's
    business, and so are the data loader, the optimisation loop and
    [save_pretrained] (steps 4 and 5, lines 94 to 134): they are taken
    as given. *)
Variable trainable_parameters : string.
Variable fit_and_save : args -> string -> list string -> M F unit.

Definition train (a : args) : M F unit :=
  do! print (Text ("Initializing LoRA training for deck: " ++ deck a)) in
  let device := if cuda_available model then "cuda" else "cpu" in
  do! print (Text ("Using device: " ++ device)) in
  (* 1. Load Base Model, 2. Configure LoRA *)
  do! print (Text trainable_parameters) in
  (* 3. Prepare Data *)
  let dataset_path := Path.join3 "data" "raw_images" (deck a) in
  let! found := path_exists dataset_path in
  do! (if negb found then
         do! print (Text ("Warning: Dataset path " ++ dataset_path
                          ++ " does not exist. Creating dummy dataset for structure verification.")) in
         makedirs dataset_path
       else ret tt) in
  let! images := dataset_init dataset_path in
  match images with
  | [] => print (Text "No data found. Skipping training loop.")
  | _ :: _ => fit_and_save a dataset_path images
  end.

(** *** Notions used to state the properties of the trainer *)

Definition dataset_path (a : args) : string := Path.join3 "data" "raw_images" (deck a).

(** A deck name that is a single path component. *)
Fixpoint no_sep (s : string) : bool :=
  match s with
  | EmptyString => true
  | String c rest => negb (Ascii.eqb c Path.sep) && no_sep rest
  end.

Definition plain_name (s : string) : Prop := s <> "" /\ no_sep s = true.

End Train.
End TrainLoRA.

(** ** More concrete worlds *)

Module MoreWorked.
Import Worked.

(** The deck's source path is a regular file. *)
Definition w_dir_is_file : world Z :=
  world_of [("data", Dir ["raw_images"]);
            ("data/raw_images", Dir ["rws"]);
            ("data/raw_images/rws", File (Blob "not a directory"))].

(** The three-image deck next to an adapter path that is a regular
    file, and a build that is given this path. *)
Definition w_broken_adapter : world Z :=
  world_of (raw_images ["01_fool.jpg"; "02_magician.jpg"; "03_priestess.jpg"] three_images
            ++ [("adapter.bin", File (Blob "not an adapter"))]).

Definition build_rws_adapter : BuildVectorIndex.args :=
  BuildVectorIndex.Args "rws" (Some "adapter.bin") None.

(** An export document that parses to an array. *)
Definition w_array_document : world Z :=
  world_of [("out", Dir ["prototypes.json"]);
            ("out/prototypes.json", File (JsonText (JArr [])))].

Definition one_embedding : list (ndarray Z) := [[[1; 1]]].

Definition one_record : list BuildVectorIndex.card_meta :=
  [BuildVectorIndex.CardMeta 0 "01_fool.jpg" "01 fool"].

Definition fool_cards : list (string * json Z) :=
  [("01 fool", JObj [("embedding", JArr [JArr [JFloat 1; JFloat 1]]); ("count", JInt 1)])].

Definition marseille_document : json Z :=
  JObj [("deckStyles", JObj [("marseille", marseille_entry)])].

Definition merged_document : json Z :=
  JObj [("deckStyles",
         JObj [("marseille", marseille_entry);
               ("rws-1909", JObj [("cards", JObj fool_cards)])])].

(** A stand-in for the training procedure. *)
Definition toy_fit (a : TrainLoRA.args) (dataset_path : string) (images : list string)
    : M Z unit :=
  print (Text "LoRA adapters saved to models/adapters").

Definition toy_parameters : string := "trainable params: 0".

Definition train_rws : TrainLoRA.args := TrainLoRA.default_args.

(** The empty world after the trainer has run on it. *)
Definition w_trained : world Z :=
  snd (TrainLoRA.train toy toy_parameters toy_fit train_rws w_empty).

End MoreWorked.

(** * Properties *)

(** ** Strings and paths on examples *)

Example endswith_jpg : Py.endswith_any "01_fool.jpg" [".jpg"; ".jpeg"; ".png"] = true.
Proof. reflexivity. Qed.
Example endswith_txt : Py.endswith_any "notes.txt" [".jpg"; ".jpeg"; ".png"] = false.
Proof. reflexivity. Qed.
Example dirname_nested :
  Path.dirname "data/vision/fine-tuned/prototypes.json" = "data/vision/fine-tuned".
Proof. reflexivity. Qed.
Example dirname_bare : Path.dirname "prototypes.json" = "".
Proof. reflexivity. Qed.
Example dirname_root : Path.dirname "/x" = "/".
Proof. reflexivity. Qed.
Example join_deck : Path.join3 "data" "raw_images" "rws" = "data/raw_images/rws".
Proof. reflexivity. Qed.

Example ancestors_indices :
  ancestors "data/indices/rws" = ["data"; "data/indices"; "data/indices/rws"].
Proof. reflexivity. Qed.
Example ancestors_absolute : ancestors "/srv/out/" = ["/srv"; "/srv/out"].
Proof. reflexivity. Qed.


(** ** Python dicts *)

Module DictFacts.
Section DictFacts.
Context {V : Type}.
Implicit Types (d : list (string * V)) (k : string) (v : V).

Lemma get_set_eq d k v : Dict.get k (Dict.set k v d) = Some v.
Proof.
  induction d as [|[k' v'] d IH]; simpl.
  - now rewrite String.eqb_refl.
  - destruct (String.eqb k k') eqn:E; simpl; rewrite E; auto.
Qed.

Lemma get_set_ne d k k' v : k <> k' -> Dict.get k' (Dict.set k v d) = Dict.get k' d.
Proof.
  intros Hne. induction d as [|[k0 v0] d IH]; simpl.
  - destruct (String.eqb k' k) eqn:E; auto.
    apply String.eqb_eq in E. congruence.
  - destruct (String.eqb k k0) eqn:E; simpl.
    + apply String.eqb_eq in E. subst k0.
      destruct (String.eqb k' k) eqn:E'; auto.
      apply String.eqb_eq in E'. congruence.
    + now rewrite IH.
Qed.

Lemma get_Some_keys d k v : Dict.get k d = Some v -> k ∈ Dict.keys d.
Proof.
  induction d as [|[k0 v0] d IH]; simpl; [discriminate|].
  destruct (String.eqb k k0) eqn:E; intros H; apply elem_of_cons.
  - apply String.eqb_eq in E. auto.
  - auto.
Qed.

Lemma get_None_keys d k : Dict.get k d = None -> k ∉ Dict.keys d.
Proof.
  induction d as [|[k0 v0] d IH]; simpl; [intros _; apply not_elem_of_nil|].
  destruct (String.eqb k k0) eqn:E; [discriminate|].
  apply String.eqb_neq in E. intros H. apply not_elem_of_cons. auto.
Qed.

Lemma keys_set d k v :
  Dict.keys (Dict.set k v d) =
  if Dict.has k d then Dict.keys d else (Dict.keys d ++ [k])%list.
Proof.
  unfold Dict.has. induction d as [|[k0 v0] d IH]; simpl; auto.
  destruct (String.eqb k k0) eqn:E; simpl; auto.
  rewrite IH. unfold Dict.keys. destruct (Dict.get k d); auto.
Qed.

Lemma keys_set_elem d k v x :
  x ∈ Dict.keys (Dict.set k v d) <-> x = k \/ x ∈ Dict.keys d.
Proof.
  rewrite keys_set. unfold Dict.has.
  destruct (Dict.get k d) eqn:E.
  - apply get_Some_keys in E. split; [auto|]. intros [->|]; auto.
  - rewrite elem_of_app, list_elem_of_singleton. tauto.
Qed.

Lemma keys_set_NoDup d k v :
  NoDup (Dict.keys d) -> NoDup (Dict.keys (Dict.set k v d)).
Proof.
  intros Hd. rewrite keys_set. unfold Dict.has.
  destruct (Dict.get k d) eqn:E; auto.
  apply get_None_keys in E.
  apply NoDup_app. split_and!; auto.
  - intros x Hx Hk. apply list_elem_of_singleton in Hk. now subst.
  - apply NoDup_singleton.
Qed.

Lemma values_set (P : V -> Prop) d k v :
  P v -> Forall (fun kv => P (snd kv)) d ->
  Forall (fun kv => P (snd kv)) (Dict.set k v d).
Proof.
  intros Hv. induction 1 as [|[k0 v0] d H0 Hd IH]; simpl.
  - constructor; auto.
  - destruct (String.eqb k k0); constructor; auto.
Qed.

Lemma get_Some_In d k v : Dict.get k d = Some v -> In (k, v) d.
Proof.
  induction d as [|[k0 v0] d IH]; simpl; [discriminate|].
  destruct (String.eqb k k0) eqn:E; intros H.
  - apply String.eqb_eq in E. left. congruence.
  - auto.
Qed.

End DictFacts.
End DictFacts.

(** ** The export merge, in memory *)

Module ExportFacts.
Import BuildVectorIndex.
Section ExportFacts.
Context {F : Type}.
Implicit Types (embeddings : list (ndarray F)) (metadata : list card_meta)
  (cards acc : list (string * json F)).

Lemma cards_loop_total embeddings metadata i acc :
  (i + length metadata <= length embeddings)%nat ->
  exists cards, cards_loop embeddings i metadata acc = Ok cards.
Proof.
  revert i acc. induction metadata as [|m metadata IH]; intros i acc Hlen; simpl in *.
  - eauto.
  - destruct (embeddings !! i) eqn:E.
    + apply IH. lia.
    + apply lookup_ge_None in E. lia.
Qed.

Lemma cards_loop_keys embeddings metadata i acc cards :
  cards_loop embeddings i metadata acc = Ok cards ->
  NoDup (Dict.keys acc) ->
  NoDup (Dict.keys cards) /\
  forall x, x ∈ Dict.keys cards <-> x ∈ Dict.keys acc \/ x ∈ map card_name metadata.
Proof.
  revert i acc. induction metadata as [|m metadata IH]; intros i acc Hrun Hnd; simpl in *.
  - injection Hrun as <-. split; [assumption|]. intros x.
    rewrite elem_of_nil. tauto.
  - destruct (embeddings !! i) as [e|]; [|discriminate].
    apply IH in Hrun; [|now apply DictFacts.keys_set_NoDup].
    destruct Hrun as [Hnd' Hin]. split; [assumption|]. intros x.
    rewrite Hin, DictFacts.keys_set_elem, elem_of_cons. tauto.
Qed.

Lemma cards_loop_values embeddings metadata i acc cards :
  cards_loop embeddings i metadata acc = Ok cards ->
  Forall (fun kv => exists e, e ∈ embeddings /\ snd kv = card_entry e) acc ->
  Forall (fun kv => exists e, e ∈ embeddings /\ snd kv = card_entry e) cards.
Proof.
  revert i acc. induction metadata as [|m metadata IH]; intros i acc Hrun Hacc; simpl in *.
  - now injection Hrun as <-.
  - destruct (embeddings !! i) as [e|] eqn:E; [|discriminate].
    eapply IH; [eassumption|].
    apply (DictFacts.values_set (fun v => exists e, e ∈ embeddings /\ v = card_entry e)); auto.
    exists e. split; [|reflexivity]. eapply list_elem_of_lookup_2; eassumption.
Qed.

Lemma cards_loop_get_other embeddings metadata i acc cards name :
  cards_loop embeddings i metadata acc = Ok cards ->
  name ∉ map card_name metadata ->
  Dict.get name cards = Dict.get name acc.
Proof.
  revert i acc. induction metadata as [|m metadata IH]; intros i acc Hrun Hname; simpl in *.
  - now injection Hrun as <-.
  - destruct (embeddings !! i) as [e|]; [|discriminate].
    apply not_elem_of_cons in Hname as [Hne Hname].
    rewrite (IH _ _ Hrun Hname). apply DictFacts.get_set_ne. congruence.
Qed.

(** The entry of a card name is the one of the last image with that name. *)
Lemma cards_loop_get_last embeddings metadata i acc cards j m :
  cards_loop embeddings i metadata acc = Ok cards ->
  metadata !! j = Some m ->
  (forall j' m', (j < j')%nat -> metadata !! j' = Some m' -> card_name m' <> card_name m) ->
  exists e, embeddings !! (i + j)%nat = Some e /\
            Dict.get (card_name m) cards = Some (card_entry e).
Proof.
  revert i acc j. induction metadata as [|m0 metadata IH]; intros i acc j Hrun Hj Hlast;
    simpl in *; [discriminate|].
  destruct (embeddings !! i) as [e|] eqn:E; [|discriminate].
  destruct j as [|j]; simpl in Hj.
  - injection Hj as ->. exists e. rewrite Nat.add_0_r. split; [assumption|].
    rewrite (cards_loop_get_other _ _ _ _ _ _ Hrun).
    + apply DictFacts.get_set_eq.
    + intros Hin. apply list_elem_of_In, in_map_iff in Hin as (m' & Hm' & Hin).
      apply list_elem_of_In, list_elem_of_lookup in Hin as [j' Hj'].
      apply (Hlast (S j') m'); [lia|assumption|assumption].
  - destruct (IH (S i) _ j Hrun Hj) as (e' & He' & Hget).
    + intros j' m' Hlt Hj'. apply (Hlast (S j') m'); [lia|assumption].
    + exists e'. split; [|assumption]. now replace (i + S j)%nat with (S i + j)%nat by lia.
Qed.

(** The number of exported cards is the number of distinct card names. *)
Lemma cards_loop_length embeddings metadata cards :
  cards_loop embeddings 0 metadata [] = Ok cards ->
  length cards = length (remove_dups (map card_name metadata)).
Proof.
  intros Hrun. apply cards_loop_keys in Hrun as [Hnd Hin]; [|apply NoDup_nil_2].
  rewrite <- (List.length_map fst cards). apply Permutation_length.
  apply NoDup_Permutation; [assumption|apply NoDup_remove_dups|].
  intros x. rewrite elem_of_remove_dups. unfold Dict.keys in Hin. rewrite Hin.
  simpl. rewrite elem_of_nil. tauto.
Qed.

Lemma merge_export_total doc deck_id embeddings metadata :
  mergeable doc ->
  (length metadata <= length embeddings)%nat ->
  exists cards doc', merge_export doc deck_id embeddings metadata = Ok (cards, doc').
Proof.
  intros Hdoc Hlen.
  destruct (cards_loop_total embeddings metadata 0 [] Hlen) as [cards Hcards].
  destruct doc as [| | | | | |d]; try contradiction. unfold merge_export, mergeable in *.
  simpl. unfold Dict.has.
  destruct (Dict.get "deckStyles" d) as [styles|] eqn:E; simpl.
  - rewrite Hcards, E. destruct styles; try contradiction. simpl. eauto.
  - rewrite Hcards, DictFacts.get_set_eq. simpl. eauto.
Qed.

(** The merge sets this deck's entry and leaves every other deck's
    entry and every other top-level field as they were. *)
Lemma merge_export_frame doc deck_id embeddings metadata cards doc' :
  merge_export doc deck_id embeddings metadata = Ok (cards, doc') ->
  cards_loop embeddings 0 metadata [] = Ok cards /\
  deck_entry doc' deck_id = Some (JObj [("cards", JObj cards)]) /\
  (forall other, other <> deck_id -> deck_entry doc' other = deck_entry doc other) /\
  (forall k, k <> "deckStyles" -> top_field doc' k = top_field doc k).
Proof.
  unfold merge_export. intros H.
  destruct doc as [| | | |s|l|d]; simpl in H; try discriminate.
  - destruct (negb (Py.contains "deckStyles" s)); simpl in H; [discriminate|].
    destruct (cards_loop embeddings 0 metadata []); discriminate.
  - destruct (negb _); simpl in H; [discriminate|].
    destruct (cards_loop embeddings 0 metadata []); discriminate.
  - unfold Dict.has in H.
    destruct (Dict.get "deckStyles" d) as [styles|] eqn:E; simpl in H.
    + destruct (cards_loop embeddings 0 metadata []) as [cards0|]; [|discriminate].
      rewrite E in H. destruct styles; simpl in H; try discriminate.
      injection H as <- <-. simpl. rewrite DictFacts.get_set_eq, E.
      split_and!; auto.
      * apply DictFacts.get_set_eq.
      * intros other Hne. apply DictFacts.get_set_ne. congruence.
      * intros k Hne. apply DictFacts.get_set_ne. congruence.
    + destruct (cards_loop embeddings 0 metadata []) as [cards0|]; [|discriminate].
      rewrite DictFacts.get_set_eq in H. simpl in H.
      injection H as <- <-. simpl. rewrite DictFacts.get_set_eq, E.
      split_and!; auto.
      * simpl. now rewrite String.eqb_refl.
      * intros other Hne. simpl. destruct (String.eqb other deck_id) eqn:E'; auto.
        apply String.eqb_eq in E'. contradiction.
      * intros k Hne. rewrite DictFacts.get_set_ne by congruence.
        apply DictFacts.get_set_ne. congruence.
Qed.

End ExportFacts.
End ExportFacts.

(** ** The monad and the file system *)

Section WorldFacts.
Context {F : Type}.
Implicit Types (w : world F) (fs : gmap string (node F)) (p q : string).

Lemma bind_Ok {A B} (m : M F A) (k : A -> M F B) w a w1 :
  m w = (Ok a, w1) -> bind m k w = k a w1.
Proof. unfold bind. now intros ->. Qed.

Lemma bind_Raise {A B} (m : M F A) (k : A -> M F B) w e w1 :
  m w = (Raise e, w1) -> bind m k w = (Raise e, w1).
Proof. unfold bind. now intros ->. Qed.

Lemma bind_Ok_inv {A B} (m : M F A) (k : A -> M F B) w b w' :
  bind m k w = (Ok b, w') ->
  exists a w1, m w = (Ok a, w1) /\ k a w1 = (Ok b, w').
Proof.
  unfold bind. destruct (m w) as [[a|e] w1]; [eauto|discriminate].
Qed.

Lemma lift_Ok_inv {A} (r : res A) w a w' :
  lift r w = (Ok a, w') -> r = Ok a /\ w' = w.
Proof. unfold lift. intros H. injection H as -> ->. auto. Qed.

Lemma print_eq (o : out F) w :
  print o w = (Ok tt, {| files := files w; stdout := (stdout w ++ [o])%list |}).
Proof. reflexivity. Qed.

Lemma keeps_files_refl w : keeps_files w w.
Proof. intros p c H. exact H. Qed.

Lemma keeps_files_trans w1 w2 w3 :
  keeps_files w1 w2 -> keeps_files w2 w3 -> keeps_files w1 w3.
Proof. intros H12 H23 p c H. eauto. Qed.

Lemma register_child_file q fs p c :
  fs !! p = Some (File c) -> register_child q fs !! p = Some (File c).
Proof.
  intros Hp. unfold register_child.
  destruct (fs !! Path.dirname q) as [[names|c']|] eqn:E; auto.
  destruct (existsb _ names); auto.
  rewrite lookup_insert_ne; [assumption|]. intros <-. congruence.
Qed.

Lemma mkdir_chain_file dirs fs fs' p c :
  mkdir_chain dirs fs = Ok fs' ->
  fs !! p = Some (File c) -> fs' !! p = Some (File c).
Proof.
  revert fs. induction dirs as [|q dirs IH]; intros fs Hrun Hp; simpl in Hrun.
  - now injection Hrun as <-.
  - destruct (fs !! q) as [[names|c']|] eqn:E; [eauto|discriminate|].
    eapply IH; [eassumption|].
    rewrite lookup_insert_ne; [now apply register_child_file|].
    intros ->. congruence.
Qed.

Lemma makedirs_keeps p w w' :
  makedirs p w = (Ok tt, w') -> keeps_files w w' /\ stdout w' = stdout w.
Proof.
  unfold makedirs. destruct (String.eqb p ""); [discriminate|].
  destruct (mkdir_chain (ancestors p) (files w)) as [fs|e] eqn:E; [|discriminate].
  intros H. injection H as <-. split; [|reflexivity].
  intros q c Hq. simpl. eapply mkdir_chain_file; eassumption.
Qed.

Lemma write_file_Ok p (c : content F) w w' :
  write_file p c w = (Ok tt, w') ->
  files w' !! p = Some (File c) /\
  (forall q c', q <> p -> files w !! q = Some (File c') -> files w' !! q = Some (File c')) /\
  stdout w' = stdout w.
Proof.
  unfold write_file. destruct (String.eqb (Path.basename p) ""); [discriminate|].
  assert (Hgo : match parent_ok p (files w) with
                | Ok _ => (Ok tt, {| files := <[p := File c]> (register_child p (files w));
                                     stdout := stdout w |})
                | Raise e => (Raise e, w)
                end = (Ok tt, w') ->
                files w' !! p = Some (File c) /\
                (forall q c', q <> p -> files w !! q = Some (File c') ->
                              files w' !! q = Some (File c')) /\
                stdout w' = stdout w).
  { destruct (parent_ok p (files w)); [|discriminate].
    intros H. injection H as <-. simpl. split_and!; auto.
    - apply lookup_insert_eq.
    - intros q c' Hne Hq. rewrite lookup_insert_ne by congruence.
      now apply register_child_file. }
  destruct (files w !! p) as [[names|c0]|]; [discriminate|exact Hgo|exact Hgo].
Qed.

Lemma write_file_Raise p (c : content F) w e w' :
  write_file p c w = (Raise e, w') -> w' = w.
Proof.
  unfold write_file. destruct (String.eqb (Path.basename p) "").
  - intros H. now injection H as _ <-.
  - destruct (files w !! p) as [[names|c0]|];
      try (intros H; now injection H as _ <-);
      destruct (parent_ok p (files w)); try discriminate;
      intros H; now injection H as _ <-.
Qed.

Lemma makedirs_Raise p w e w' : makedirs p w = (Raise e, w') -> w' = w.
Proof.
  unfold makedirs. destruct (String.eqb p "").
  - intros H. now injection H as _ <-.
  - destruct (mkdir_chain (ancestors p) (files w)); [discriminate|].
    intros H. now injection H as _ <-.
Qed.

End WorldFacts.

(** ** The build *)

Module BuildFacts.
Import BuildVectorIndex.
Section BuildFacts.
Context {F : Type} {SF : Scalar F}.
Variable model : clip F.
Implicit Types (w : world F) (a : args).

Lemma load_model_spec a w :
  adapter_ready model a w ->
  exists note,
    load_model model a w =
    (Ok (adapter_of a w), {| files := files w; stdout := (stdout w ++ [note])%list |}).
Proof.
  unfold load_model, adapter_of, adapter_ready.
  destruct (truthy (adapter_path a)) as [p|].
  - unfold bind, path_exists. destruct (files w !! p); simpl; [|eauto].
    intros ->. eauto.
  - unfold bind. simpl. eauto.
Qed.

(** When the adapter does not load, step 1 ends with the loader's
    exception and the file system as it was. *)
Lemma load_model_fails a w :
  ~ adapter_ready model a w ->
  exists e note,
    load_model model a w =
    (Raise e, {| files := files w; stdout := (stdout w ++ [note])%list |}).
Proof.
  unfold load_model, adapter_ready.
  destruct (truthy (adapter_path a)) as [p|]; [|tauto].
  unfold bind, path_exists. destruct (files w !! p); simpl; [|tauto].
  destruct (load_adapter model (files w) p) as [[]|e]; [tauto|]. eauto.
Qed.

Lemma adapter_ready_dec a w : adapter_ready model a w \/ ~ adapter_ready model a w.
Proof.
  unfold adapter_ready. destruct (truthy (adapter_path a)) as [p|]; [|auto].
  destruct (files w !! p); [|auto].
  destruct (load_adapter model (files w) p) as [[]|e]; [auto|]. right. discriminate.
Qed.

(** The printed transcript does not matter to whether the adapter loads. *)
Lemma adapter_ready_files a w w0 :
  files w0 = files w -> adapter_ready model a w -> adapter_ready model a w0.
Proof. unfold adapter_ready. now intros ->. Qed.

(** The loop returns normally, leaves the files alone and appends, for
    each image that embeds, one array and one record. *)
Lemma embed_loop_spec adapter dir idx image_files embeddings metadata w :
  exists notes,
    embed_loop model adapter dir idx image_files embeddings metadata w =
    (Ok ((embeddings ++ map (fun mv => [snd mv]) (embedded model adapter dir (files w) idx image_files))%list,
         (metadata ++ map fst (embedded model adapter dir (files w) idx image_files))%list),
     {| files := files w; stdout := (stdout w ++ notes)%list |}).
Proof.
  revert idx embeddings metadata w.
  induction image_files as [|f rest IH]; intros idx embeddings metadata w; simpl.
  - exists []. unfold ret. rewrite !app_nil_r. now destruct w.
  - destruct (try_embed model adapter (Path.join dir f) (files w)) as [v|e] eqn:E.
    + destruct (IH (S idx) (embeddings ++ [[v]])%list
                  (metadata ++ [CardMeta idx f (derive_card_name f)])%list w)
        as [notes ->].
      exists notes. simpl. now rewrite <- !app_assoc.
    + unfold bind. rewrite print_eq.
      destruct (IH (S idx) embeddings metadata
                  {| files := files w;
                     stdout := (stdout w ++ [Text ("Error processing " ++ f ++ ": " ++ e)])%list |})
        as [notes ->].
      simpl. exists (Text ("Error processing " ++ f ++ ": " ++ e) :: notes).
      now rewrite <- app_assoc.
Qed.

(** The record at position [i] of the embedded list carries an id that
    is at least the start index plus [i]. *)
Lemma embedded_id_ge adapter dir fs idx image_files i mv :
  embedded model adapter dir fs idx image_files !! i = Some mv ->
  (idx + i <= id (fst mv))%nat.
Proof.
  revert idx i. induction image_files as [|f rest IH]; intros idx i; simpl; [discriminate|].
  destruct (try_embed model adapter (Path.join dir f) fs).
  - destruct i as [|i]; simpl.
    + intros H. injection H as <-. simpl. lia.
    + intros H. apply IH in H. lia.
  - intros H. apply IH in H. lia.
Qed.

(** When every image embeds, the record at position [i] has id
    [idx + i]: ids are then the positions. *)
Lemma embedded_all adapter dir fs idx image_files :
  Forall (fun f => exists v, try_embed model adapter (Path.join dir f) fs = Embedded v)
         image_files ->
  map fst (embedded model adapter dir fs idx image_files) =
  imap (fun i f => CardMeta (idx + i) f (derive_card_name f)) image_files.
Proof.
  revert idx. induction image_files as [|f rest IH]; intros idx Hall; simpl; [reflexivity|].
  inversion Hall as [|? ? [v Hv] Hrest]; subst. rewrite Hv. simpl.
  rewrite Nat.add_0_r. f_equal. rewrite (IH (S idx) Hrest).
  apply imap_ext. intros i x _. simpl. f_equal. lia.
Qed.

(** Every accumulated record carries the card name derived from its
    file name. *)
Lemma embedded_card_name adapter dir fs idx image_files :
  Forall (fun mv => card_name (fst mv) = derive_card_name (filename (fst mv)))
         (embedded model adapter dir fs idx image_files).
Proof.
  revert idx. induction image_files as [|f rest IH]; intros idx; simpl; [constructor|].
  destruct (try_embed model adapter (Path.join dir f) fs); [constructor|]; auto.
Qed.

(** When no image embeds, nothing is accumulated. *)
Lemma embedded_none adapter dir fs idx image_files :
  Forall (fun f => exists e, try_embed model adapter (Path.join dir f) fs = Failed e)
         image_files ->
  embedded model adapter dir fs idx image_files = [].
Proof.
  revert idx. induction image_files as [|f rest IH]; intros idx Hall; simpl; [reflexivity|].
  inversion Hall as [|? ? [e He] Hrest]; subst. rewrite He. auto.
Qed.

Lemma embedded_length adapter dir fs idx image_files :
  length (embedded model adapter dir fs idx image_files) =
  length (List.filter (embeds model adapter dir fs) image_files).
Proof.
  revert idx. induction image_files as [|f rest IH]; intros idx; simpl; [reflexivity|].
  unfold embeds at 1.
  destruct (try_embed model adapter (Path.join dir f) fs); simpl; auto.
Qed.

(** The build up to the loop: what remains to run when the image
    directory lists at least one image file. *)
Lemma build_index_reaches_loop a w names :
  adapter_ready model a w ->
  files w !! image_dir a = Some (Dir names) ->
  image_files_of names <> [] ->
  exists notes,
    build_index model a w =
    build_and_save a
      (map (fun mv => [snd mv])
         (embedded model (adapter_of a w) (image_dir a) (files w) 0 (image_files_of names)))
      (map fst
         (embedded model (adapter_of a w) (image_dir a) (files w) 0 (image_files_of names)))
      {| files := files w; stdout := (stdout w ++ notes)%list |}.
Proof.
  intros Hready Hdir Hfiles. unfold build_index, bind at 1. rewrite print_eq.
  unfold bind at 1.
  destruct (load_model_spec a
              {| files := files w;
                 stdout := (stdout w ++ [Text ("Building vector index for deck: " ++ deck a ++ " on "
                              ++ (if cuda_available model then "cuda" else "cpu"))])%list |})
    as [note ->]; [exact Hready|].
  unfold bind at 1, path_exists at 1. cbn [files stdout]. fold (image_dir a). rewrite Hdir. cbn [negb].
  unfold bind at 1, listdir at 1. cbn [files stdout]. rewrite Hdir.
  fold (image_files_of names).
  destruct (image_files_of names) as [|f rest] eqn:E; [contradiction|].
  unfold bind at 1. rewrite print_eq. unfold bind at 1.
  match goal with
  | |- context [embed_loop model ?ad ?dir 0 ?fl [] [] ?w0] =>
      destruct (embed_loop_spec ad dir 0 fl [] [] w0) as [notes ->]
  end.
  cbn [fst snd]. cbn [files stdout].
  unfold adapter_of at 1 2. cbn [files stdout].
  eexists. rewrite <- !app_assoc. reflexivity.
Qed.

(** The three early returns. *)
Lemma build_index_no_dir a w :
  adapter_ready model a w ->
  files w !! image_dir a = None ->
  exists notes,
    build_index model a w =
    (Ok tt,
     {| files := files w;
        stdout := (stdout w ++ notes
                   ++ [Text ("Error: Image directory " ++ image_dir a ++ " not found.")])%list |}).
Proof.
  intros Hready Hdir. unfold build_index, bind at 1. rewrite print_eq.
  unfold bind at 1.
  destruct (load_model_spec a
              {| files := files w;
                 stdout := (stdout w ++ [Text ("Building vector index for deck: " ++ deck a ++ " on "
                              ++ (if cuda_available model then "cuda" else "cpu"))])%list |})
    as [note ->]; [exact Hready|].
  unfold bind at 1, path_exists at 1. cbn [files stdout]. fold (image_dir a). rewrite Hdir.
  cbn [negb]. rewrite print_eq. cbn [files stdout].
  eexists [_; _]. rewrite <- !app_assoc. reflexivity.
Qed.

Lemma build_index_no_images a w names :
  adapter_ready model a w ->
  files w !! image_dir a = Some (Dir names) ->
  image_files_of names = [] ->
  exists notes,
    build_index model a w =
    (Ok tt,
     {| files := files w;
        stdout := (stdout w ++ notes ++ [Text "No images found."])%list |}).
Proof.
  intros Hready Hdir Hnone. unfold build_index, bind at 1. rewrite print_eq.
  unfold bind at 1.
  destruct (load_model_spec a
              {| files := files w;
                 stdout := (stdout w ++ [Text ("Building vector index for deck: " ++ deck a ++ " on "
                              ++ (if cuda_available model then "cuda" else "cpu"))])%list |})
    as [note ->]; [exact Hready|].
  unfold bind at 1, path_exists at 1. cbn [files stdout]. fold (image_dir a). rewrite Hdir.
  cbn [negb]. unfold bind at 1, listdir at 1. cbn [files stdout]. rewrite Hdir.
  fold (image_files_of names). rewrite Hnone, print_eq. cbn [files stdout].
  eexists [_; _]. rewrite <- !app_assoc. reflexivity.
Qed.

Lemma build_index_no_embeddings a w names :
  adapter_ready model a w ->
  files w !! image_dir a = Some (Dir names) ->
  image_files_of names <> [] ->
  embedded model (adapter_of a w) (image_dir a) (files w) 0 (image_files_of names) = [] ->
  exists notes,
    build_index model a w =
    (Ok tt,
     {| files := files w;
        stdout := (stdout w ++ notes ++ [Text "No embeddings generated."])%list |}).
Proof.
  intros Hready Hdir Hsome Hnone.
  destruct (build_index_reaches_loop a w names Hready Hdir Hsome) as [notes ->].
  rewrite Hnone. simpl. rewrite print_eq. cbn [files stdout].
  exists notes. now rewrite <- app_assoc.
Qed.

Lemma load_existing_eq export_path w :
  load_existing export_path w = (Ok (existing_doc export_path w), w).
Proof.
  unfold load_existing, existing_doc, bind, path_exists.
  destruct (files w !! export_path) as [[names|[bytes|j|d rs]]|] eqn:E;
    unfold try_except, bind, read_file, lift, ret; rewrite ?E; reflexivity.
Qed.

(** A completed export has written the merged document and kept every
    other file. *)
Lemma export_step_Ok a export_path embeddings metadata w w' :
  export_step a export_path embeddings metadata w = (Ok tt, w') ->
  exists cards doc',
    merge_export (existing_doc export_path w) (app_deck_id (deck a)) embeddings metadata
      = Ok (cards, doc') /\
    files w' !! export_path = Some (File (JsonText doc')) /\
    (forall q c, q <> export_path ->
                 files w !! q = Some (File c) -> files w' !! q = Some (File c)).
Proof.
  unfold export_step. intros H.
  apply bind_Ok_inv in H as ([] & w1 & Hp & H). rewrite print_eq in Hp.
  injection Hp as <-.
  apply bind_Ok_inv in H as (doc & w2 & Hl & H). rewrite load_existing_eq in Hl.
  injection Hl as <- <-.
  apply bind_Ok_inv in H as ([cards doc'] & w3 & Hm & H).
  apply lift_Ok_inv in Hm as [Hm ->].
  apply bind_Ok_inv in H as ([] & w4 & Hmk & H).
  apply bind_Ok_inv in H as ([] & w5 & Hwr & H).
  rewrite print_eq in H. injection H as <-.
  apply makedirs_keeps in Hmk as [Hkeep _].
  apply write_file_Ok in Hwr as (Hnew & Hother & _).
  exists cards, doc'. unfold existing_doc in *. cbn [files stdout] in *.
  split_and!; auto.
Qed.

Lemma append_inj_r (s x y : string) : s ++ x = s ++ y -> x = y.
Proof.
  induction s as [|c s IH]; simpl; [auto|]. intros H. injection H as H. auto.
Qed.

Lemma index_path_ne_metadata_path a : index_path a <> metadata_path a.
Proof.
  unfold index_path, metadata_path, Path.join. simpl Path.starts_with_sep. cbv iota.
  destruct (String.eqb (output_dir a) "" || Path.ends_with_sep (output_dir a));
    intros H; apply append_inj_r in H; discriminate.
Qed.

Lemma concat_singletons {A} (l : list A) : concat (map (fun x => [x]) l) = l.
Proof. induction l; simpl; congruence. Qed.

(** A completed build has persisted the index rows and the metadata
    records side by side: one row and one record per embedded image,
    in the same order. *)
Lemma build_and_save_Ok a (mvs : list (card_meta * list F)) w w' :
  mvs <> [] ->
  build_and_save a (map (fun mv => [snd mv]) mvs) (map fst mvs) w = (Ok tt, w') ->
  (forall p, truthy (export_json a) = Some p -> p <> index_path a /\ p <> metadata_path a) ->
  (exists d, files w' !! index_path a = Some (File (FaissFile d (map snd mvs)))) /\
  files w' !! metadata_path a
    = Some (File (JsonText (JArr (map json_of_meta (map fst mvs))))).
Proof.
  intros Hne H Hexp. destruct mvs as [|mv mvs]; [contradiction|].
  unfold build_and_save in H. cbn [map] in H.
  apply bind_Ok_inv in H as (np & w1 & Hv & H). apply lift_Ok_inv in Hv as [Hv ->].
  apply bind_Ok_inv in H as (ix & w2 & Hix & H). apply lift_Ok_inv in Hix as [Hix ->].
  apply bind_Ok_inv in H as ([] & w3 & Hp & H). rewrite print_eq in Hp. injection Hp as <-.
  apply bind_Ok_inv in H as ([] & w4 & Hmk & H).
  apply bind_Ok_inv in H as ([] & w5 & Hw1 & H).
  apply bind_Ok_inv in H as ([] & w6 & Hw2 & H).
  apply bind_Ok_inv in H as ([] & w7 & Hp1 & H). rewrite print_eq in Hp1. injection Hp1 as <-.
  apply bind_Ok_inv in H as ([] & w8 & Hp2 & H). rewrite print_eq in Hp2. injection Hp2 as <-.
  fold (output_dir a) in *. fold (index_path a) in *. fold (metadata_path a) in *.
  apply write_file_Ok in Hw1 as (Hnew1 & _ & _).
  apply write_file_Ok in Hw2 as (Hnew2 & Hother2 & _).
  assert (Hrows : rows ix = map snd (mv :: mvs)).
  { unfold vstack in Hv. change (concat ([snd mv] :: map (fun mv0 => [snd mv0]) mvs))
      with (snd mv :: concat (map (fun mv0 => [snd mv0]) mvs)) in Hv.
    cbv iota in Hv. destruct (forallb _ _); [|discriminate]. injection Hv as <-.
    unfold index_add in Hix. destruct (forallb _ _); [|discriminate]. injection Hix as <-.
    cbn [rows map]. f_equal.
    rewrite <- (concat_singletons (map snd mvs)), map_map. reflexivity. }
  rewrite Hrows in Hnew1.
  assert (Hidx5 : files w6 !! index_path a
                  = Some (File (FaissFile (dim ix) (map snd (mv :: mvs))))).
  { apply Hother2; [apply index_path_ne_metadata_path|assumption]. }
  destruct (truthy (export_json a)) as [export_path|] eqn:Et.
  - destruct (Hexp export_path eq_refl) as [Hne1 Hne2].
    apply export_step_Ok in H as (_ & _ & _ & _ & Hkeep). cbn [files stdout] in Hkeep.
    split; [exists (dim ix)|]; apply Hkeep; auto.
  - unfold ret in H. injection H as <-. cbn [files stdout].
    split; [exists (dim ix)|]; auto.
Qed.

(** A build that completes has loaded its adapter, if it has one. *)
Lemma build_index_Ok_ready a w w' :
  build_index model a w = (Ok tt, w') -> adapter_ready model a w.
Proof.
  intros Hrun. destruct (adapter_ready_dec a w) as [Hready|Hnot]; [exact Hready|].
  exfalso. unfold build_index, bind at 1 in Hrun. rewrite print_eq in Hrun.
  unfold bind at 1 in Hrun.
  destruct (load_model_fails a
              {| files := files w;
                 stdout := (stdout w ++ [Text ("Building vector index for deck: " ++ deck a ++ " on "
                              ++ (if cuda_available model then "cuda" else "cpu"))])%list |})
    as (e & note & Hfail); [exact Hnot|].
  rewrite Hfail in Hrun. discriminate.
Qed.

(** A completed build over a listing with at least one image that
    embeds has persisted one index row and one metadata record per
    embedded image, in listing order. *)
Lemma build_index_persists a w w' names :
  files w !! image_dir a = Some (Dir names) ->
  embedded model (adapter_of a w) (image_dir a) (files w) 0 (image_files_of names) <> [] ->
  (forall p, truthy (export_json a) = Some p -> p <> index_path a /\ p <> metadata_path a) ->
  build_index model a w = (Ok tt, w') ->
  (exists d, files w' !! index_path a
             = Some (File (FaissFile d
                  (map snd (embedded model (adapter_of a w) (image_dir a) (files w) 0
                              (image_files_of names)))))) /\
  files w' !! metadata_path a
    = Some (File (JsonText (JArr (map json_of_meta
         (map fst (embedded model (adapter_of a w) (image_dir a) (files w) 0
                     (image_files_of names))))))).
Proof.
  intros Hdir Hsome Hexp Hrun.
  assert (Hfiles : image_files_of names <> []).
  { intros Heq. rewrite Heq in Hsome. now apply Hsome. }
  destruct (build_index_reaches_loop a w names (build_index_Ok_ready a w w' Hrun) Hdir Hfiles)
    as [notes Hreach].
  rewrite Hreach in Hrun.
  exact (build_and_save_Ok a _ _ w' Hsome Hrun Hexp).
Qed.

(** X8 : When every image of the listing embeds, the persisted records are
    numbered by their position: record [i] has id [i]. *)
Lemma build_index_ids_when_all_embed a w w' names :
  files w !! image_dir a = Some (Dir names) ->
  image_files_of names <> [] ->
  Forall (fun f => exists v,
            try_embed model (adapter_of a w) (Path.join (image_dir a) f) (files w) = Embedded v)
         (image_files_of names) ->
  (forall p, truthy (export_json a) = Some p -> p <> index_path a /\ p <> metadata_path a) ->
  build_index model a w = (Ok tt, w') ->
  files w' !! metadata_path a
    = Some (File (JsonText (JArr (map json_of_meta
         (imap (fun i f => CardMeta i f (derive_card_name f)) (image_files_of names)))))).
Proof.
  intros Hdir Hfiles Hall Hexp Hrun.
  pose proof (embedded_all (adapter_of a w) (image_dir a) (files w) 0 _ Hall) as Hemb.
  destruct (build_index_persists a w w' names Hdir) as [_ Hmd]; auto.
  - intros Hnil. rewrite Hnil in Hemb. simpl in Hemb.
    destruct (image_files_of names); [contradiction|discriminate].
  - rewrite Hmd, Hemb. reflexivity.
Qed.

(** The other direction for the export: a completed export started from
    the document on disk, or from the empty one. *)
Lemma export_step_frame a export_path embeddings metadata w w' :
  export_step a export_path embeddings metadata w = (Ok tt, w') ->
  exists cards doc',
    files w' !! export_path = Some (File (JsonText doc')) /\
    deck_entry doc' (app_deck_id (deck a)) = Some (JObj [("cards", JObj cards)]) /\
    (forall other, other <> app_deck_id (deck a) ->
       deck_entry doc' other
       = deck_entry (existing_doc export_path w) other) /\
    (forall k, k <> "deckStyles" ->
       top_field doc' k = top_field (existing_doc export_path w) k).
Proof.
  intros H. apply export_step_Ok in H as (cards & doc' & Hmerge & Hfile & _).
  apply ExportFacts.merge_export_frame in Hmerge as (_ & Hthis & Hothers & Htop).
  exists cards, doc'. auto.
Qed.

End BuildFacts.
End BuildFacts.

(** ** The query *)

Module QueryFacts.
Import TestIndex.
Section QueryFacts.
Context {F : Type} {SF : Scalar F}.
Variable model : clip F.
Implicit Types (w : world F) (a : args).

Lemma insert_desc_labels (P : Z -> Prop) x l :
  P (fst x) -> Forall (fun y => P (fst y)) l ->
  Forall (fun y => P (fst y)) (insert_desc x l).
Proof.
  intros Hx. induction 1 as [|y l Hy Hl IH]; simpl.
  - constructor; auto.
  - destruct (prefer x y); repeat constructor; auto.
Qed.

Lemma insert_desc_length x l : length (insert_desc x l) = S (length l).
Proof.
  induction l as [|y l IH]; simpl; [reflexivity|].
  destruct (prefer x y); simpl; congruence.
Qed.

Lemma fold_insert_labels (P : Z -> Prop) xs acc :
  Forall (fun y => P (fst y)) xs -> Forall (fun y => P (fst y)) acc ->
  Forall (fun y => P (fst y)) (fold_left (fun acc x => insert_desc x acc) xs acc).
Proof.
  intros Hxs. revert acc. induction Hxs as [|x xs Hx Hxs IH]; intros acc Hacc; simpl; auto.
  apply IH. now apply insert_desc_labels.
Qed.

Lemma fold_insert_length xs acc :
  length (fold_left (fun acc x => insert_desc x acc) xs acc) = (length xs + length acc)%nat.
Proof.
  revert acc. induction xs as [|x xs IH]; intros acc; simpl; [reflexivity|].
  rewrite IH, insert_desc_length. lia.
Qed.

Lemma ranked_length q rs : length (ranked q rs) = length rs.
Proof. unfold ranked. rewrite fold_insert_length, length_imap. simpl. lia. Qed.

Lemma ranked_labels q rs :
  Forall (fun y => 0 <= fst y < Z.of_nat (length rs)) (ranked q rs).
Proof.
  unfold ranked.
  apply (fold_insert_labels (fun z => 0 <= z < Z.of_nat (length rs))); [|constructor].
  apply Forall_lookup. intros i [idx s] Hi.
  rewrite list_lookup_imap in Hi. destruct (rs !! i) eqn:E; [|discriminate].
  injection Hi as <- _. simpl. apply lookup_lt_Some in E. lia.
Qed.

(** The search always fills [k] slots: the ranked rows first, then the
    filler. *)
Lemma pad_to_length k l : length (pad_to k l) = k.
Proof. unfold pad_to. rewrite length_app, length_take, length_replicate. lia. Qed.

Lemma index_search_spec ix q k D0 I0 :
  index_search ix q k = Ok (D0, I0) ->
  length D0 = k /\ length I0 = k /\ Forall (label_ok (ntotal ix)) I0 /\
  (forall i, (ntotal ix <= i < k)%nat -> I0 !! i = Some (-1)).
Proof.
  unfold index_search. destruct (Nat.eqb (length q) (dim ix)); [|discriminate].
  intros H. injection H as <- <-.
  rewrite !List.length_map, pad_to_length. split_and!; auto.
  - apply Forall_forall. intros idx Hin.
    apply list_elem_of_In, in_map_iff in Hin as ([idx' s] & <- & Hin). simpl.
    unfold pad_to in Hin. apply in_app_iff in Hin as [Hin|Hin].
    + apply list_elem_of_In, elem_of_take in Hin as (i & Hin & _).
      pose proof (ranked_labels q (rows ix)) as Hall.
      rewrite Forall_lookup in Hall. apply Hall in Hin. simpl in Hin.
      unfold label_ok, ntotal. lia.
    + apply list_elem_of_In, elem_of_replicate in Hin as [Hin _]. injection Hin as -> _.
      unfold label_ok. lia.
  - intros i Hi. unfold pad_to.
    change (map fst ?l) with (fst <$> l). rewrite list_lookup_fmap.
    rewrite lookup_app_r; rewrite length_take, ranked_length; unfold ntotal in Hi; [|lia].
    rewrite lookup_replicate_2; [reflexivity|]. lia.
Qed.

Lemma index_search_total ix q k :
  length q = dim ix -> exists D0 I0, index_search ix q k = Ok (D0, I0).
Proof.
  intros Hq. unfold index_search. rewrite Hq, Nat.eqb_refl. eauto.
Qed.

Lemma subscript_total (n : nat) (idx : Z) :
  n <> 0%nat -> -1 <= idx < Z.of_nat n ->
  exists m, subscript n idx = Some m /\ (m < n)%nat.
Proof.
  intros Hn Hidx. unfold subscript.
  destruct (0 <=? idx) eqn:E0.
  - apply Z.leb_le in E0. destruct (idx <? Z.of_nat n) eqn:E1.
    + simpl. exists (Z.to_nat idx). split; [reflexivity|lia].
    + apply Z.ltb_ge in E1. lia.
  - apply Z.leb_gt in E0. simpl.
    destruct (idx <? 0) eqn:E1; [|apply Z.ltb_ge in E1; lia].
    destruct (- Z.of_nat n <=? idx) eqn:E2; [|apply Z.leb_gt in E2; lia].
    simpl. exists (Z.to_nat (Z.of_nat n + idx)). split; [reflexivity|lia].
Qed.

Lemma rank_lines_app (l1 l2 : list (out F)) :
  rank_lines (l1 ++ l2) = (rank_lines l1 ++ rank_lines l2)%list.
Proof. apply List.filter_app. Qed.

(** One pass of the loop body prints exactly one ranked line. *)
Lemma report_one metadata D0 I0 i idx score w :
  well_formed metadata ->
  I0 !! i = Some idx -> D0 !! i = Some score -> -1 <= idx ->
  exists lines,
    report metadata D0 I0 i w
      = (Ok tt, {| files := files w; stdout := (stdout w ++ lines)%list |}) /\
    length (rank_lines lines) = 1%nat.
Proof.
  intros (l & -> & Hne & Hcards) HI HD Hidx. unfold report. rewrite HI, HD.
  unfold bind at 1, lift at 1. cbn [py_len].
  destruct (idx <? Z.of_nat (length l)) eqn:Elt.
  - apply Z.ltb_lt in Elt.
    destruct (subscript_total (length l) idx) as (m & Hm & Hlt); [now destruct l|lia|].
    destruct (lookup_lt_is_Some_2 l m Hlt) as [v Hv].
    rewrite Forall_lookup in Hcards.
    destruct (Hcards m v Hv) as (d & name & file & -> & Hname & Hfile).
    unfold bind at 1, lift at 1. cbn [getitem_int]. rewrite Hm, Hv.
    unfold bind at 1, lift at 1. cbn [getitem_str]. rewrite Hname.
    unfold bind at 1. rewrite print_eq.
    unfold bind at 1, lift at 1. rewrite Hfile. rewrite print_eq. cbn [files stdout].
    exists [RankLine (i + 1) name score; FileLine file]. split; [|reflexivity].
    now rewrite <- app_assoc.
  - rewrite print_eq. exists [UnknownLine (i + 1) idx]. split; reflexivity.
Qed.

Lemma for_range_report metadata D0 I0 range w :
  well_formed metadata ->
  Forall (fun i => exists idx score,
                     I0 !! i = Some idx /\ D0 !! i = Some score /\ -1 <= idx) range ->
  exists lines,
    for_range (report metadata D0 I0) range w
      = (Ok tt, {| files := files w; stdout := (stdout w ++ lines)%list |}) /\
    length (rank_lines lines) = length range.
Proof.
  intros Hwf Hrange. revert w.
  induction Hrange as [|i range (idx & score & HI & HD & Hidx) _ IH]; intros w; simpl.
  - exists []. unfold ret. rewrite app_nil_r. split; [now destruct w|reflexivity].
  - destruct (report_one metadata D0 I0 i idx score w Hwf HI HD Hidx) as (l1 & Hrun & Hl1).
    unfold bind. rewrite Hrun.
    destruct (IH {| files := files w; stdout := (stdout w ++ l1)%list |}) as (l2 & -> & Hl2).
    cbn [files stdout]. exists (l1 ++ l2)%list. split.
    + now rewrite app_assoc.
    + rewrite rank_lines_app, length_app. lia.
Qed.

(** The early return of the query. *)
Lemma test_index_missing a w :
  files w !! index_path a = None \/ files w !! metadata_path a = None ->
  test_index model a w =
  (Ok tt,
   {| files := files w;
      stdout := (stdout w ++ [Text ("Testing index for deck: " ++ deck a);
                              Text ("Error: Index or metadata not found in data/indices/"
                                    ++ deck a)])%list |}).
Proof.
  intros Hmiss. unfold test_index, bind at 1. rewrite print_eq.
  unfold bind at 1, path_exists at 1. unfold bind at 1, path_exists at 1.
  cbn [files stdout]. fold (index_path a). fold (metadata_path a).
  assert (Hcond : negb (match files w !! index_path a with Some _ => true | None => false end)
                  || negb (match files w !! metadata_path a with Some _ => true | None => false end)
                  = true).
  { destruct Hmiss as [-> | ->]; [reflexivity|]. apply orb_true_r. }
  rewrite Hcond, print_eq. cbn [files stdout]. now rewrite <- app_assoc.
Qed.

(** With both artifacts in place and loadable, the query runs to its
    end and prints one ranked line per requested slot. *)
Lemma test_index_reports a w d rs metadata :
  adapter_ready model a w ->
  files w !! index_path a = Some (File (FaissFile d rs)) ->
  files w !! metadata_path a = Some (File (JsonText metadata)) ->
  well_formed metadata ->
  (forall adapter, length (text_features model adapter (query a)) = d) ->
  exists lines,
    test_index model a w
      = (Ok tt, {| files := files w; stdout := (stdout w ++ lines)%list |}) /\
    length (rank_lines lines) = k.
Proof.
  intros Hready Hix Hmd Hwf Hdim. unfold test_index, bind at 1. rewrite print_eq.
  unfold bind at 1, path_exists at 1. unfold bind at 1, path_exists at 1.
  cbn [files stdout]. fold (index_path a). fold (metadata_path a).
  rewrite Hix, Hmd. cbn [negb orb].
  unfold bind at 1, read_file at 1. cbn [files stdout]. rewrite Hix.
  unfold bind at 1, lift at 1. cbn [read_index].
  unfold bind at 1, read_file at 1. cbn [files stdout]. rewrite Hmd.
  unfold bind at 1, lift at 1. cbn [json_load].
  unfold bind at 1. rewrite print_eq.
  unfold bind at 1, path_exists at 1. cbn [files stdout].
  set (adapter_path := Path.join3 "models" "adapters" (deck a)).
  assert (Hadapter :
    forall w0 : world F, files w0 = files w -> exists ad (note : string),
      (if match files w0 !! adapter_path with Some _ => true | None => false end
       then do! print (Text ("Loading LoRA adapter from " ++ adapter_path)) in
            do! (fun w1 => (load_adapter model (files w1) adapter_path, w1)) in
            ret (Some adapter_path)
       else do! print (Text "Warning: Adapter not found, using base model.") in ret None) w0
      = (Ok ad, {| files := files w0; stdout := (stdout w0 ++ [Text note])%list |})).
  { intros w0 Hw0. unfold adapter_ready, adapter_dir in Hready. fold adapter_path in Hready.
    rewrite Hw0. destruct (files w !! adapter_path).
    - unfold bind at 1. rewrite print_eq. unfold bind. cbn [files stdout].
      rewrite Hw0, Hready. unfold ret. eauto.
    - unfold bind. rewrite print_eq. unfold ret. rewrite <- Hw0. eauto. }
  unfold bind at 1.
  match goal with
  | |- context [(if _ then _ else _) ?w0] =>
      destruct (Hadapter w0 eq_refl) as (ad & note & Had)
  end.
  cbn [files stdout] in Had. rewrite Had. clear Had Hadapter.
  unfold bind at 1. rewrite print_eq.
  destruct (index_search_total (IndexFlatIP d rs) (text_features model ad (query a)) k)
    as (D0 & I0 & Hsearch); [apply Hdim|].
  unfold bind at 1, lift at 1. rewrite Hsearch.
  unfold bind at 1. rewrite print_eq. cbn [files stdout].
  apply index_search_spec in Hsearch as (HD & HI & Hlabels & _).
  match goal with
  | |- context [for_range _ _ ?w0] =>
      destruct (for_range_report metadata D0 I0 (seq 0 k) w0 Hwf) as (lines & -> & Hlines)
  end.
  - apply Forall_forall. intros i Hi. apply list_elem_of_In, in_seq in Hi.
    assert (Hlt : (i < k)%nat) by lia.
    destruct (lookup_lt_is_Some_2 I0 i) as [idx Hidx]; [lia|].
    destruct (lookup_lt_is_Some_2 D0 i) as [score Hscore]; [lia|].
    exists idx, score. split_and!; auto.
    rewrite Forall_lookup in Hlabels. apply Hlabels in Hidx. unfold label_ok in Hidx. lia.
  - cbn [files stdout]. eexists. split.
    + rewrite <- !app_assoc. reflexivity.
    + cbn [app]. unfold rank_lines in *. cbn [List.filter is_rank_line].
      rewrite Hlines, length_seq. reflexivity.
Qed.

End QueryFacts.
End QueryFacts.

(** * The claims *)

Section BuildClaims.
Import BuildVectorIndex.
Context {F : Type} {SF : Scalar F}.
Variable model : clip F.

Lemma filter_none {A} (f : A -> bool) (l : list A) :
  Forall (fun x => f x = false) l -> List.filter f l = [].
Proof. induction 1 as [|x l Hx _ IH]; simpl; [reflexivity|]. now rewrite Hx. Qed.

Lemma length_zero_nil {A} (l : list A) : length l = 0%nat -> l = [].
Proof. now destruct l. Qed.

(** When the adapter does not load, the build ends in step 1 with the
    loader's exception and the file system as it was. *)
Lemma build_index_not_ready (a : args) (w : world F) :
  ~ adapter_ready model a w ->
  exists e notes,
    build_index model a w
    = (Raise e, {| files := files w; stdout := (stdout w ++ notes)%list |}).
Proof.
  intros Hnot. unfold build_index, bind at 1. rewrite print_eq. unfold bind at 1.
  destruct (BuildFacts.load_model_fails model a
              {| files := files w;
                 stdout := (stdout w ++ [Text ("Building vector index for deck: " ++ deck a ++ " on "
                              ++ (if cuda_available model then "cuda" else "cpu"))])%list |})
    as (e & note & ->); [exact Hnot|].
  cbn [files stdout]. exists e. eexists. rewrite <- app_assoc. reflexivity.
Qed.

(** C5 : A build that finds no image file, or in which no image embeds,
    ends with the file system exactly as it found it: no index file,
    no metadata file, no export, and no index is constructed; unless
    its adapter fails to load, it returns after its message.  A build
    that goes on has skipped the images that failed: the persisted
    index has one row, and the metadata one record, per image that
    embedded. *)
Theorem build_aborts_without_artifacts (a : args) (w : world F) (names : list string) :
  files w !! image_dir a = Some (Dir names) ->
  ((image_files_of names = [] \/
    Forall (fun f => embeds model (adapter_of a w) (image_dir a) (files w) f = false)
           (image_files_of names)) ->
   files (snd (build_index model a w)) = files w /\
   (adapter_ready model a w ->
    exists notes reason,
      build_index model a w
        = (Ok tt, {| files := files w; stdout := (stdout w ++ notes ++ [Text reason])%list |}) /\
      (reason = "No images found." \/ reason = "No embeddings generated."))) /\
  (forall w',
     build_index model a w = (Ok tt, w') ->
     List.filter (embeds model (adapter_of a w) (image_dir a) (files w)) (image_files_of names) <> [] ->
     (forall p, truthy (export_json a) = Some p -> p <> index_path a /\ p <> metadata_path a) ->
     exists d index_rows records,
       files w' !! index_path a = Some (File (FaissFile d index_rows)) /\
       files w' !! metadata_path a = Some (File (JsonText (JArr records))) /\
       length index_rows
         = length (List.filter (embeds model (adapter_of a w) (image_dir a) (files w))
                               (image_files_of names)) /\
       length records = length index_rows).
Proof.
  intros Hdir. split.
  - intros Habort.
    assert (Hready : adapter_ready model a w ->
              exists notes reason,
                build_index model a w
                = (Ok tt, {| files := files w;
                             stdout := (stdout w ++ notes ++ [Text reason])%list |}) /\
                (reason = "No images found." \/ reason = "No embeddings generated.")).
    { intros Hready. destruct Habort as [Hnone|Hfail].
      + destruct (BuildFacts.build_index_no_images model a w names Hready Hdir Hnone)
          as [notes Hrun].
        exists notes, "No images found.". auto.
      + destruct (image_files_of names) as [|f rest] eqn:Efiles.
        * destruct (BuildFacts.build_index_no_images model a w names Hready Hdir Efiles)
            as [notes Hrun].
          exists notes, "No images found.". auto.
        * destruct (BuildFacts.build_index_no_embeddings model a w names Hready Hdir)
            as [notes Hrun].
          { rewrite Efiles. discriminate. }
          { rewrite Efiles. apply length_zero_nil.
            rewrite BuildFacts.embedded_length, (filter_none _ _ Hfail). reflexivity. }
          exists notes, "No embeddings generated.". auto. }
    split; [|exact Hready].
    destruct (BuildFacts.adapter_ready_dec model a w) as [Hr|Hnot].
    + destruct (Hready Hr) as (notes & reason & -> & _). reflexivity.
    + destruct (build_index_not_ready a w Hnot) as (e & notes & ->). reflexivity.
  - intros w' Hrun Hsome Hexp.
    destruct (BuildFacts.build_index_persists model a w w' names Hdir) as [[d Hix] Hmd]; auto.
    { intros Hnil. apply Hsome, length_zero_nil.
      rewrite <- (BuildFacts.embedded_length model _ _ _ 0%nat), Hnil. reflexivity. }
    eexists d, _, _. split_and!; [exact Hix|exact Hmd| |].
    + rewrite List.length_map. exact (BuildFacts.embedded_length model _ _ _ 0%nat _).
    + now rewrite !List.length_map.
Qed.

(** C4 (amended) : When the listing of the source directory reports
    "01_fool.jpg", "02_magician.jpg", "03_priestess.jpg" in this order
    and all three embed, a completed build has written the metadata
    [[{id:0, 01_fool.jpg, "01 fool"}, {id:1, 02_magician.jpg,
    "02 magician"}, {id:2, 03_priestess.jpg, "03 priestess"}]] in that
    order and an index of the three feature vectors in the same order.
    The build enumerates the files in listing order and does not sort. *)
Theorem three_image_build_in_listing_order (a : args) (w w' : world F) (v1 v2 v3 : list F) :
  files w !! image_dir a
    = Some (Dir ["01_fool.jpg"; "02_magician.jpg"; "03_priestess.jpg"]) ->
  try_embed model (adapter_of a w) (Path.join (image_dir a) "01_fool.jpg") (files w)
    = Embedded v1 ->
  try_embed model (adapter_of a w) (Path.join (image_dir a) "02_magician.jpg") (files w)
    = Embedded v2 ->
  try_embed model (adapter_of a w) (Path.join (image_dir a) "03_priestess.jpg") (files w)
    = Embedded v3 ->
  (forall p, truthy (export_json a) = Some p -> p <> index_path a /\ p <> metadata_path a) ->
  build_index model a w = (Ok tt, w') ->
  files w' !! metadata_path a
    = Some (File (JsonText (JArr
        [JObj [("id", JInt 0); ("filename", JStr "01_fool.jpg"); ("card_name", JStr "01 fool")];
         JObj [("id", JInt 1); ("filename", JStr "02_magician.jpg");
               ("card_name", JStr "02 magician")];
         JObj [("id", JInt 2); ("filename", JStr "03_priestess.jpg");
               ("card_name", JStr "03 priestess")]]))) /\
  exists d, files w' !! index_path a = Some (File (FaissFile d [v1; v2; v3])).
Proof.
  intros Hdir H1 H2 H3 Hexp Hrun.
  assert (Hemb : embedded model (adapter_of a w) (image_dir a) (files w) 0
                   (image_files_of ["01_fool.jpg"; "02_magician.jpg"; "03_priestess.jpg"])
                 = [(CardMeta 0 "01_fool.jpg" "01 fool", v1);
                    (CardMeta 1 "02_magician.jpg" "02 magician", v2);
                    (CardMeta 2 "03_priestess.jpg" "03 priestess", v3)]).
  { change (image_files_of ["01_fool.jpg"; "02_magician.jpg"; "03_priestess.jpg"])
      with ["01_fool.jpg"; "02_magician.jpg"; "03_priestess.jpg"].
    cbn [embedded]. rewrite H1, H2, H3. reflexivity. }
  destruct (BuildFacts.build_index_persists model a w w' _ Hdir) as [[d Hix] Hmd]; auto.
  { rewrite Hemb. discriminate. }
  rewrite Hemb in Hix, Hmd. split; [exact Hmd|exists d; exact Hix].
Qed.

End BuildClaims.

Section BuildScenarios.
Import BuildVectorIndex Worked.

(** C1 : The claim at a build in which the first of two images fails to
    decode: the build completes, the index has the single row 0, and
    the single metadata record, at list position 0, carries id 1.  The
    record is numbered by the position of its file among the image
    files, not by its position among the records. *)
Theorem id_gap_after_decode_failure :
  fst (build_index toy build_rws w_corrupt) = Ok tt /\
  files (snd (build_index toy build_rws w_corrupt)) !! "data/indices/rws/index.faiss"
    = Some (File (FaissFile 2 [[2; 1]])) /\
  files (snd (build_index toy build_rws w_corrupt)) !! "data/indices/rws/metadata.json"
    = Some (File (JsonText (JArr
        [JObj [("id", JInt 1); ("filename", JStr "02_magician.jpg");
               ("card_name", JStr "02 magician")]]))).
Proof. split_and!; vm_compute; reflexivity. Qed.

(** C4, as stated, fails: the directory holds exactly the three files,
    all decodable, but the operating system lists them in another
    order, and the ids follow that order. *)
Lemma three_image_build_other_listing_order :
  files w_permuted !! "data/raw_images/rws"
    = Some (Dir ["03_priestess.jpg"; "01_fool.jpg"; "02_magician.jpg"]) /\
  fst (build_index toy build_rws w_permuted) = Ok tt /\
  files (snd (build_index toy build_rws w_permuted)) !! "data/indices/rws/metadata.json"
    = Some (File (JsonText (JArr
        [JObj [("id", JInt 0); ("filename", JStr "03_priestess.jpg");
               ("card_name", JStr "03 priestess")];
         JObj [("id", JInt 1); ("filename", JStr "01_fool.jpg"); ("card_name", JStr "01 fool")];
         JObj [("id", JInt 2); ("filename", JStr "02_magician.jpg");
               ("card_name", JStr "02 magician")]]))) /\
  files (snd (build_index toy build_rws w_permuted)) !! "data/indices/rws/metadata.json"
    <> Some (File (JsonText claimed_metadata)).
Proof.
  split_and!; try (vm_compute; reflexivity).
  vm_compute. intros H. discriminate H.
Qed.

Lemma three_image_build_in_listing_order_witness :
  files w_built !! "data/indices/rws/metadata.json" = Some (File (JsonText claimed_metadata)) /\
  exists d, files w_built !! "data/indices/rws/index.faiss"
            = Some (File (FaissFile d [[1; 1]; [2; 1]; [3; 1]])).
Proof.
  apply (three_image_build_in_listing_order toy build_rws w_three w_built
           [1; 1] [2; 1] [3; 1]).
  - vm_compute; reflexivity.
  - vm_compute; reflexivity.
  - vm_compute; reflexivity.
  - vm_compute; reflexivity.
  - intros p Hp. vm_compute in Hp. discriminate Hp.
  - vm_compute; reflexivity.
Defined.

Lemma build_aborts_without_artifacts_witness :
  (exists notes reason,
     build_index toy build_rws w_all_corrupt
       = (Ok tt, {| files := files w_all_corrupt;
                    stdout := (stdout w_all_corrupt ++ notes ++ [Text reason])%list |}) /\
     (reason = "No images found." \/ reason = "No embeddings generated.")) /\
  (exists d index_rows records,
     files (snd (build_index toy build_rws w_corrupt)) !! index_path build_rws
       = Some (File (FaissFile d index_rows)) /\
     files (snd (build_index toy build_rws w_corrupt)) !! metadata_path build_rws
       = Some (File (JsonText (JArr records))) /\
     length index_rows = 1%nat /\ length records = length index_rows).
Proof.
  split.
  - apply (proj1 (build_aborts_without_artifacts toy build_rws w_all_corrupt ["01_fool.jpg"]
                    eq_refl)).
    + right. repeat constructor.
    + exact I.
  - apply (proj2 (build_aborts_without_artifacts toy build_rws w_corrupt
                    ["01_fool.jpg"; "02_magician.jpg"] eq_refl)).
    + vm_compute; reflexivity.
    + vm_compute. discriminate.
    + intros p Hp. vm_compute in Hp. discriminate Hp.
Defined.

End BuildScenarios.

Section ExportClaims.
Import BuildVectorIndex.
Context {F : Type}.

Lemma remove_dups_length_le (l : list string) : (length (remove_dups l) <= length l)%nat.
Proof.
  induction l as [|x l IH]; simpl; [lia|]. case_decide; simpl; lia.
Qed.

(** Every array the loop appends has the single row of one image, so
    what is exported as an embedding is a list holding one list. *)
Lemma exported_embedding_never_flat (vectors : list (list F)) (metadata : list card_meta)
    (cards : list (string * json F)) :
  cards_loop (map (fun v => [v]) vectors) 0 metadata [] = Ok cards ->
  Forall (fun kv => exists v,
            snd kv = JObj [("embedding", JArr [JArr (map JFloat v)]); ("count", JInt 1)] /\
            flat_floats (JArr [JArr (map JFloat v)]) = false) cards.
Proof.
  intros Hrun. apply ExportFacts.cards_loop_values in Hrun; [|constructor].
  eapply Forall_impl; [exact Hrun|]. intros [name entry] (e & He & ->).
  apply list_elem_of_In, in_map_iff in He as (v & <- & _).
  exists v. split; reflexivity.
Qed.

(** What a completed export step stores for the records it is given:
    as many cards as distinct card names among the records, every card
    with count 1, and under a name shared by several records the
    entry of the last of them. *)
Lemma export_step_keys (a : args) (export_path : string)
    (embeddings : list (ndarray F)) (metadata : list card_meta) (w w' : world F) :
  export_step a export_path embeddings metadata w = (Ok tt, w') ->
  exists doc cards,
    files w' !! export_path = Some (File (JsonText doc)) /\
    deck_entry doc (app_deck_id (deck a)) = Some (JObj [("cards", JObj cards)]) /\
    NoDup (Dict.keys cards) /\
    (forall name, name ∈ Dict.keys cards <-> name ∈ map card_name metadata) /\
    length cards = length (remove_dups (map card_name metadata)) /\
    Forall (fun kv => getitem_str (snd kv) "count" = Ok (JInt 1)) cards /\
    (forall j m,
       metadata !! j = Some m ->
       (forall j' m', (j < j')%nat -> metadata !! j' = Some m' ->
                      card_name m' <> card_name m) ->
       exists e, embeddings !! j = Some e /\
                 Dict.get (card_name m) cards = Some (card_entry e)).
Proof.
  intros H. apply BuildFacts.export_step_Ok in H as (cards & doc & Hmerge & Hfile & _).
  apply ExportFacts.merge_export_frame in Hmerge as (Hloop & Hthis & _ & _).
  exists doc, cards. split_and!; auto.
  - apply ExportFacts.cards_loop_keys in Hloop as [Hnd _]; [exact Hnd|apply NoDup_nil_2].
  - intros name.
    apply ExportFacts.cards_loop_keys in Hloop as [_ Hin]; [|apply NoDup_nil_2].
    rewrite Hin. simpl. rewrite elem_of_nil. tauto.
  - exact (ExportFacts.cards_loop_length _ _ _ Hloop).
  - apply ExportFacts.cards_loop_values in Hloop; [|constructor].
    eapply Forall_impl; [exact Hloop|]. intros [name entry] (e & _ & ->). reflexivity.
  - intros j m Hj Hlast.
    exact (ExportFacts.cards_loop_get_last _ _ 0 [] cards j m Hloop Hj Hlast).
Qed.

Lemma remove_dups_length_NoDup (l : list string) :
  length (remove_dups l) = length l <-> NoDup l.
Proof.
  split.
  - induction l as [|x l IH]; simpl; [constructor|].
    case_decide as Hx; simpl.
    + intros H. pose proof (remove_dups_length_le l). lia.
    + intros H. constructor; [assumption|]. apply IH. lia.
  - induction 1 as [|x l Hx Hl IH]; simpl; [reflexivity|].
    case_decide; [contradiction|]. simpl. now rewrite IH.
Qed.

(** A derived card name holds no dot, underscore or hyphen. *)
Lemma derive_card_name_separators (img_file : string) (c : ascii) :
  In c (list_ascii_of_string (derive_card_name img_file)) ->
  c <> "."%char /\ c <> "_"%char /\ c <> "-"%char.
Proof.
  unfold derive_card_name. revert c.
  induction img_file as [|ch rest IH]; simpl; [tauto|].
  destruct (Ascii.eqb ch ".") eqn:Edot; simpl; [tauto|].
  intros c [Hc|Hc]; [|now apply IH]. subst c.
  apply Ascii.eqb_neq in Edot.
  destruct (Ascii.eqb ch "_") eqn:Eus.
  - simpl. repeat split; discriminate.
  - apply Ascii.eqb_neq in Eus. destruct (Ascii.eqb ch "-") eqn:Ehy.
    + repeat split; discriminate.
    + apply Ascii.eqb_neq in Ehy. auto.
Qed.

Context {SF : Scalar F}.
Variable model : clip F.

(** The card names of the accumulated records are the names derived
    from the files that embed, in listing order. *)
Lemma embedded_card_names adapter dir fs idx image_files :
  map (fun mv => card_name (fst mv)) (embedded model adapter dir fs idx image_files)
  = map derive_card_name (List.filter (embeds model adapter dir fs) image_files).
Proof.
  revert idx. induction image_files as [|f rest IH]; intros idx; simpl; [reflexivity|].
  unfold embeds at 1.
  destruct (try_embed model adapter (Path.join dir f) fs); simpl; [f_equal|]; apply IH.
Qed.

Lemma embedded_lookup adapter dir fs idx image_files j f :
  List.filter (embeds model adapter dir fs) image_files !! j = Some f ->
  exists mv, embedded model adapter dir fs idx image_files !! j = Some mv /\
             card_name (fst mv) = derive_card_name f /\
             try_embed model adapter (Path.join dir f) fs = Embedded (snd mv).
Proof.
  revert idx j. induction image_files as [|f0 rest IH]; intros idx j; simpl; [discriminate|].
  unfold embeds at 1.
  destruct (try_embed model adapter (Path.join dir f0) fs) as [v|e] eqn:E.
  - destruct j as [|j]; simpl.
    + intros H. injection H as <-. eexists. split; [reflexivity|]. simpl. auto.
    + apply IH.
  - apply IH.
Qed.

(** A completed build that was given an export path has run the
    export step on what the loop accumulated. *)
Lemma build_and_save_exports a embeddings metadata export_path (w w' : world F) :
  embeddings <> [] ->
  truthy (export_json a) = Some export_path ->
  build_and_save a embeddings metadata w = (Ok tt, w') ->
  exists w0, export_step a export_path embeddings metadata w0 = (Ok tt, w').
Proof.
  intros Hne Hexp H. destruct embeddings as [|first rest]; [contradiction|].
  unfold build_and_save in H.
  apply bind_Ok_inv in H as (np & w1 & _ & H).
  apply bind_Ok_inv in H as (ix & w2 & _ & H).
  apply bind_Ok_inv in H as ([] & w3 & _ & H).
  apply bind_Ok_inv in H as ([] & w4 & _ & H).
  apply bind_Ok_inv in H as ([] & w5 & _ & H).
  apply bind_Ok_inv in H as ([] & w6 & _ & H).
  apply bind_Ok_inv in H as ([] & w7 & _ & H).
  apply bind_Ok_inv in H as ([] & w8 & _ & H).
  rewrite Hexp in H. eauto.
Qed.

(** C10 : In the export document of a completed build the deck's cards
    are keyed by the card name derived from the file name of each
    indexed image (the part before the first dot, with underscores and
    hyphens turned into spaces): there are as many cards as distinct
    derived names among the indexed images, never more than images,
    and fewer exactly when two indexed images derive the same name;
    every card has count 1; and a name shared by several images holds
    the entry of the last of them. *)
Theorem export_keyed_by_card_name (a : args) (export_path : string) (w w' : world F)
    (names : list string) :
  files w !! image_dir a = Some (Dir names) ->
  truthy (export_json a) = Some export_path ->
  indexed model a w names <> [] ->
  build_index model a w = (Ok tt, w') ->
  exists doc cards,
    files w' !! export_path = Some (File (JsonText doc)) /\
    deck_entry doc (app_deck_id (deck a)) = Some (JObj [("cards", JObj cards)]) /\
    NoDup (Dict.keys cards) /\
    (forall name, name ∈ Dict.keys cards <->
                  exists f, f ∈ indexed model a w names /\ name = derive_card_name f) /\
    (forall name c, name ∈ Dict.keys cards -> In c (list_ascii_of_string name) ->
                    c <> "."%char /\ c <> "_"%char /\ c <> "-"%char) /\
    length cards = length (remove_dups (map derive_card_name (indexed model a w names))) /\
    (length cards <= length (indexed model a w names))%nat /\
    (length cards = length (indexed model a w names)
     <-> NoDup (map derive_card_name (indexed model a w names))) /\
    Forall (fun kv => getitem_str (snd kv) "count" = Ok (JInt 1)) cards /\
    (forall j f,
       indexed model a w names !! j = Some f ->
       (forall j' f', (j < j')%nat -> indexed model a w names !! j' = Some f' ->
                      derive_card_name f' <> derive_card_name f) ->
       exists v,
         try_embed model (adapter_of a w) (Path.join (image_dir a) f) (files w) = Embedded v /\
         Dict.get (derive_card_name f) cards = Some (card_entry [v])).
Proof.
  intros Hdir Hexp Hsome Hrun.
  set (E := embedded model (adapter_of a w) (image_dir a) (files w) 0 (image_files_of names)).
  assert (Hnames : map card_name (map fst E) = map derive_card_name (indexed model a w names)).
  { rewrite map_map. apply embedded_card_names. }
  assert (HE : E <> []).
  { intros Hnil. apply Hsome. unfold indexed. destruct (List.filter _ _) eqn:Ef; [reflexivity|].
    pose proof (BuildFacts.embedded_length model (adapter_of a w) (image_dir a) (files w) 0
                  (image_files_of names)) as Hlen.
    fold E in Hlen. rewrite Hnil, Ef in Hlen. discriminate. }
  assert (Hfiles : image_files_of names <> []).
  { intros Heq. apply HE. unfold E. now rewrite Heq. }
  destruct (BuildFacts.build_index_reaches_loop model a w names
              (BuildFacts.build_index_Ok_ready model a w w' Hrun) Hdir Hfiles)
    as [notes Hreach].
  fold E in Hreach. rewrite Hreach in Hrun.
  apply (build_and_save_exports a _ _ export_path) in Hrun as [w0 Hrun]; [|
    destruct E; [contradiction|discriminate] | exact Hexp].
  apply export_step_keys in Hrun
    as (doc & cards & Hfile & Hentry & Hnd & Hkeys & Hlen & Hcount & Hlast).
  rewrite Hnames in Hkeys, Hlen.
  assert (Hderived : forall name, name ∈ Dict.keys cards <->
            exists f, f ∈ indexed model a w names /\ name = derive_card_name f).
  { intros name. rewrite Hkeys. split.
    - intros Hin. apply list_elem_of_In, in_map_iff in Hin as (f & <- & Hf).
      exists f. split; [now apply list_elem_of_In|reflexivity].
    - intros (f & Hf & ->). apply list_elem_of_In, in_map. now apply list_elem_of_In. }
  exists doc, cards. split_and!; auto.
  - intros name c Hname Hc. apply Hderived in Hname as (f & _ & ->).
    exact (derive_card_name_separators f c Hc).
  - rewrite Hlen. etransitivity; [apply remove_dups_length_le|]. now rewrite List.length_map.
  - rewrite Hlen, <- (List.length_map derive_card_name (indexed model a w names)).
    apply remove_dups_length_NoDup.
  - intros j f Hj Hlater.
    destruct (embedded_lookup (adapter_of a w) (image_dir a) (files w) 0
                (image_files_of names) j f Hj) as (mv & Hmv & Hname & Hv).
    fold E in Hmv.
    destruct (Hlast j (fst mv)) as (e & He & Hget).
    + change (map fst E) with (fst <$> E). now rewrite list_lookup_fmap, Hmv.
    + intros j' m' Hlt Hj'. rewrite Hname.
      assert (Hf' : map card_name (map fst E) !! j' = Some (card_name m')).
      { change (map card_name (map fst E)) with (card_name <$> map fst E).
        now rewrite list_lookup_fmap, Hj'. }
      rewrite Hnames in Hf'.
      change (map derive_card_name (indexed model a w names))
        with (derive_card_name <$> indexed model a w names) in Hf'.
      rewrite list_lookup_fmap in Hf'.
      destruct (indexed model a w names !! j') as [f'|] eqn:Ef'; [|discriminate].
      injection Hf' as <-. exact (Hlater j' f' Hlt Ef').
    + exists (snd mv). split; [exact Hv|].
      change (map (fun mv0 => [snd mv0]) E) with ((fun mv0 => [snd mv0]) <$> E) in He.
      rewrite list_lookup_fmap, Hmv in He. injection He as <-.
      now rewrite <- Hname.
Qed.

End ExportClaims.

Section ExportScenarios.
Import BuildVectorIndex Worked.

Lemma export_keyed_by_card_name_witness :
  exists doc cards,
    files (snd (build_index toy (build_rws_export "out/prototypes.json") w_same_name))
      !! "out/prototypes.json" = Some (File (JsonText doc)) /\
    deck_entry doc "rws-1909" = Some (JObj [("cards", JObj cards)]) /\
    NoDup (Dict.keys cards) /\
    (forall name, name ∈ Dict.keys cards <->
                  exists f, f ∈ ["fool.jpg"; "fool.png"] /\ name = derive_card_name f) /\
    (forall name c, name ∈ Dict.keys cards -> In c (list_ascii_of_string name) ->
                    c <> "."%char /\ c <> "_"%char /\ c <> "-"%char) /\
    length cards = 1%nat /\
    (length cards <= 2)%nat /\
    (length cards = 2%nat <-> NoDup ["fool"; "fool"]) /\
    Forall (fun kv => getitem_str (snd kv) "count" = Ok (JInt 1)) cards /\
    (forall j f,
       ["fool.jpg"; "fool.png"] !! j = Some f ->
       (forall j' f', (j < j')%nat -> ["fool.jpg"; "fool.png"] !! j' = Some f' ->
                      derive_card_name f' <> derive_card_name f) ->
       exists v,
         try_embed toy None (Path.join "data/raw_images/rws" f) (files w_same_name)
           = Embedded v /\
         Dict.get (derive_card_name f) cards = Some (card_entry [v])).
Proof.
  apply (export_keyed_by_card_name toy (build_rws_export "out/prototypes.json")
           "out/prototypes.json" w_same_name
           (snd (build_index toy (build_rws_export "out/prototypes.json") w_same_name))
           ["fool.jpg"; "fool.png"]).
  - vm_compute. reflexivity.
  - vm_compute. reflexivity.
  - vm_compute. discriminate.
  - vm_compute. reflexivity.
Defined.

(** The same through the whole build: two image files, one card. *)
Example same_name_build_exports_one_card :
  files (snd (build_index toy (build_rws_export "out/prototypes.json") w_same_name))
    !! "out/prototypes.json"
  = Some (File (JsonText
      (JObj [("deckStyles",
              JObj [("rws-1909",
                     JObj [("cards",
                            JObj [("fool",
                                   JObj [("embedding", JArr [JArr [JFloat 2; JFloat 1]]);
                                         ("count", JInt 1)])])])])]))).
Proof. vm_compute. reflexivity. Qed.

(** C8 : The claim at a completed build with export: the entry written
    for "01 fool" holds, under "embedding", a list whose only element
    is the list of the vector's numbers, not a flat list of floats. *)
Theorem exported_embedding_is_nested :
  fst (build_index toy (build_rws_export "out/prototypes.json") w_three) = Ok tt /\
  exists doc cards entry embedding,
    files (snd (build_index toy (build_rws_export "out/prototypes.json") w_three))
      !! "out/prototypes.json" = Some (File (JsonText doc)) /\
    deck_entry doc "rws-1909" = Some (JObj [("cards", JObj cards)]) /\
    Dict.get "01 fool" cards = Some entry /\
    getitem_str entry "embedding" = Ok embedding /\
    embedding = JArr [JArr [JFloat 1; JFloat 1]] /\
    flat_floats embedding = false.
Proof.
  split; [vm_compute; reflexivity|].
  eexists _, _, _, _. split_and!; vm_compute; reflexivity.
Qed.

(** C6 : The claim at an export path without a directory part: the
    index and the metadata are written, then [os.makedirs] is called
    on the empty directory name and raises, and no export document is
    written. *)
Theorem export_to_bare_filename_raises :
  fst (build_index toy (build_rws_export "prototypes.json") w_three) = Raise FileNotFoundError /\
  files (snd (build_index toy (build_rws_export "prototypes.json") w_three))
    !! "prototypes.json" = None /\
  files (snd (build_index toy (build_rws_export "prototypes.json") w_three))
    !! "data/indices/rws/metadata.json" = Some (File (JsonText claimed_metadata)).
Proof. split_and!; vm_compute; reflexivity. Qed.

(** The scenario of the specification: an export document that holds
    "marseille" with five cards, and a build of "rws". *)
Example export_merge_keeps_marseille :
  exists doc,
    files (snd (build_index toy (build_rws_export "out/prototypes.json") w_marseille))
      !! "out/prototypes.json" = Some (File (JsonText doc)) /\
    deck_entry doc "marseille" = Some marseille_entry /\
    exists cards, deck_entry doc "rws-1909" = Some (JObj [("cards", JObj cards)]) /\
                  length cards = 3%nat.
Proof. eexists. split_and!; [vm_compute; reflexivity..|]. eexists. split; vm_compute; reflexivity. Qed.

(** An export document that parses but is not an object stops the
    export with a [TypeError]. *)
Example export_over_array_document_raises :
  fst (export_step (build_rws_export "out/prototypes.json") "out/prototypes.json"
         [[[1; 1]]] [CardMeta 0 "01_fool.jpg" "01 fool"]
         (world_of [("out", Dir ["prototypes.json"]);
                    ("out/prototypes.json", File (JsonText (JArr [])))]))
  = Raise TypeError.
Proof. vm_compute. reflexivity. Qed.

End ExportScenarios.

Section ScriptClaims.
Context {F : Type} {SF : Scalar F}.
Variable model : clip F.

(** C7 (amended) : On a missing input both scripts leave the file
    system as it was.  The query prints its error message and returns
    normally, so the process exits with status 0; so does the build,
    unless loading its adapter, which comes before the directory test,
    fails.  The build names the missing source directory; the query
    names the deck's index directory [data/indices/<deck>], which
    holds both expected files. *)
Theorem missing_input_reports_and_returns :
  (forall (a : BuildVectorIndex.args) (w : world F),
     files w !! BuildVectorIndex.image_dir a = None ->
     files (snd (BuildVectorIndex.main model a w)) = files w /\
     (BuildVectorIndex.adapter_ready model a w ->
      exists notes,
        BuildVectorIndex.main model a w
        = (0, {| files := files w;
                 stdout := (stdout w ++ notes
                            ++ [Text ("Error: Image directory " ++ BuildVectorIndex.image_dir a
                                      ++ " not found.")])%list |}))) /\
  (forall (a : TestIndex.args) (w : world F),
     files w !! TestIndex.index_path a = None \/ files w !! TestIndex.metadata_path a = None ->
     TestIndex.main model a w
     = (0, {| files := files w;
              stdout := (stdout w
                         ++ [Text ("Testing index for deck: " ++ TestIndex.deck a);
                             Text ("Error: Index or metadata not found in data/indices/"
                                   ++ TestIndex.deck a)])%list |})).
Proof.
  split.
  - intros a w Hdir.
    assert (Hready : BuildVectorIndex.adapter_ready model a w ->
              exists notes,
                BuildVectorIndex.main model a w
                = (0, {| files := files w;
                         stdout := (stdout w ++ notes
                                    ++ [Text ("Error: Image directory "
                                              ++ BuildVectorIndex.image_dir a
                                              ++ " not found.")])%list |})).
    { intros Hr. unfold BuildVectorIndex.main.
      destruct (BuildFacts.build_index_no_dir model a w Hr Hdir) as [notes ->].
      exists notes. reflexivity. }
    split; [|exact Hready].
    destruct (BuildFacts.adapter_ready_dec model a w) as [Hr|Hnot].
    + destruct (Hready Hr) as [notes ->]. reflexivity.
    + unfold BuildVectorIndex.main.
      destruct (build_index_not_ready model a w Hnot) as (e & notes & ->). reflexivity.
  - intros a w Hmiss. unfold TestIndex.main.
    now rewrite (QueryFacts.test_index_missing model a w Hmiss).
Qed.

(** C2 (amended) : With the index and a well-formed, non-empty metadata
    list in place, when the deck's adapter, if there is one, loads and
    the text embedding has the dimension of the index, the query runs
    to its end and reports exactly [k = 5] ranked lines, one per slot
    of the search result, whatever the number of indexed vectors; the
    search result it reports carries position [-1] in every slot from
    the number of indexed vectors on. *)
Theorem query_reports_k_lines (a : TestIndex.args) (w : world F)
    (d : nat) (rs : list (list F)) (metadata : json F) :
  TestIndex.adapter_ready model a w ->
  files w !! TestIndex.index_path a = Some (File (FaissFile d rs)) ->
  files w !! TestIndex.metadata_path a = Some (File (JsonText metadata)) ->
  TestIndex.well_formed metadata ->
  (forall adapter, length (text_features model adapter (TestIndex.query a)) = d) ->
  (exists lines,
     TestIndex.test_index model a w
       = (Ok tt, {| files := files w; stdout := (stdout w ++ lines)%list |}) /\
     length (TestIndex.rank_lines lines) = 5%nat) /\
  (forall adapter, exists D0 I0,
     index_search (IndexFlatIP d rs) (text_features model adapter (TestIndex.query a))
                  TestIndex.k = Ok (D0, I0) /\
     forall i, (length rs <= i < 5)%nat -> I0 !! i = Some (-1)).
Proof.
  intros Hready Hix Hmd Hwf Hdim. split.
  - exact (QueryFacts.test_index_reports model a w d rs metadata Hready Hix Hmd Hwf Hdim).
  - intros adapter.
    destruct (QueryFacts.index_search_total (IndexFlatIP d rs)
                (text_features model adapter (TestIndex.query a)) TestIndex.k)
      as (D0 & I0 & Hsearch); [apply Hdim|].
    exists D0, I0. split; [exact Hsearch|].
    apply QueryFacts.index_search_spec in Hsearch as (_ & _ & _ & Hfill).
    intros i Hi. apply Hfill. unfold ntotal. cbn [rows]. exact Hi.
Qed.

(** A slot labelled [-1] passes the test [idx < len(metadata)] and is
    reported with the last record of the list. *)
Lemma report_minus_one (records : list (json F)) (d : list (string * json F))
    (name file : json F) (D0 : list F) (I0 : list Z) (i : nat) (score : F) (w : world F) :
  Dict.get "card_name" d = Some name ->
  Dict.get "filename" d = Some file ->
  I0 !! i = Some (-1) -> D0 !! i = Some score ->
  TestIndex.report (JArr (records ++ [JObj d])) D0 I0 i w
  = (Ok tt, {| files := files w;
               stdout := (stdout w ++ [RankLine (i + 1) name score; FileLine file])%list |}).
Proof.
  intros Hname Hfile HI HD. unfold TestIndex.report. rewrite HI, HD.
  unfold bind at 1, lift at 1. cbn [py_len].
  assert (Hlt : (-1 <? Z.of_nat (length (records ++ [JObj d]))) = true)
    by (apply Z.ltb_lt; lia).
  rewrite Hlt. unfold bind at 1, lift at 1. cbn [getitem_int].
  assert (Hsub : subscript (length (records ++ [JObj d])) (-1) = Some (length records)).
  { unfold subscript. rewrite length_app. cbn [length].
    replace (0 <=? -1) with false by reflexivity. cbn [andb].
    replace (-1 <? 0) with true by reflexivity.
    replace (- Z.of_nat (length records + 1) <=? -1) with true
      by (symmetry; apply Z.leb_le; lia).
    cbn [andb]. f_equal. lia. }
  rewrite Hsub, lookup_app_r, Nat.sub_diag by lia. cbn [lookup list_lookup].
  unfold bind at 1, lift at 1. cbn [getitem_str]. rewrite Hname.
  unfold bind at 1. rewrite print_eq.
  unfold bind at 1, lift at 1. rewrite Hfile, print_eq. cbn [files stdout].
  now rewrite <- app_assoc.
Qed.

(** A slot whose label is at or beyond the length of the list is
    reported as unknown, without a lookup. *)
Lemma report_beyond_length (records : list (json F)) (D0 : list F) (I0 : list Z)
    (i : nat) (idx : Z) (score : F) (w : world F) :
  I0 !! i = Some idx -> D0 !! i = Some score ->
  Z.of_nat (length records) <= idx ->
  TestIndex.report (JArr records) D0 I0 i w
  = (Ok tt, {| files := files w; stdout := (stdout w ++ [UnknownLine (i + 1) idx])%list |}).
Proof.
  intros HI HD Hge. unfold TestIndex.report. rewrite HI, HD.
  unfold bind at 1, lift at 1. cbn [py_len].
  replace (idx <? Z.of_nat (length records)) with false
    by (symmetry; apply Z.ltb_ge; lia).
  apply print_eq.
Qed.

End ScriptClaims.

Section ScriptScenarios.
Import Worked.

(** C7, as stated, fails: with no source directory, and with no index
    directory, the scripts return and the exit status is 0; and the
    query's message names the index directory, not the two files. *)
Lemma missing_input_exits_zero :
  files w_empty !! BuildVectorIndex.image_dir build_rws = None /\
  fst (BuildVectorIndex.main toy build_rws w_empty) = 0 /\
  files w_empty !! TestIndex.index_path query_rws = None /\
  fst (TestIndex.main toy query_rws w_empty) = 0 /\
  stdout (snd (TestIndex.main toy query_rws w_empty))
    = [Text "Testing index for deck: rws";
       Text "Error: Index or metadata not found in data/indices/rws"] /\
  Py.contains (TestIndex.index_path query_rws)
    "Error: Index or metadata not found in data/indices/rws" = false /\
  Py.contains (TestIndex.metadata_path query_rws)
    "Error: Index or metadata not found in data/indices/rws" = false.
Proof. split_and!; vm_compute; reflexivity. Qed.

Lemma missing_input_reports_and_returns_witness :
  (exists notes,
     BuildVectorIndex.main toy build_rws w_empty
     = (0, {| files := files w_empty;
              stdout := (stdout w_empty ++ notes
                         ++ [Text ("Error: Image directory "
                                   ++ BuildVectorIndex.image_dir build_rws
                                   ++ " not found.")])%list |})) /\
  TestIndex.main toy query_rws w_empty
  = (0, {| files := files w_empty;
           stdout := (stdout w_empty
                      ++ [Text ("Testing index for deck: " ++ TestIndex.deck query_rws);
                          Text ("Error: Index or metadata not found in data/indices/"
                                ++ TestIndex.deck query_rws)])%list |}).
Proof.
  split.
  - apply (proj2 (proj1 (missing_input_reports_and_returns toy) build_rws w_empty
                    ltac:(vm_compute; reflexivity))).
    exact I.
  - apply (proj2 (missing_input_reports_and_returns toy) query_rws w_empty).
    left. vm_compute; reflexivity.
Defined.

(** C2, as stated, fails: over an index of three vectors the query
    completes and reports five ranked lines, not three. *)
Lemma query_over_three_vectors_reports_five :
  files w_built !! TestIndex.index_path query_rws
    = Some (File (FaissFile 2 [[1; 1]; [2; 1]; [3; 1]])) /\
  (ntotal (IndexFlatIP 2 [[1; 1]; [2; 1]; [3; 1]]) < TestIndex.k)%nat /\
  fst (TestIndex.test_index toy query_rws w_built) = Ok tt /\
  length (TestIndex.rank_lines (stdout (snd (TestIndex.test_index toy query_rws w_built))))
    = 5%nat /\
  length (TestIndex.rank_lines (stdout (snd (TestIndex.test_index toy query_rws w_built))))
    <> ntotal (IndexFlatIP 2 [[1; 1]; [2; 1]; [3; 1]]).
Proof.
  split_and!; try (vm_compute; reflexivity).
  - vm_compute. lia.
  - vm_compute. discriminate.
Qed.

Lemma query_reports_k_lines_witness :
  (exists lines,
     TestIndex.test_index toy query_rws w_built
       = (Ok tt, {| files := files w_built; stdout := (stdout w_built ++ lines)%list |}) /\
     length (TestIndex.rank_lines lines) = 5%nat) /\
  (forall adapter, exists D0 I0,
     index_search (IndexFlatIP 2 [[1; 1]; [2; 1]; [3; 1]])
                  (text_features toy adapter (TestIndex.query query_rws))
                  TestIndex.k = Ok (D0, I0) /\
     forall i, (3 <= i < 5)%nat -> I0 !! i = Some (-1)).
Proof.
  apply (query_reports_k_lines toy query_rws w_built 2 [[1; 1]; [2; 1]; [3; 1]]
           claimed_metadata).
  - exact I.
  - vm_compute; reflexivity.
  - vm_compute; reflexivity.
  - exists [JObj [("id", JInt 0); ("filename", JStr "01_fool.jpg"); ("card_name", JStr "01 fool")];
            JObj [("id", JInt 1); ("filename", JStr "02_magician.jpg");
                  ("card_name", JStr "02 magician")];
            JObj [("id", JInt 2); ("filename", JStr "03_priestess.jpg");
                  ("card_name", JStr "03 priestess")]].
    split; [reflexivity|]. split; [discriminate|].
    repeat constructor; eexists _, _, _; split_and!; reflexivity.
  - intros adapter. reflexivity.
Defined.

(** C3 : The claim at a query over the three-vector index: the search
    fills slots 4 and 5 with position [-1], which is outside
    [[0, 3)], and the script reports both with the last metadata
    record instead of as an unknown index. *)
Theorem negative_position_reads_last_record :
  index_search (IndexFlatIP 2 [[1; 1]; [2; 1]; [3; 1]])
      (text_features toy None (TestIndex.query query_rws)) TestIndex.k
    = Ok ([73; 49; 25; lowest; lowest], [2; 1; 0; -1; -1]) /\
  fst (TestIndex.test_index toy query_rws w_built) = Ok tt /\
  TestIndex.rank_lines (stdout (snd (TestIndex.test_index toy query_rws w_built)))
    = [RankLine 1 (JStr "03 priestess") 73;
       RankLine 2 (JStr "02 magician") 49;
       RankLine 3 (JStr "01 fool") 25;
       RankLine 4 (JStr "03 priestess") lowest;
       RankLine 5 (JStr "03 priestess") lowest].
Proof. split_and!; vm_compute; reflexivity. Qed.

(** With an empty metadata list the same lookup raises. *)
Example negative_position_on_empty_list_raises :
  TestIndex.report (JArr []) [lowest] [-1] 0 w_empty = (Raise IndexError, w_empty).
Proof. vm_compute. reflexivity. Qed.

End ScriptScenarios.

(** ** A stored vector as the query *)

Section SearchClaims.
Context {F : Type} {SF : Scalar F}.
Implicit Types (x y : Z * F) (l : list (Z * F)) (q v u : list F) (rs : list (list F)).

Lemma insert_desc_elem x y l : y ∈ insert_desc x l <-> y = x \/ y ∈ l.
Proof.
  induction l as [|z l IH]; simpl.
  - rewrite list_elem_of_singleton, elem_of_nil. tauto.
  - destruct (prefer x z).
    + apply elem_of_cons.
    + rewrite !elem_of_cons, IH. tauto.
Qed.

Lemma fold_insert_elem (xs l : list (Z * F)) y :
  y ∈ fold_left (fun acc x => insert_desc x acc) xs l <-> y ∈ xs \/ y ∈ l.
Proof.
  revert l. induction xs as [|x xs IH]; intros l; simpl.
  - rewrite elem_of_nil. tauto.
  - rewrite IH, insert_desc_elem, elem_of_cons. tauto.
Qed.

(** The hits of a search are the rows of the index, each with its
    position and its score against the query. *)
Lemma ranked_elem q rs y :
  y ∈ ranked q rs <-> exists i u, rs !! i = Some u /\ y = (Z.of_nat i, dot q u).
Proof.
  unfold ranked. rewrite fold_insert_elem, elem_of_nil, elem_of_lookup_imap.
  split.
  - intros [(i & u & -> & Hu)|[]]. eauto.
  - intros (i & u & Hu & ->). left. eauto.
Qed.

(** No hit scores above the first one. *)
Lemma insert_desc_head x l h t :
  ranks_by_score ->
  (forall h0 t0, l = h0 :: t0 -> forall y, y ∈ l -> ltb (snd h0) (snd y) = false) ->
  insert_desc x l = h :: t ->
  forall y, y ∈ insert_desc x l -> ltb (snd h) (snd y) = false.
Proof.
  intros (Hbefore & Hafter & Htrans & _) Hl.
  assert (Hrefl : forall z : Z * F, ltb (snd z) (snd z) = false).
  { intros z. destruct (prefer z z) eqn:E; [now apply Hbefore|now apply Hafter]. }
  destruct l as [|z l]; simpl.
  - intros Hh y Hy. injection Hh as <- <-. apply list_elem_of_singleton in Hy as ->.
    apply Hrefl.
  - specialize (Hl z l eq_refl).
    destruct (prefer x z) eqn:E.
    + intros Hh y Hy. injection Hh as <- <-.
      apply elem_of_cons in Hy as [->|Hy]; [apply Hrefl|].
      apply (Htrans _ (snd z)); [now apply Hbefore|now apply Hl].
    + intros Hh y Hy. injection Hh as <- <-.
      apply elem_of_cons in Hy as [->|Hy]; [apply Hrefl|].
      apply insert_desc_elem in Hy as [->|Hy]; [now apply Hafter|].
      apply Hl. now apply list_elem_of_further.
Qed.

Lemma fold_insert_head (xs l : list (Z * F)) h t :
  ranks_by_score ->
  (forall h0 t0, l = h0 :: t0 -> forall y, y ∈ l -> ltb (snd h0) (snd y) = false) ->
  fold_left (fun acc x => insert_desc x acc) xs l = h :: t ->
  forall y, y ∈ fold_left (fun acc x => insert_desc x acc) xs l -> ltb (snd h) (snd y) = false.
Proof.
  intros Hexact. revert l. induction xs as [|x xs IH]; intros l Hl; simpl.
  - intros Hh. exact (Hl h t Hh).
  - apply IH. intros h0 t0 Hh0. exact (insert_desc_head x l h0 t0 Hexact Hl Hh0).
Qed.

Lemma ranked_head q rs h t :
  ranks_by_score ->
  ranked q rs = h :: t ->
  forall y, y ∈ ranked q rs -> ltb (snd h) (snd y) = false.
Proof.
  intros Hexact. unfold ranked. apply fold_insert_head; [exact Hexact|].
  intros h0 t0 Hnil. discriminate Hnil.
Qed.

(** Two rows that hold the same vector cannot both be first for it,
    whatever the order among equal hits: the search with the vector
    succeeds and one of the two rows is not at rank 1. *)
Lemma duplicate_rows_share_rank_one (v : list F) (k : nat) :
  exists D0 I0,
    index_search (IndexFlatIP (length v) [v; v]) v k = Ok (D0, I0) /\
    exists r, [v; v] !! r = Some v /\ I0 !! 0%nat <> Some (Z.of_nat r).
Proof.
  destruct (QueryFacts.index_search_total (IndexFlatIP (length v) [v; v]) v k)
    as (D0 & I0 & Hsearch); [reflexivity|].
  exists D0, I0. split; [exact Hsearch|].
  destruct (decide (I0 !! 0%nat = Some 0)) as [H0|H0].
  - exists 1%nat. split; [reflexivity|]. rewrite H0. discriminate.
  - exists 0%nat. split; [reflexivity|exact H0].
Qed.


End SearchClaims.

Section SearchScenarios.
Import Worked.



End SearchScenarios.

(** * Further properties of the scripts *)

(** ** Effects on the file system *)

Section FrameFacts.
Context {F : Type}.
Implicit Types (w : world F) (fs : gmap string (node F)) (p q : string).

Lemma read_only_ret {A} (a : A) : read_only (ret (F:=F) a).
Proof. intros w. reflexivity. Qed.

Lemma read_only_lift {A} (r : res A) : read_only (lift (F:=F) r).
Proof. intros w. reflexivity. Qed.

Lemma read_only_raise {A} (e : exn) : read_only (raise (F:=F) (A:=A) e).
Proof. intros w. reflexivity. Qed.

Lemma read_only_print (o : out F) : read_only (print o).
Proof. intros w. reflexivity. Qed.

Lemma read_only_inspect {A} (f : world F -> res A) : read_only (fun w => (f w, w)).
Proof. intros w. reflexivity. Qed.

Lemma read_only_path_exists p : read_only (path_exists (F:=F) p).
Proof. intros w. reflexivity. Qed.

Lemma read_only_listdir p : read_only (listdir (F:=F) p).
Proof. intros w. unfold listdir. destruct (files w !! p) as [[names|c]|]; reflexivity. Qed.

Lemma read_only_read_file p : read_only (read_file (F:=F) p).
Proof. intros w. unfold read_file. destruct (files w !! p) as [[names|c]|]; reflexivity. Qed.

Lemma read_only_bind {A B} (m : M F A) (k : A -> M F B) :
  read_only m -> (forall a, read_only (k a)) -> read_only (bind m k).
Proof.
  intros Hm Hk w. unfold bind. specialize (Hm w).
  destruct (m w) as [[a|e] w1]; simpl in *; [|assumption].
  now rewrite Hk.
Qed.

Lemma read_only_try_except {A} (m : M F A) (handler : exn -> M F A) :
  read_only m -> (forall e, read_only (handler e)) -> read_only (try_except m handler).
Proof.
  intros Hm Hh w. unfold try_except. specialize (Hm w).
  destruct (m w) as [[a|e] w1]; simpl in *; [assumption|].
  now rewrite Hh.
Qed.

Lemma read_only_writes_only {A} (paths : list string) (m : M F A) :
  read_only m -> writes_only paths m.
Proof. intros Hm w p c _. now rewrite Hm. Qed.

Lemma writes_only_bind {A B} (paths : list string) (m : M F A) (k : A -> M F B) :
  writes_only paths m -> (forall a, writes_only paths (k a)) -> writes_only paths (bind m k).
Proof.
  intros Hm Hk w p c Hp. unfold bind. specialize (Hm w p c Hp).
  destruct (m w) as [[a|e] w1]; simpl in *; [|assumption].
  now rewrite (Hk a w1 p c Hp).
Qed.

Lemma register_child_file_iff q fs p c :
  register_child q fs !! p = Some (File c) <-> fs !! p = Some (File c).
Proof.
  split; [|apply register_child_file].
  unfold register_child.
  destruct (fs !! Path.dirname q) as [[names|c']|] eqn:E; auto.
  destruct (existsb _ names); auto.
  destruct (decide (Path.dirname q = p)) as [<-|Hne].
  - rewrite lookup_insert_eq. discriminate.
  - now rewrite lookup_insert_ne.
Qed.

Lemma mkdir_chain_file_iff dirs fs fs' p c :
  mkdir_chain dirs fs = Ok fs' ->
  (fs' !! p = Some (File c) <-> fs !! p = Some (File c)).
Proof.
  revert fs. induction dirs as [|q dirs IH]; intros fs Hrun; simpl in Hrun.
  - now injection Hrun as <-.
  - destruct (fs !! q) as [[names|c']|] eqn:E; [eauto|discriminate|].
    rewrite (IH _ Hrun).
    destruct (decide (q = p)) as [<-|Hne].
    + rewrite lookup_insert_eq, E. split; discriminate.
    + rewrite lookup_insert_ne by assumption. apply register_child_file_iff.
Qed.

Lemma writes_only_makedirs (paths : list string) p : writes_only paths (makedirs (F:=F) p).
Proof.
  intros w q c _. unfold makedirs. destruct (String.eqb p ""); [reflexivity|].
  destruct (mkdir_chain (ancestors p) (files w)) as [fs|e] eqn:E; [|reflexivity].
  simpl. eapply mkdir_chain_file_iff; eassumption.
Qed.

Lemma writes_only_write_file (paths : list string) p (c : content F) :
  p ∈ paths -> writes_only paths (write_file p c).
Proof.
  intros Hin w q c' Hq. assert (Hne : p <> q) by (intros ->; contradiction).
  unfold write_file. destruct (String.eqb (Path.basename p) ""); [reflexivity|].
  assert (Hgo : files (snd (match parent_ok p (files w) with
                            | Ok _ => (Ok tt, {| files := <[p := File c]> (register_child p (files w));
                                                 stdout := stdout w |})
                            | Raise e => (Raise e, w)
                            end)) !! q = Some (File c')
                <-> files w !! q = Some (File c')).
  { destruct (parent_ok p (files w)); [|reflexivity]. simpl.
    rewrite lookup_insert_ne by assumption. apply register_child_file_iff. }
  destruct (files w !! p) as [[names|c0]|]; [reflexivity|exact Hgo|exact Hgo].
Qed.

End FrameFacts.

Ltac read_only_step :=
  match goal with
  | |- read_only (bind _ _) => apply read_only_bind; [|intros ?]
  | |- read_only (print _) => apply read_only_print
  | |- read_only (ret _) => apply read_only_ret
  | |- read_only (lift _) => apply read_only_lift
  | |- read_only (raise _) => apply read_only_raise
  | |- read_only (path_exists _) => apply read_only_path_exists
  | |- read_only (listdir _) => apply read_only_listdir
  | |- read_only (read_file _) => apply read_only_read_file
  | |- read_only (try_except _ _) => apply read_only_try_except; [|intros ?]
  | |- read_only (fun w => (_, w)) => apply read_only_inspect
  | |- read_only (if ?b then _ else _) => destruct b
  | |- read_only (match ?x with _ => _ end) => destruct x
  end.

Ltac writes_only_step :=
  match goal with
  | |- writes_only _ (bind _ _) => apply writes_only_bind; [|intros ?]
  | |- writes_only _ (makedirs _) => apply writes_only_makedirs
  | |- writes_only _ (write_file _ _) => apply writes_only_write_file
  | |- writes_only _ (if ?b then _ else _) => destruct b
  | |- writes_only _ (match ?x with _ => _ end) => destruct x
  | |- writes_only _ _ => apply read_only_writes_only
  end.

Section ScriptFrames.
Context {F : Type} {SF : Scalar F}.
Variable model : clip F.

Lemma read_only_for_range (body : nat -> M F unit) (range : list nat) :
  (forall i, read_only (body i)) -> read_only (TestIndex.for_range body range).
Proof.
  intros Hbody. induction range as [|i range IH]; simpl.
  - apply read_only_ret.
  - apply read_only_bind; auto.
Qed.

Lemma read_only_report (metadata : json F) (D0 : list F) (I0 : list Z) (i : nat) :
  read_only (TestIndex.report metadata D0 I0 i).
Proof. unfold TestIndex.report. repeat read_only_step. Qed.

(** X1 : The query only reads: whatever it finds and however it ends,
    with its report, its not-found message or an exception, the file
    system is afterwards as it was before. *)
Theorem query_is_read_only (a : TestIndex.args) (w : world F) :
  files (snd (TestIndex.test_index model a w)) = files w.
Proof.
  revert w. change (read_only (TestIndex.test_index model a)).
  unfold TestIndex.test_index.
  repeat first [apply read_only_for_range; intros ?
               |apply read_only_report
               |read_only_step].
Qed.

Lemma read_only_load_model (a : BuildVectorIndex.args) :
  read_only (BuildVectorIndex.load_model model a).
Proof. unfold BuildVectorIndex.load_model. repeat read_only_step. Qed.

Lemma read_only_embed_loop adapter dir idx image_files embeddings metadata :
  read_only (BuildVectorIndex.embed_loop model adapter dir idx image_files embeddings metadata).
Proof.
  intros w.
  destruct (BuildFacts.embed_loop_spec model adapter dir idx image_files embeddings metadata w)
    as [notes ->].
  reflexivity.
Qed.

Lemma read_only_load_existing (export_path : string) :
  read_only (BuildVectorIndex.load_existing (F:=F) export_path).
Proof. intros w. now rewrite BuildFacts.load_existing_eq. Qed.

Lemma writes_only_export_step (paths : list string) (a : BuildVectorIndex.args)
    (export_path : string) embeddings metadata :
  export_path ∈ paths ->
  writes_only paths (BuildVectorIndex.export_step (F:=F) a export_path embeddings metadata).
Proof.
  intros Hin. unfold BuildVectorIndex.export_step.
  apply writes_only_bind; [apply read_only_writes_only, read_only_print|intros _].
  apply writes_only_bind; [apply read_only_writes_only, read_only_load_existing|intros doc].
  apply writes_only_bind; [apply read_only_writes_only, read_only_lift|intros [cards doc']].
  apply writes_only_bind; [apply writes_only_makedirs|intros _].
  apply writes_only_bind; [now apply writes_only_write_file|intros _].
  apply read_only_writes_only, read_only_print.
Qed.

(** The paths the build may write a file at. *)
Lemma writes_only_build_index (a : BuildVectorIndex.args) :
  writes_only
    (BuildVectorIndex.index_path a :: BuildVectorIndex.metadata_path a
       :: match BuildVectorIndex.truthy (BuildVectorIndex.export_json a) with
          | Some export_path => [export_path]
          | None => []
          end)
    (BuildVectorIndex.build_index model a).
Proof.
  unfold BuildVectorIndex.build_index.
  apply writes_only_bind; [apply read_only_writes_only, read_only_print|intros _].
  apply writes_only_bind; [apply read_only_writes_only, read_only_load_model|intros adapter].
  apply writes_only_bind; [apply read_only_writes_only, read_only_path_exists|intros found].
  destruct (negb found); [apply read_only_writes_only, read_only_print|].
  apply writes_only_bind; [apply read_only_writes_only, read_only_listdir|intros names].
  destruct (List.filter _ names) as [|f rest];
    [apply read_only_writes_only, read_only_print|].
  apply writes_only_bind; [apply read_only_writes_only, read_only_print|intros _].
  apply writes_only_bind; [apply read_only_writes_only, read_only_embed_loop|intros [embs md]].
  cbn [fst snd]. unfold BuildVectorIndex.build_and_save.
  destruct embs as [|first embs]; [apply read_only_writes_only, read_only_print|].
  apply writes_only_bind; [apply read_only_writes_only, read_only_lift|intros np].
  apply writes_only_bind; [apply read_only_writes_only, read_only_lift|intros ix].
  apply writes_only_bind; [apply read_only_writes_only, read_only_print|intros _].
  apply writes_only_bind; [apply writes_only_makedirs|intros _].
  apply writes_only_bind;
    [apply writes_only_write_file; unfold BuildVectorIndex.index_path,
       BuildVectorIndex.output_dir; apply list_elem_of_here|intros _].
  apply writes_only_bind;
    [apply writes_only_write_file; unfold BuildVectorIndex.metadata_path,
       BuildVectorIndex.output_dir; apply list_elem_of_further, list_elem_of_here|intros _].
  apply writes_only_bind; [apply read_only_writes_only, read_only_print|intros _].
  apply writes_only_bind; [apply read_only_writes_only, read_only_print|intros _].
  destruct (BuildVectorIndex.truthy (BuildVectorIndex.export_json a)) as [export_path|].
  - apply writes_only_export_step. do 2 apply list_elem_of_further. apply list_elem_of_here.
  - apply read_only_writes_only, read_only_ret.
Qed.

(** X2 : The build touches no file but its artifacts: at every path other
    than the index file, the metadata file and the export path, a file
    exists with some content after the build, however the build ends,
    exactly when it did before.  A source image is therefore kept as
    it is unless one of these three paths names it. *)
Theorem build_touches_only_its_artifacts (a : BuildVectorIndex.args) (w : world F)
    (p : string) (c : content F) :
  p <> BuildVectorIndex.index_path a ->
  p <> BuildVectorIndex.metadata_path a ->
  BuildVectorIndex.truthy (BuildVectorIndex.export_json a) <> Some p ->
  (files (snd (BuildVectorIndex.build_index model a w)) !! p = Some (File c)
   <-> files w !! p = Some (File c)).
Proof.
  intros Hix Hmd Hexp. apply (writes_only_build_index a w p c).
  intros Hin. apply elem_of_cons in Hin as [->|Hin]; [contradiction|].
  apply elem_of_cons in Hin as [->|Hin]; [contradiction|].
  destruct (BuildVectorIndex.truthy (BuildVectorIndex.export_json a)) as [export_path|].
  - apply list_elem_of_singleton in Hin as ->. contradiction.
  - now apply elem_of_nil in Hin.
Qed.

End ScriptFrames.

(** ** More on the build *)

Section BuildExtras.
Import BuildVectorIndex.
Context {F : Type} {SF : Scalar F}.
Variable model : clip F.

Lemma embedded_points_to_file adapter dir fs idx image_files :
  Forall (fun mv => exists i, id (fst mv) = (idx + i)%nat /\
                              image_files !! i = Some (filename (fst mv)))
         (embedded model adapter dir fs idx image_files).
Proof.
  revert idx. induction image_files as [|f rest IH]; intros idx; simpl; [constructor|].
  assert (Hrest : Forall (fun mv => exists i, id (fst mv) = (idx + i)%nat /\
                                    (f :: rest) !! i = Some (filename (fst mv)))
                         (embedded model adapter dir fs (S idx) rest)).
  { eapply Forall_impl; [apply IH|]. intros mv (i & Hid & Hf).
    exists (S i). split; [lia|exact Hf]. }
  destruct (try_embed model adapter (Path.join dir f) fs); [|exact Hrest].
  constructor; [|exact Hrest]. exists 0%nat. simpl. split; [lia|reflexivity].
Qed.

Lemma embedded_ids_increasing adapter dir fs idx image_files i j mi mj :
  (i < j)%nat ->
  embedded model adapter dir fs idx image_files !! i = Some mi ->
  embedded model adapter dir fs idx image_files !! j = Some mj ->
  (id (fst mi) < id (fst mj))%nat.
Proof.
  revert idx i j. induction image_files as [|f rest IH]; intros idx i j Hlt; simpl;
    [discriminate|].
  destruct (try_embed model adapter (Path.join dir f) fs); [|now apply IH].
  destruct j as [|j]; [lia|]. destruct i as [|i]; simpl.
  - intros Hi Hj. injection Hi as <-. simpl.
    apply BuildFacts.embedded_id_ge in Hj. lia.
  - apply IH. lia.
Qed.

(** X9 : The records of a completed build, whether or not some images were
    skipped: the id of a record is the position of its file among the
    image files of the listing, its card name is derived from its
    file name, and the ids increase along the list. *)
Theorem persisted_ids_point_into_listing (a : args) (w w' : world F) (names : list string) :
  files w !! image_dir a = Some (Dir names) ->
  List.filter (embeds model (adapter_of a w) (image_dir a) (files w)) (image_files_of names)
    <> [] ->
  (forall p, truthy (export_json a) = Some p -> p <> index_path a /\ p <> metadata_path a) ->
  build_index model a w = (Ok tt, w') ->
  exists records,
    files w' !! metadata_path a = Some (File (JsonText (JArr (map json_of_meta records)))) /\
    Forall (fun r => image_files_of names !! id r = Some (filename r) /\
                     card_name r = derive_card_name (filename r)) records /\
    (forall i j ri rj, (i < j)%nat -> records !! i = Some ri -> records !! j = Some rj ->
                       (id ri < id rj)%nat).
Proof.
  intros Hdir Hsome Hexp Hrun.
  set (E := embedded model (adapter_of a w) (image_dir a) (files w) 0 (image_files_of names)).
  assert (HE : E <> []).
  { intros Hnil. apply Hsome. destruct (List.filter _ _) eqn:Ef; [reflexivity|].
    pose proof (BuildFacts.embedded_length model (adapter_of a w) (image_dir a) (files w) 0
                  (image_files_of names)) as Hlen.
    fold E in Hlen. rewrite Hnil, Ef in Hlen. discriminate. }
  destruct (BuildFacts.build_index_persists model a w w' names Hdir HE Hexp Hrun) as [_ Hmd].
  exists (map fst E). split_and!; [exact Hmd| |].
  - apply Forall_forall. intros r Hr.
    apply list_elem_of_In, in_map_iff in Hr as (mv & <- & Hmv).
    pose proof (embedded_points_to_file (adapter_of a w) (image_dir a) (files w) 0
                  (image_files_of names)) as Hpt.
    pose proof (BuildFacts.embedded_card_name model (adapter_of a w) (image_dir a) (files w) 0
                  (image_files_of names)) as Hcn.
    rewrite Forall_forall in Hpt, Hcn. apply list_elem_of_In in Hmv.
    destruct (Hpt mv Hmv) as (i & Hid & Hf). split; [|now apply Hcn].
    now rewrite Hid.
  - intros i j ri rj Hlt Hi Hj.
    change (map fst E) with (fst <$> E) in Hi, Hj.
    rewrite list_lookup_fmap in Hi, Hj.
    destruct (E !! i) as [mi|] eqn:Ei; [|discriminate].
    destruct (E !! j) as [mj|] eqn:Ej; [|discriminate].
    injection Hi as <-. injection Hj as <-.
    exact (embedded_ids_increasing _ _ _ _ _ i j mi mj Hlt Ei Ej).
Qed.

(** X10 : An adapter that is found but does not load stops the build
    in step 1: the loader's exception escapes, nothing has been
    written, and the exit status is 1, whatever the deck's images. *)
Theorem build_with_unloadable_adapter (a : args) (w : world F) (p : string) (n : node F)
    (e : exn) :
  truthy (adapter_path a) = Some p ->
  files w !! p = Some n ->
  load_adapter model (files w) p = Raise e ->
  fst (build_index model a w) = Raise e /\
  files (snd (build_index model a w)) = files w /\
  fst (main model a w) = 1.
Proof.
  intros Hpath Hfound Hload.
  assert (Hrun : build_index model a w
                 = (Raise e,
                    {| files := files w;
                       stdout := (stdout w
                                  ++ [Text ("Building vector index for deck: " ++ deck a ++ " on "
                                            ++ (if cuda_available model then "cuda" else "cpu"));
                                      Text ("Loading LoRA adapter from " ++ p)])%list |})).
  { unfold build_index, bind at 1. rewrite print_eq. unfold bind at 1.
    unfold load_model. rewrite Hpath. unfold bind at 1, path_exists at 1. cbn [files stdout].
    rewrite Hfound. unfold bind at 1. rewrite print_eq. unfold bind at 1. cbn [files stdout].
    rewrite Hload. rewrite <- app_assoc. reflexivity. }
  unfold main. rewrite Hrun. auto.
Qed.

(** X11 : A source path that exists but is not a directory is not caught by
    the existence test: once the adapter, if any, has loaded, listing
    the path raises, the exception escapes the build, nothing has been
    written, and the exit status is 1. *)
Theorem build_on_file_instead_of_directory (a : args) (w : world F) (c : content F) :
  adapter_ready model a w ->
  files w !! image_dir a = Some (File c) ->
  fst (build_index model a w) = Raise NotADirectoryError /\
  files (snd (build_index model a w)) = files w /\
  fst (main model a w) = 1.
Proof.
  intros Hready Hfile.
  assert (Hrun : exists notes,
             build_index model a w
             = (Raise NotADirectoryError,
                {| files := files w; stdout := (stdout w ++ notes)%list |})).
  { unfold build_index, bind at 1. rewrite print_eq. unfold bind at 1.
    destruct (BuildFacts.load_model_spec model a
                {| files := files w;
                   stdout := (stdout w ++ [Text ("Building vector index for deck: " ++ deck a
                                ++ " on " ++ (if cuda_available model then "cuda" else "cpu"))])%list |})
      as [note ->]; [exact Hready|].
    unfold bind at 1, path_exists at 1. cbn [files stdout]. fold (image_dir a).
    rewrite Hfile. cbn [negb]. unfold bind at 1, listdir at 1. cbn [files stdout].
    rewrite Hfile. eexists. rewrite <- app_assoc. reflexivity. }
  destruct Hrun as [notes Hrun]. unfold main. rewrite Hrun. auto.
Qed.

End BuildExtras.

(** ** More on the export *)

Section ExportExtras.
Import BuildVectorIndex.
Context {F : Type}.

Lemma dict_set_set {V} (d : list (string * V)) (k : string) (v v' : V) :
  Dict.set k v (Dict.set k v' d) = Dict.set k v d.
Proof.
  induction d as [|[k0 v0] d IH]; simpl.
  - now rewrite String.eqb_refl.
  - destruct (String.eqb k k0) eqn:E; simpl; rewrite E; congruence.
Qed.

(** X5 : Exporting the same deck again replaces its entry and changes
    nothing else: merging into the document that a merge produced gives
    that document back. *)
Theorem merge_export_idempotent (doc doc' : json F) (deck_id : string)
    (embeddings : list (ndarray F)) (metadata : list card_meta)
    (cards : list (string * json F)) :
  merge_export doc deck_id embeddings metadata = Ok (cards, doc') ->
  merge_export doc' deck_id embeddings metadata = Ok (cards, doc').
Proof.
  unfold merge_export. intros H.
  destruct doc as [| | | |s|l|d]; simpl in H; try discriminate.
  - destruct (negb (Py.contains "deckStyles" s)); simpl in H; [discriminate|].
    destruct (cards_loop embeddings 0 metadata []); discriminate.
  - destruct (negb _); simpl in H; [discriminate|].
    destruct (cards_loop embeddings 0 metadata []); discriminate.
  - unfold Dict.has in H.
    destruct (Dict.get "deckStyles" d) as [styles|] eqn:E; simpl in H.
    + destruct (cards_loop embeddings 0 metadata []) as [cards0|] eqn:Ec; [|discriminate].
      rewrite E in H. destruct styles; simpl in H; try discriminate.
      injection H as <- <-. simpl. unfold Dict.has.
      rewrite DictFacts.get_set_eq. simpl. rewrite DictFacts.get_set_eq. simpl.
      now rewrite !dict_set_set.
    + destruct (cards_loop embeddings 0 metadata []) as [cards0|] eqn:Ec; [|discriminate].
      rewrite DictFacts.get_set_eq in H. simpl in H.
      injection H as <- <-. simpl. unfold Dict.has.
      rewrite DictFacts.get_set_eq. simpl. rewrite DictFacts.get_set_eq. simpl.
      rewrite String.eqb_refl. now rewrite !dict_set_set.
Qed.

(** X6 : Without a usable document at the export path (no file, a
    directory, or a file that is not JSON) a completed export has
    written exactly [{"deckStyles": {<deck id>: {"cards": ...}}}]. *)
Theorem export_starts_from_empty_document (a : args) (export_path : string)
    (embeddings : list (ndarray F)) (metadata : list card_meta) (w w' : world F) :
  (forall j, files w !! export_path <> Some (File (JsonText j))) ->
  export_step a export_path embeddings metadata w = (Ok tt, w') ->
  exists cards,
    cards_loop embeddings 0 metadata [] = Ok cards /\
    files w' !! export_path
    = Some (File (JsonText
        (JObj [("deckStyles",
                JObj [(app_deck_id (deck a), JObj [("cards", JObj cards)])])]))).
Proof.
  intros Hnone H.
  apply BuildFacts.export_step_Ok in H as (cards & doc' & Hmerge & Hfile & _).
  assert (Hdoc : BuildVectorIndex.existing_doc export_path w = JObj []).
  { unfold BuildVectorIndex.existing_doc.
    destruct (files w !! export_path) as [[names|[bytes|j|d rs]]|] eqn:E; try reflexivity.
    now destruct (Hnone j). }
  rewrite Hdoc in Hmerge. unfold merge_export in Hmerge. simpl in Hmerge.
  destruct (cards_loop embeddings 0 metadata []) as [cards0|]; [|discriminate].
  simpl in Hmerge. injection Hmerge as <- <-. exists cards0. auto.
Qed.

Lemma merge_export_unmergeable (doc : json F) (deck_id : string)
    (embeddings : list (ndarray F)) (metadata : list card_meta) :
  ~ mergeable doc ->
  (length metadata <= length embeddings)%nat ->
  merge_export doc deck_id embeddings metadata = Raise TypeError.
Proof.
  intros Hdoc Hlen.
  destruct (ExportFacts.cards_loop_total embeddings metadata 0 [] Hlen) as [cards Hcards].
  unfold merge_export. destruct doc as [| | | |s|l|d]; simpl; try reflexivity.
  - destruct (negb _); simpl; [reflexivity|]. now rewrite Hcards.
  - destruct (negb _); simpl; [reflexivity|]. now rewrite Hcards.
  - unfold Dict.has. unfold mergeable in Hdoc.
    destruct (Dict.get "deckStyles" d) as [styles|] eqn:E; [|now destruct Hdoc].
    simpl. rewrite Hcards, E.
    destruct styles; simpl; try reflexivity. now destruct Hdoc.
Qed.

(** X7 : An export document that parses but does not have the expected
    shape (not an object, or with a ["deckStyles"] that is not an
    object) is never overwritten: the export step ends in a
    [TypeError] before anything is written. *)
Theorem export_keeps_unexpected_document (a : args) (export_path : string)
    (embeddings : list (ndarray F)) (metadata : list card_meta) (w : world F) (doc : json F) :
  files w !! export_path = Some (File (JsonText doc)) ->
  ~ mergeable doc ->
  (length metadata <= length embeddings)%nat ->
  fst (export_step a export_path embeddings metadata w) = Raise TypeError /\
  files (snd (export_step a export_path embeddings metadata w)) = files w.
Proof.
  intros Hfile Hdoc Hlen.
  assert (Hrun : export_step a export_path embeddings metadata w
                 = (Raise TypeError,
                    {| files := files w;
                       stdout := (stdout w ++ [Text ("Exporting embeddings to JSON for web app: "
                                                     ++ export_path)])%list |})).
  { unfold export_step, bind at 1. rewrite print_eq.
    unfold bind at 1. rewrite BuildFacts.load_existing_eq.
    unfold BuildVectorIndex.existing_doc. cbn [files stdout]. rewrite Hfile.
    unfold bind at 1, lift at 1.
    now rewrite (merge_export_unmergeable doc _ _ _ Hdoc Hlen). }
  rewrite Hrun. split; reflexivity.
Qed.

(** X12 : Card names never keep a dot, an underscore or a hyphen, and
    deriving a name from a derived name changes nothing. *)
Theorem derived_card_names_are_clean (img_file : string) :
  (forall c, In c (list_ascii_of_string (derive_card_name img_file)) ->
             c <> "."%char /\ c <> "_"%char /\ c <> "-"%char) /\
  derive_card_name (derive_card_name img_file) = derive_card_name img_file.
Proof.
  unfold derive_card_name. split.
  - induction img_file as [|ch rest IH]; simpl; [tauto|].
    destruct (Ascii.eqb ch ".") eqn:Edot; simpl; [tauto|].
    intros c [Hc|Hc]; [|now apply IH]. subst c.
    apply Ascii.eqb_neq in Edot.
    destruct (Ascii.eqb ch "_") eqn:Eus.
    + simpl. repeat split; discriminate.
    + apply Ascii.eqb_neq in Eus. destruct (Ascii.eqb ch "-") eqn:Ehy.
      * repeat split; discriminate.
      * apply Ascii.eqb_neq in Ehy. auto.
  - induction img_file as [|ch rest IH]; simpl; [reflexivity|].
    destruct (Ascii.eqb ch ".") eqn:Edot; simpl; [reflexivity|].
    destruct (Ascii.eqb ch "_") eqn:Eus.
    + simpl. now rewrite IH.
    + destruct (Ascii.eqb ch "-") eqn:Ehy.
      * simpl. now rewrite IH.
      * rewrite Edot. simpl. rewrite Eus, Ehy. now rewrite IH.
Qed.

(** X13 : The canonical deck id separates decks, with one exception: only
    "rws" is renamed, to "rws-1909", so the decks "rws" and "rws-1909"
    share one export entry and no other two decks do. *)
Theorem deck_ids_collide_only_for_rws (d1 d2 : string) :
  app_deck_id d1 = app_deck_id d2 <->
  d1 = d2 \/ (d1 = "rws" /\ d2 = "rws-1909") \/ (d1 = "rws-1909" /\ d2 = "rws").
Proof.
  assert (Hid : forall d, (d = "rws" /\ app_deck_id d = "rws-1909") \/
                          (d <> "rws" /\ app_deck_id d = d)).
  { intros d. unfold app_deck_id, deck_id_map. cbn [Dict.get].
    destruct (String.eqb d "rws") eqn:E1.
    - apply String.eqb_eq in E1. auto.
    - apply String.eqb_neq in E1. right. split; [assumption|].
      destruct (String.eqb d "thoth") eqn:E2; [now apply String.eqb_eq in E2|].
      destruct (String.eqb d "marseille") eqn:E3; [now apply String.eqb_eq in E3|].
      reflexivity. }
  destruct (Hid d1) as [[H1 ->]|[Hn1 ->]], (Hid d2) as [[H2 ->]|[Hn2 ->]];
    split; intros H; subst; intuition (try discriminate; try congruence).
Qed.

End ExportExtras.

(** ** More on the query *)

Section QueryExtras.
Context {F : Type} {SF : Scalar F}.
Variable model : clip F.

(** X14 : A non-negative position is looked up by list position: the slot
    is reported with the card name and file name of the record at that
    position of the metadata list, whatever the record's "id" says,
    and as "Unknown Index" when the list is too short; in neither case
    does the query stop. *)
Theorem report_by_list_position (records : list (json F)) (D0 : list F) (I0 : list Z)
    (i : nat) (idx : Z) (score : F) (w : world F) :
  I0 !! i = Some idx -> D0 !! i = Some score -> 0 <= idx ->
  (forall d name file,
     records !! Z.to_nat idx = Some (JObj d) ->
     Dict.get "card_name" d = Some name -> Dict.get "filename" d = Some file ->
     TestIndex.report (JArr records) D0 I0 i w
     = (Ok tt, {| files := files w;
                  stdout := (stdout w ++ [RankLine (i + 1) name score; FileLine file])%list |})) /\
  (records !! Z.to_nat idx = None ->
   TestIndex.report (JArr records) D0 I0 i w
   = (Ok tt, {| files := files w;
                stdout := (stdout w ++ [UnknownLine (i + 1) idx])%list |})).
Proof.
  intros HI HD Hidx. split.
  - intros d name file Hrec Hname Hfile.
    pose proof (lookup_lt_Some _ _ _ Hrec) as Hlt.
    unfold TestIndex.report. rewrite HI, HD.
    unfold bind at 1, lift at 1. cbn [py_len].
    replace (idx <? Z.of_nat (length records)) with true
      by (symmetry; apply Z.ltb_lt; lia).
    unfold bind at 1, lift at 1. cbn [getitem_int]. unfold subscript.
    replace (0 <=? idx) with true by (symmetry; apply Z.leb_le; lia).
    replace (idx <? Z.of_nat (length records)) with true
      by (symmetry; apply Z.ltb_lt; lia).
    cbn [andb]. rewrite Hrec.
    unfold bind at 1, lift at 1. cbn [getitem_str]. rewrite Hname.
    unfold bind at 1. rewrite print_eq.
    unfold bind at 1, lift at 1. rewrite Hfile, print_eq. cbn [files stdout].
    now rewrite <- app_assoc.
  - intros Hnone. apply lookup_ge_None in Hnone.
    apply (report_beyond_length records D0 I0 i idx score w HI HD). lia.
Qed.

Lemma json_of_meta_is_card (m : BuildVectorIndex.card_meta) :
  TestIndex.is_card (BuildVectorIndex.json_of_meta (F:=F) m).
Proof. unfold TestIndex.is_card, BuildVectorIndex.json_of_meta. eexists _, _, _. eauto. Qed.

(** X3 : Build, then query: after a completed build in which at least one
    image embedded, the query for the same deck finds both artifacts,
    does not take the not-found exit, and runs to its end with five
    ranked lines, provided the deck's adapter under [models/adapters],
    if there is one, loads and the text embedding has the dimension of
    the index that was written. *)
Theorem query_after_build (a : BuildVectorIndex.args) (text : string)
    (w w' : world F) (names : list string) :
  files w !! BuildVectorIndex.image_dir a = Some (Dir names) ->
  List.filter (BuildVectorIndex.embeds model (BuildVectorIndex.adapter_of a w)
                 (BuildVectorIndex.image_dir a) (files w))
              (BuildVectorIndex.image_files_of names) <> [] ->
  (forall p, BuildVectorIndex.truthy (BuildVectorIndex.export_json a) = Some p ->
             p <> BuildVectorIndex.index_path a /\ p <> BuildVectorIndex.metadata_path a) ->
  BuildVectorIndex.build_index model a w = (Ok tt, w') ->
  TestIndex.adapter_ready model (TestIndex.Args (BuildVectorIndex.deck a) text) w' ->
  (forall d rs adapter,
     files w' !! BuildVectorIndex.index_path a = Some (File (FaissFile d rs)) ->
     length (text_features model adapter text) = d) ->
  exists lines,
    TestIndex.test_index model (TestIndex.Args (BuildVectorIndex.deck a) text) w'
      = (Ok tt, {| files := files w'; stdout := (stdout w' ++ lines)%list |}) /\
    length (TestIndex.rank_lines lines) = 5%nat.
Proof.
  intros Hdir Hsome Hexp Hrun Hready Hdim.
  set (E := BuildVectorIndex.embedded model (BuildVectorIndex.adapter_of a w)
              (BuildVectorIndex.image_dir a) (files w) 0 (BuildVectorIndex.image_files_of names)).
  assert (HE : E <> []).
  { intros Hnil. apply Hsome. destruct (List.filter _ _) eqn:Ef; [reflexivity|].
    pose proof (BuildFacts.embedded_length model (BuildVectorIndex.adapter_of a w)
                  (BuildVectorIndex.image_dir a) (files w) 0
                  (BuildVectorIndex.image_files_of names)) as Hlen.
    fold E in Hlen. rewrite Hnil, Ef in Hlen. discriminate. }
  destruct (BuildFacts.build_index_persists model a w w' names Hdir HE Hexp Hrun)
    as [[d Hix] Hmd].
  fold E in Hix, Hmd.
  apply (QueryFacts.test_index_reports model (TestIndex.Args (BuildVectorIndex.deck a) text)
           w' d (map snd E)
           (JArr (map BuildVectorIndex.json_of_meta (map fst E)))).
  - exact Hready.
  - exact Hix.
  - exact Hmd.
  - eexists. split; [reflexivity|]. split.
    + destruct E; [contradiction|discriminate].
    + apply Forall_forall. intros v Hv.
      apply list_elem_of_In, in_map_iff in Hv as (m & <- & _). apply json_of_meta_is_card.
  - intros adapter. exact (Hdim d (map snd E) adapter Hix).
Qed.

End QueryExtras.

(** ** The trainer's data preparation *)

Section TrainFacts.
Import TrainLoRA.
Context {F : Type} {SF : Scalar F}.
Variable model : clip F.
Variable trainable_parameters : string.

Lemma string_app_cons (c : ascii) (s t : string) : String c s ++ t = String c (s ++ t).
Proof. reflexivity. Qed.

Lemma string_app_nil_l (t : string) : "" ++ t = t.
Proof. reflexivity. Qed.

Lemma string_app_assoc (s t u : string) : (s ++ t) ++ u = s ++ (t ++ u).
Proof.
  induction s as [|c s IH]; [reflexivity|]. rewrite !string_app_cons. congruence.
Qed.

Lemma ends_with_sep_app (pre s : string) :
  s <> "" -> Path.ends_with_sep (pre ++ s) = Path.ends_with_sep s.
Proof.
  intros Hs. induction pre as [|c pre IH]; [reflexivity|].
  rewrite string_app_cons, <- IH. cbn [Path.ends_with_sep].
  destruct (pre ++ s) eqn:E; [|reflexivity].
  destruct pre; [rewrite string_app_nil_l in E; contradiction|].
  rewrite string_app_cons in E. discriminate.
Qed.

Lemma no_sep_ends (s : string) : no_sep s = true -> Path.ends_with_sep s = false.
Proof.
  induction s as [|c s IH]; simpl; [reflexivity|].
  intros H. apply andb_true_iff in H as [Hc Hs].
  destruct s; [now apply negb_true_iff in Hc|auto].
Qed.

Lemma ancestors_from_plain (pre s : string) :
  no_sep s = true -> s <> "" -> ancestors_from pre s = [pre ++ s].
Proof.
  revert pre. induction s as [|c s IH]; intros pre Hs Hne; [contradiction|].
  simpl in Hs. apply andb_true_iff in Hs as [Hc Hs]. apply negb_true_iff in Hc.
  cbn [ancestors_from]. rewrite Hc.
  destruct s as [|c' s'].
  - cbn [ancestors_from].
    assert (Hpre : String.eqb (pre ++ String c "") "" = false).
    { apply String.eqb_neq. destruct pre; discriminate. }
    rewrite Hpre, (ends_with_sep_app pre (String c "")) by discriminate.
    simpl. now rewrite Hc.
  - rewrite (IH (pre ++ String c "") Hs) by discriminate.
    now rewrite string_app_assoc.
Qed.

Lemma dataset_path_plain (a : args) :
  plain_name (deck a) -> dataset_path a = "data/raw_images/" ++ deck a.
Proof.
  intros [Hne Hplain]. unfold dataset_path, Path.join3, Path.join.
  destruct (deck a) as [|c s] eqn:E; [contradiction|].
  simpl in Hplain. apply andb_true_iff in Hplain as [Hc _]. apply negb_true_iff in Hc.
  simpl. now rewrite Hc.
Qed.

Lemma ancestors_dataset_path (a : args) :
  plain_name (deck a) ->
  ancestors (dataset_path a) = ["data"; "data/raw_images"; dataset_path a].
Proof.
  intros Hplain. rewrite (dataset_path_plain a Hplain). destruct Hplain as [Hne Hplain].
  pose proof (ancestors_from_plain "data/raw_images/" (deck a) Hplain Hne) as Hlast.
  unfold ancestors. generalize dependent (deck a). intros d _ _ Hlast.
  cbv in Hlast |- *. now rewrite Hlast.
Qed.

Lemma register_child_None q (fs : gmap string (node F)) p :
  fs !! p = None -> register_child q fs !! p = None.
Proof.
  intros Hp. unfold register_child.
  destruct (fs !! Path.dirname q) as [[names|c]|] eqn:E; auto.
  destruct (existsb _ names); auto.
  rewrite lookup_insert_ne; [assumption|]. intros <-. congruence.
Qed.

(** Creating a missing directory chain ends with the last directory
    present and empty. *)
Lemma mkdir_chain_creates dirs p (fs fs' : gmap string (node F)) :
  p ∉ dirs -> fs !! p = None ->
  mkdir_chain (dirs ++ [p]) fs = Ok fs' -> fs' !! p = Some (Dir []).
Proof.
  revert fs. induction dirs as [|q dirs IH]; intros fs Hnot Hp Hrun; simpl in Hrun.
  - rewrite Hp in Hrun. injection Hrun as <-. apply lookup_insert_eq.
  - apply not_elem_of_cons in Hnot as [Hne Hnot].
    destruct (fs !! q) as [[names|c]|] eqn:E.
    + now apply (IH fs).
    + destruct (dirs ++ [p])%list; discriminate.
    + apply (IH (<[q := Dir []]> (register_child q fs)) Hnot); [|assumption].
      rewrite lookup_insert_ne by congruence. now apply register_child_None.
Qed.

(** What the trainer does before it would train, on a deck without a
    dataset directory: it creates the directory and finds it empty. *)
Lemma train_creates_dataset_dir
    (fit_and_save : args -> string -> list string -> M F unit)
    (a : args) (w w' : world F) :
  plain_name (deck a) ->
  files w !! dataset_path a = None ->
  train model trainable_parameters fit_and_save a w = (Ok tt, w') ->
  exists fs',
    mkdir_chain (ancestors (dataset_path a)) (files w) = Ok fs' /\
    fs' !! dataset_path a = Some (Dir []) /\
    w' = {| files := fs';
            stdout := (stdout w ++
              [Text ("Initializing LoRA training for deck: " ++ deck a);
               Text ("Using device: " ++ (if cuda_available model then "cuda" else "cpu"));
               Text trainable_parameters;
               Text ("Warning: Dataset path " ++ dataset_path a
                     ++ " does not exist. Creating dummy dataset for structure verification.");
               Text ("Warning: No images found in " ++ dataset_path a);
               Text "No data found. Skipping training loop."])%list |}.
Proof.
  intros Hplain Hmiss Hrun. unfold train in Hrun.
  unfold bind at 1 in Hrun. rewrite print_eq in Hrun.
  unfold bind at 1 in Hrun. rewrite print_eq in Hrun.
  unfold bind at 1 in Hrun. rewrite print_eq in Hrun.
  unfold bind at 1, path_exists at 1 in Hrun. cbn [files stdout] in Hrun.
  fold (dataset_path a) in Hrun. rewrite Hmiss in Hrun. cbn [negb] in Hrun.
  unfold bind at 1 in Hrun. unfold bind at 1 in Hrun. rewrite print_eq in Hrun.
  unfold makedirs at 1 in Hrun. cbn [files stdout] in Hrun.
  destruct (String.eqb (dataset_path a) ""); [discriminate|].
  destruct (mkdir_chain (ancestors (dataset_path a)) (files w)) as [fs'|e] eqn:Emk;
    [|discriminate].
  assert (Hdir : fs' !! dataset_path a = Some (Dir [])).
  { rewrite (ancestors_dataset_path a Hplain) in Emk.
    apply (mkdir_chain_creates ["data"; "data/raw_images"] (dataset_path a) (files w) fs');
      [|assumption|exact Emk].
    rewrite (dataset_path_plain a Hplain). intros Hin.
    apply elem_of_cons in Hin as [Heq|Hin]; [discriminate Heq|].
    apply list_elem_of_singleton in Hin. discriminate Hin. }
  unfold bind at 1, dataset_init at 1 in Hrun.
  unfold bind at 1, listdir at 1 in Hrun. cbn [files stdout] in Hrun.
  rewrite Hdir in Hrun. cbn [List.filter] in Hrun.
  unfold bind at 1 in Hrun. rewrite print_eq in Hrun. unfold ret in Hrun.
  rewrite print_eq in Hrun. cbn [files stdout] in Hrun.
  exists fs'. split_and!; [reflexivity|assumption|].
  injection Hrun as <-. rewrite <- !app_assoc. reflexivity.
Qed.

Lemma train_skips_on_created_dir
    (fit_and_save : args -> string -> list string -> M F unit)
    (a : args) (w : world F) (fs' : gmap string (node F)) :
  files w !! dataset_path a = None ->
  mkdir_chain (ancestors (dataset_path a)) (files w) = Ok fs' ->
  fs' !! dataset_path a = Some (Dir []) ->
  train model trainable_parameters fit_and_save a w
  = (Ok tt,
     {| files := fs';
        stdout := (stdout w ++
          [Text ("Initializing LoRA training for deck: " ++ deck a);
           Text ("Using device: " ++ (if cuda_available model then "cuda" else "cpu"));
           Text trainable_parameters;
           Text ("Warning: Dataset path " ++ dataset_path a
                 ++ " does not exist. Creating dummy dataset for structure verification.");
           Text ("Warning: No images found in " ++ dataset_path a);
           Text "No data found. Skipping training loop."])%list |}).
Proof.
  intros Hmiss Emk Hdir. unfold train.
  unfold bind at 1. rewrite print_eq.
  unfold bind at 1. rewrite print_eq.
  unfold bind at 1. rewrite print_eq.
  unfold bind at 1, path_exists at 1. cbn [files stdout].
  fold (dataset_path a). rewrite Hmiss. cbn [negb].
  unfold bind at 1. unfold bind at 1. rewrite print_eq.
  unfold makedirs at 1. cbn [files stdout].
  assert (Hne : String.eqb (dataset_path a) "" = false).
  { apply String.eqb_neq. intros Heq. rewrite Heq in Emk.
    unfold ancestors in Emk. cbn in Emk. injection Emk as <-.
    rewrite Heq in Hdir. congruence. }
  rewrite Hne, Emk.
  unfold bind at 1, dataset_init at 1.
  unfold bind at 1, listdir at 1. cbn [files stdout].
  rewrite Hdir. cbn [List.filter].
  unfold bind at 1. rewrite print_eq. unfold ret.
  rewrite print_eq. cbn [files stdout].
  rewrite <- !app_assoc. reflexivity.
Qed.


(** X17 : Training a deck whose dataset directory holds no image file: the
    trainer warns, returns without training whatever the training
    procedure is, and leaves the file system as it was. *)
Theorem train_without_images
    (fit_and_save : args -> string -> list string -> M F unit)
    (a : args) (w : world F) (names : list string) :
  files w !! dataset_path a = Some (Dir names) ->
  List.filter (fun f => Py.endswith_any f [".jpg"; ".jpeg"; ".png"]) names = [] ->
  train model trainable_parameters fit_and_save a w
  = (Ok tt,
     {| files := files w;
        stdout := (stdout w ++
          [Text ("Initializing LoRA training for deck: " ++ deck a);
           Text ("Using device: " ++ (if cuda_available model then "cuda" else "cpu"));
           Text trainable_parameters;
           Text ("Warning: No images found in " ++ dataset_path a);
           Text "No data found. Skipping training loop."])%list |}).
Proof.
  intros Hdir Hnone. unfold train.
  unfold bind at 1. rewrite print_eq.
  unfold bind at 1. rewrite print_eq.
  unfold bind at 1. rewrite print_eq.
  unfold bind at 1, path_exists at 1. cbn [files stdout].
  fold (dataset_path a). rewrite Hdir. cbn [negb].
  unfold bind at 1. unfold ret at 1.
  unfold bind at 1, dataset_init at 1.
  unfold bind at 1, listdir at 1. cbn [files stdout].
  rewrite Hdir, Hnone.
  unfold bind at 1. rewrite print_eq. unfold ret.
  rewrite print_eq. cbn [files stdout].
  rewrite <- !app_assoc. reflexivity.
Qed.


End TrainFacts.

(** ** The further properties on concrete worlds *)

Section ExtraScenarios.
Import Worked MoreWorked.

(** X4 : Whenever the export step completes, the document it has written
    holds this deck's entry under its canonical id, and every other
    deck's entry and every other top-level field of the document that
    was there before is in it unchanged. *)
Theorem completed_export_keeps_other_decks {F : Type} (a : BuildVectorIndex.args)
    (export_path : string) (embeddings : list (ndarray F))
    (metadata : list BuildVectorIndex.card_meta) (w w' : world F) :
  BuildVectorIndex.export_step a export_path embeddings metadata w = (Ok tt, w') ->
  exists cards doc',
    files w' !! export_path = Some (File (JsonText doc')) /\
    BuildVectorIndex.deck_entry doc' (BuildVectorIndex.app_deck_id (BuildVectorIndex.deck a))
      = Some (JObj [("cards", JObj cards)]) /\
    (forall other, other <> BuildVectorIndex.app_deck_id (BuildVectorIndex.deck a) ->
       BuildVectorIndex.deck_entry doc' other
       = BuildVectorIndex.deck_entry (BuildVectorIndex.existing_doc export_path w) other) /\
    (forall k, k <> "deckStyles" ->
       BuildVectorIndex.top_field doc' k
       = BuildVectorIndex.top_field (BuildVectorIndex.existing_doc export_path w) k).
Proof.
  intros H. apply BuildFacts.export_step_Ok in H as (cards & doc' & Hmerge & Hfile & _).
  apply ExportFacts.merge_export_frame in Hmerge as (_ & Hthis & Hothers & Htop).
  exists cards, doc'. auto.
Qed.

Lemma completed_export_keeps_other_decks_witness :
  exists cards doc',
    files (snd (BuildVectorIndex.export_step (build_rws_export "out/prototypes.json")
                  "out/prototypes.json" one_embedding one_record w_marseille))
      !! "out/prototypes.json" = Some (File (JsonText doc')) /\
    BuildVectorIndex.deck_entry doc' "rws-1909" = Some (JObj [("cards", JObj cards)]) /\
    (forall other, other <> "rws-1909" ->
       BuildVectorIndex.deck_entry doc' other
       = BuildVectorIndex.deck_entry
           (BuildVectorIndex.existing_doc "out/prototypes.json" w_marseille) other) /\
    (forall k, k <> "deckStyles" ->
       BuildVectorIndex.top_field doc' k
       = BuildVectorIndex.top_field
           (BuildVectorIndex.existing_doc "out/prototypes.json" w_marseille) k).
Proof.
  apply (completed_export_keeps_other_decks (build_rws_export "out/prototypes.json")
           "out/prototypes.json" one_embedding one_record w_marseille).
  vm_compute. reflexivity.
Defined.

Lemma build_touches_only_its_artifacts_witness :
  files (snd (BuildVectorIndex.build_index toy (build_rws_export "out/prototypes.json")
                w_marseille))
    !! "data/raw_images/rws/01_fool.jpg" = Some (File (Blob "a")).
Proof.
  apply (build_touches_only_its_artifacts toy (build_rws_export "out/prototypes.json")
           w_marseille "data/raw_images/rws/01_fool.jpg" (Blob "a")).
  - vm_compute. discriminate.
  - vm_compute. discriminate.
  - vm_compute. discriminate.
  - vm_compute. reflexivity.
Defined.

Lemma query_after_build_witness :
  exists lines,
    TestIndex.test_index toy (TestIndex.Args "rws" "a tarot card of the fool") w_built
      = (Ok tt, {| files := files w_built; stdout := (stdout w_built ++ lines)%list |}) /\
    length (TestIndex.rank_lines lines) = 5%nat.
Proof.
  apply (query_after_build toy build_rws "a tarot card of the fool" w_three w_built
           ["01_fool.jpg"; "02_magician.jpg"; "03_priestess.jpg"]).
  - vm_compute. reflexivity.
  - vm_compute. discriminate.
  - intros p Hp. vm_compute in Hp. discriminate Hp.
  - vm_compute. reflexivity.
  - vm_compute. exact I.
  - intros d rs adapter H. vm_compute in H. injection H as <- _. reflexivity.
Defined.

Lemma merge_export_idempotent_witness :
  BuildVectorIndex.merge_export merged_document "rws-1909" one_embedding one_record
  = Ok (fool_cards, merged_document).
Proof.
  apply (merge_export_idempotent marseille_document merged_document "rws-1909"
           one_embedding one_record fool_cards).
  vm_compute. reflexivity.
Defined.

Lemma export_starts_from_empty_document_witness :
  exists cards,
    BuildVectorIndex.cards_loop one_embedding 0 one_record [] = Ok cards /\
    files (snd (BuildVectorIndex.export_step (build_rws_export "out/prototypes.json")
                  "out/prototypes.json" one_embedding one_record w_three))
      !! "out/prototypes.json"
    = Some (File (JsonText
        (JObj [("deckStyles", JObj [("rws-1909", JObj [("cards", JObj cards)])])]))).
Proof.
  apply (export_starts_from_empty_document (build_rws_export "out/prototypes.json")
           "out/prototypes.json" one_embedding one_record w_three).
  - intros j H. vm_compute in H. discriminate H.
  - vm_compute. reflexivity.
Defined.

Lemma export_keeps_unexpected_document_witness :
  fst (BuildVectorIndex.export_step (build_rws_export "out/prototypes.json")
         "out/prototypes.json" one_embedding one_record w_array_document)
    = Raise TypeError /\
  files (snd (BuildVectorIndex.export_step (build_rws_export "out/prototypes.json")
                "out/prototypes.json" one_embedding one_record w_array_document))
    = files w_array_document.
Proof.
  apply (export_keeps_unexpected_document (build_rws_export "out/prototypes.json")
           "out/prototypes.json" one_embedding one_record w_array_document (JArr [])).
  - vm_compute. reflexivity.
  - intros H. exact H.
  - vm_compute. lia.
Defined.

Lemma build_index_ids_when_all_embed_witness :
  files w_built !! BuildVectorIndex.metadata_path build_rws
  = Some (File (JsonText (JArr (map BuildVectorIndex.json_of_meta
       (imap (fun i f => BuildVectorIndex.CardMeta i f (BuildVectorIndex.derive_card_name f))
             (BuildVectorIndex.image_files_of
                ["01_fool.jpg"; "02_magician.jpg"; "03_priestess.jpg"])))))).
Proof.
  apply (BuildFacts.build_index_ids_when_all_embed toy build_rws w_three w_built
           ["01_fool.jpg"; "02_magician.jpg"; "03_priestess.jpg"]).
  - vm_compute. reflexivity.
  - vm_compute. discriminate.
  - repeat constructor; eexists; vm_compute; reflexivity.
  - intros p Hp. vm_compute in Hp. discriminate Hp.
  - vm_compute. reflexivity.
Defined.

Lemma persisted_ids_point_into_listing_witness :
  exists records,
    files (snd (BuildVectorIndex.build_index toy build_rws w_corrupt))
      !! BuildVectorIndex.metadata_path build_rws
    = Some (File (JsonText (JArr (map BuildVectorIndex.json_of_meta records)))) /\
    Forall (fun r =>
              BuildVectorIndex.image_files_of ["01_fool.jpg"; "02_magician.jpg"]
                !! BuildVectorIndex.id r = Some (BuildVectorIndex.filename r) /\
              BuildVectorIndex.card_name r
              = BuildVectorIndex.derive_card_name (BuildVectorIndex.filename r)) records /\
    (forall i j ri rj, (i < j)%nat -> records !! i = Some ri -> records !! j = Some rj ->
                       (BuildVectorIndex.id ri < BuildVectorIndex.id rj)%nat).
Proof.
  apply (persisted_ids_point_into_listing toy build_rws w_corrupt
           (snd (BuildVectorIndex.build_index toy build_rws w_corrupt))
           ["01_fool.jpg"; "02_magician.jpg"]).
  - vm_compute. reflexivity.
  - vm_compute. discriminate.
  - intros p Hp. vm_compute in Hp. discriminate Hp.
  - vm_compute. reflexivity.
Defined.

Lemma build_with_unloadable_adapter_witness :
  fst (BuildVectorIndex.build_index toy build_rws_adapter w_broken_adapter) = Raise ValueError /\
  files (snd (BuildVectorIndex.build_index toy build_rws_adapter w_broken_adapter))
    = files w_broken_adapter /\
  fst (BuildVectorIndex.main toy build_rws_adapter w_broken_adapter) = 1.
Proof.
  apply (build_with_unloadable_adapter toy build_rws_adapter w_broken_adapter "adapter.bin"
           (File (Blob "not an adapter")) ValueError).
  - vm_compute. reflexivity.
  - vm_compute. reflexivity.
  - vm_compute. reflexivity.
Defined.

Lemma build_on_file_instead_of_directory_witness :
  fst (BuildVectorIndex.build_index toy build_rws w_dir_is_file) = Raise NotADirectoryError /\
  files (snd (BuildVectorIndex.build_index toy build_rws w_dir_is_file)) = files w_dir_is_file /\
  fst (BuildVectorIndex.main toy build_rws w_dir_is_file) = 1.
Proof.
  apply (build_on_file_instead_of_directory toy build_rws w_dir_is_file
           (Blob "not a directory")).
  - vm_compute. exact I.
  - vm_compute. reflexivity.
Defined.

Lemma report_by_list_position_witness :
  TestIndex.report
    (JArr [JObj [("id", JInt 7); ("filename", JStr "a.jpg"); ("card_name", JStr "a")];
           JObj [("id", JInt 9); ("filename", JStr "b.jpg"); ("card_name", JStr "b")]])
    [40; 30] [1; 2] 0 w_empty
  = (Ok tt, {| files := files w_empty;
               stdout := (stdout w_empty
                          ++ [RankLine (0 + 1) (JStr "b") 40; FileLine (JStr "b.jpg")])%list |}) /\
  TestIndex.report
    (JArr [JObj [("id", JInt 7); ("filename", JStr "a.jpg"); ("card_name", JStr "a")];
           JObj [("id", JInt 9); ("filename", JStr "b.jpg"); ("card_name", JStr "b")]])
    [40; 30] [1; 2] 1 w_empty
  = (Ok tt, {| files := files w_empty;
               stdout := (stdout w_empty ++ [UnknownLine (1 + 1) 2])%list |}).
Proof.
  split.
  - apply (proj1 (report_by_list_position
                    [JObj [("id", JInt 7); ("filename", JStr "a.jpg"); ("card_name", JStr "a")];
                     JObj [("id", JInt 9); ("filename", JStr "b.jpg"); ("card_name", JStr "b")]]
                    [40; 30] [1; 2] 0 1 40 w_empty eq_refl eq_refl ltac:(lia))
             [("id", JInt 9); ("filename", JStr "b.jpg"); ("card_name", JStr "b")]);
      reflexivity.
  - apply (proj2 (report_by_list_position
                    [JObj [("id", JInt 7); ("filename", JStr "a.jpg"); ("card_name", JStr "a")];
                     JObj [("id", JInt 9); ("filename", JStr "b.jpg"); ("card_name", JStr "b")]]
                    [40; 30] [1; 2] 1 2 30 w_empty eq_refl eq_refl ltac:(lia))).
    reflexivity.
Defined.

Lemma plain_rws : TrainLoRA.plain_name (TrainLoRA.deck train_rws).
Proof. split; [discriminate|reflexivity]. Defined.


Lemma train_without_images_witness :
  TrainLoRA.train toy toy_parameters toy_fit train_rws w_no_images
  = (Ok tt,
     {| files := files w_no_images;
        stdout := (stdout w_no_images ++
          [Text ("Initializing LoRA training for deck: " ++ TrainLoRA.deck train_rws);
           Text ("Using device: " ++ (if cuda_available toy then "cuda" else "cpu"));
           Text toy_parameters;
           Text ("Warning: No images found in " ++ TrainLoRA.dataset_path train_rws);
           Text "No data found. Skipping training loop."])%list |}).
Proof.
  apply (train_without_images toy toy_parameters toy_fit train_rws w_no_images ["notes.txt"]).
  - vm_compute. reflexivity.
  - vm_compute. reflexivity.
Defined.


End ExtraScenarios.

(** ** The ranks of a report *)

Section RankFacts.
Import TestIndex.
Context {F : Type} {SF : Scalar F}.
Variable model : clip F.

Lemma report_one_rank (metadata : json F) (D0 : list F) (I0 : list Z) (i : nat)
    (idx : Z) (score : F) (w : world F) :
  well_formed metadata ->
  I0 !! i = Some idx -> D0 !! i = Some score -> -1 <= idx ->
  exists lines,
    report metadata D0 I0 i w
      = (Ok tt, {| files := files w; stdout := (stdout w ++ lines)%list |}) /\
    map rank_of (rank_lines lines) = [Some (i + 1)%nat].
Proof.
  intros (l & -> & Hne & Hcards) HI HD Hidx. unfold report. rewrite HI, HD.
  unfold bind at 1, lift at 1. cbn [py_len].
  destruct (idx <? Z.of_nat (length l)) eqn:Elt.
  - apply Z.ltb_lt in Elt.
    destruct (QueryFacts.subscript_total (length l) idx) as (m & Hm & Hlt);
      [now destruct l|lia|].
    destruct (lookup_lt_is_Some_2 l m Hlt) as [v Hv].
    rewrite Forall_lookup in Hcards.
    destruct (Hcards m v Hv) as (d & name & file & -> & Hname & Hfile).
    unfold bind at 1, lift at 1. cbn [getitem_int]. rewrite Hm, Hv.
    unfold bind at 1, lift at 1. cbn [getitem_str]. rewrite Hname.
    unfold bind at 1. rewrite print_eq.
    unfold bind at 1, lift at 1. rewrite Hfile. rewrite print_eq. cbn [files stdout].
    exists [RankLine (i + 1) name score; FileLine file]. split; [|reflexivity].
    now rewrite <- app_assoc.
  - rewrite print_eq. exists [UnknownLine (i + 1) idx]. split; reflexivity.
Qed.

Lemma for_range_ranks (metadata : json F) (D0 : list F) (I0 : list Z)
    (range : list nat) (w : world F) :
  well_formed metadata ->
  Forall (fun i => exists idx score,
                     I0 !! i = Some idx /\ D0 !! i = Some score /\ -1 <= idx) range ->
  exists lines,
    for_range (report metadata D0 I0) range w
      = (Ok tt, {| files := files w; stdout := (stdout w ++ lines)%list |}) /\
    map rank_of (rank_lines lines) = map (fun i => Some (i + 1)%nat) range.
Proof.
  intros Hwf Hrange. revert w.
  induction Hrange as [|i range (idx & score & HI & HD & Hidx) _ IH]; intros w; simpl.
  - exists []. unfold ret. rewrite app_nil_r. split; [now destruct w|reflexivity].
  - destruct (report_one_rank metadata D0 I0 i idx score w Hwf HI HD Hidx) as (l1 & Hrun & Hl1).
    unfold bind. rewrite Hrun.
    destruct (IH {| files := files w; stdout := (stdout w ++ l1)%list |}) as (l2 & -> & Hl2).
    cbn [files stdout]. exists (l1 ++ l2)%list. split.
    + now rewrite app_assoc.
    + rewrite QueryFacts.rank_lines_app, List.map_app, Hl1, Hl2. reflexivity.
Qed.

(** X15 : A completed report numbers its ranked lines 1, 2, 3, 4, 5 in the
    order of the search result: ranks start at 1, none is skipped or
    repeated, also for the slots reported as unknown.  The report
    completes when the deck's adapter, if there is one, loads. *)
Theorem query_ranks_are_one_to_five (a : args) (w : world F)
    (d : nat) (rs : list (list F)) (metadata : json F) :
  adapter_ready model a w ->
  files w !! index_path a = Some (File (FaissFile d rs)) ->
  files w !! metadata_path a = Some (File (JsonText metadata)) ->
  well_formed metadata ->
  (forall adapter, length (text_features model adapter (query a)) = d) ->
  exists lines,
    test_index model a w
      = (Ok tt, {| files := files w; stdout := (stdout w ++ lines)%list |}) /\
    map rank_of (rank_lines lines) = [Some 1; Some 2; Some 3; Some 4; Some 5]%nat.
Proof.
  intros Hready Hix Hmd Hwf Hdim. unfold test_index, bind at 1. rewrite print_eq.
  unfold bind at 1, path_exists at 1. unfold bind at 1, path_exists at 1.
  cbn [files stdout]. fold (index_path a). fold (metadata_path a).
  rewrite Hix, Hmd. cbn [negb orb].
  unfold bind at 1, read_file at 1. cbn [files stdout]. rewrite Hix.
  unfold bind at 1, lift at 1. cbn [read_index].
  unfold bind at 1, read_file at 1. cbn [files stdout]. rewrite Hmd.
  unfold bind at 1, lift at 1. cbn [json_load].
  unfold bind at 1. rewrite print_eq.
  unfold bind at 1, path_exists at 1. cbn [files stdout].
  set (adapter_path := Path.join3 "models" "adapters" (deck a)).
  assert (Hadapter :
    forall w0 : world F, files w0 = files w -> exists ad (note : string),
      (if match files w0 !! adapter_path with Some _ => true | None => false end
       then do! print (Text ("Loading LoRA adapter from " ++ adapter_path)) in
            do! (fun w1 => (load_adapter model (files w1) adapter_path, w1)) in
            ret (Some adapter_path)
       else do! print (Text "Warning: Adapter not found, using base model.") in ret None) w0
      = (Ok ad, {| files := files w0; stdout := (stdout w0 ++ [Text note])%list |})).
  { intros w0 Hw0. unfold adapter_ready, adapter_dir in Hready. fold adapter_path in Hready.
    rewrite Hw0. destruct (files w !! adapter_path).
    - unfold bind at 1. rewrite print_eq. unfold bind. cbn [files stdout].
      rewrite Hw0, Hready. unfold ret. eauto.
    - unfold bind. rewrite print_eq. unfold ret. rewrite <- Hw0. eauto. }
  unfold bind at 1.
  match goal with
  | |- context [(if _ then _ else _) ?w0] =>
      destruct (Hadapter w0 eq_refl) as (ad & note & Had)
  end.
  cbn [files stdout] in Had. rewrite Had. clear Had Hadapter.
  unfold bind at 1. rewrite print_eq.
  destruct (QueryFacts.index_search_total (IndexFlatIP d rs)
              (text_features model ad (query a)) k)
    as (D0 & I0 & Hsearch); [apply Hdim|].
  unfold bind at 1, lift at 1. rewrite Hsearch.
  unfold bind at 1. rewrite print_eq. cbn [files stdout].
  apply QueryFacts.index_search_spec in Hsearch as (HD & HI & Hlabels & _).
  match goal with
  | |- context [for_range _ _ ?w0] =>
      destruct (for_range_ranks metadata D0 I0 (seq 0 k) w0 Hwf) as (lines & -> & Hlines)
  end.
  - apply Forall_forall. intros i Hi. apply list_elem_of_In, in_seq in Hi.
    assert (Hlt : (i < k)%nat) by lia.
    destruct (lookup_lt_is_Some_2 I0 i) as [idx Hidx]; [lia|].
    destruct (lookup_lt_is_Some_2 D0 i) as [score Hscore]; [lia|].
    exists idx, score. split_and!; auto.
    rewrite Forall_lookup in Hlabels. apply Hlabels in Hidx. unfold label_ok in Hidx. lia.
  - cbn [files stdout]. eexists. split.
    + rewrite <- !app_assoc. reflexivity.
    + cbn [app]. unfold rank_lines in *. cbn [List.filter is_rank_line].
      rewrite Hlines. reflexivity.
Qed.

End RankFacts.

Section RankScenario.
Import Worked.

Lemma query_ranks_are_one_to_five_witness :
  exists lines,
    TestIndex.test_index toy query_rws w_built
      = (Ok tt, {| files := files w_built; stdout := (stdout w_built ++ lines)%list |}) /\
    map rank_of (TestIndex.rank_lines lines) = [Some 1; Some 2; Some 3; Some 4; Some 5]%nat.
Proof.
  apply (query_ranks_are_one_to_five toy query_rws w_built 2 [[1; 1]; [2; 1]; [3; 1]]
           claimed_metadata).
  - vm_compute. exact I.
  - vm_compute; reflexivity.
  - vm_compute; reflexivity.
  - eexists. split; [reflexivity|]. split; [discriminate|].
    repeat constructor; eexists _, _, _; split_and!; reflexivity.
  - intros adapter. reflexivity.
Defined.

End RankScenario.
